(** * Weather ETL pipeline (main.py): embedding and verified properties

    The pipeline has three stages, [extract], [transform] and [load], run in
    sequence by [run_etl_pipeline].  The embedding keeps the program's shape:

    - Python values are the inductive type [pyval]; a Python [float] is a
      binary64 number, here Rocq's primitive [float], and the arithmetic and
      comparisons of the program are the IEEE-754 operations on it;
    - a naive [datetime] is its position on the wall-clock time line, counted
      in microseconds, so that the order of two datetimes is the order of [Z];
    - a pandas DataFrame is an ordered list of column labels and an ordered
      list of rows, every row holding one cell per column; an operation on a
      column is the same operation on every row.  [pd.DataFrame] gives each
      column one dtype, and [transform] computes on float64 and on int64
      temperature columns, the two that JSON numbers make; it returns the
      frame it was given, extended (Python extends it in place);
    - an SQL statement is kept as its syntax tree; the table records, for
      each committed row, one value per column.  [execute_values] sends one
      INSERT for every hundred rows; the server reads the column names
      without regard to case, converts every value to the type of its
      column and checks the primary key;
    - the effects (logging, HTTP requests, the wall clock, the PostgreSQL
      session) are threaded through a reader/state/exception monad [M] over
      an environment [Env] of outside behaviour and a state [State]. *)

From Stdlib Require Import ZArith List Ascii String Bool Lia Floats Permutation.
Import ListNotations.
Local Open Scope string_scope.
Local Open Scope list_scope.
Set Warnings "-register-all".
Set Warnings "-inexact-float".

(** ** Binary64 comparisons

    The program compares temperatures with [<] and [>]; these are the IEEE
    comparisons, false as soon as one side is a NaN.  The lemmas below give
    the little order theory the bucket boundaries need. *)

Module F64.

Definition lt (x y : float) : bool := PrimFloat.ltb x y.
Definition le (x y : float) : bool := PrimFloat.leb x y.
Definition gt (x y : float) : bool := PrimFloat.ltb y x.

End F64.

(** ** Python values and exceptions *)

(** A naive [datetime]: microseconds on the wall-clock time line. *)
Definition datetime := Z.

Definition seconds (n : Z) : Z := (n * 1000000)%Z.

Inductive pyval : Type :=
| PNone
| PBool (b : bool)
| PInt (n : Z)
| PFloat (x : float)
| PStr (s : string)
| PList (l : list pyval)
| PDict (d : list (string * pyval))
| PDatetime (t : datetime).

(** The exceptions that can travel through the pipeline.  [NotModelled]
    marks an input whose run-time behaviour is not followed here: a
    temperature column that holds something else than JSON numbers of the
    int64 range, a time column that does not hold datetimes, a column label
    that is not one plain SQL identifier.  A theorem about a run that
    returns never meets it. *)
Inductive exn : Type :=
| ValueError (msg : string)
| KeyError (key : pyval)
| IndexError
| TypeError
| PlatformError            (* raised by [datetime.fromtimestamp] *)
| ConnectionError          (* requests: no response was obtained *)
| HTTPError (status : Z)   (* requests: [raise_for_status] *)
| JSONDecodeError          (* requests: the body is not JSON *)
| OperationalError         (* psycopg2: the server could not be reached *)
| CannotAdapt              (* psycopg2.ProgrammingError: can't adapt type *)
| SqlSyntaxError           (* psycopg2.errors.SyntaxError *)
| UndefinedTable
| UndefinedColumn (c : string)
| DuplicateColumn
| DatatypeMismatch         (* the column type has no conversion from the value's *)
| NumericValueOutOfRange   (* a DataError: integer out of range *)
| NotNullViolation
| UniqueViolation
| DataError                (* psycopg2: any other value the server refuses *)
| NotModelled.

(** [requests.exceptions.RequestException] and its subclasses (the
    JSONDecodeError of requests is one of them since version 2.27). *)
Definition is_RequestException (e : exn) : bool :=
  match e with
  | ConnectionError | HTTPError _ | JSONDecodeError => true
  | _ => false
  end.

Inductive result (A : Type) : Type :=
| Return (a : A)
| Raise (e : exn).
Arguments Return {A} a.
Arguments Raise {A} e.

Definition rbind {A B} (r : result A) (k : A -> result B) : result B :=
  match r with
  | Return a => k a
  | Raise e => Raise e
  end.

Declare Scope result_scope.
Delimit Scope result_scope with result.
Notation "x <- c ;; k" := (rbind c (fun x => k))
  (at level 61, c at next level, right associativity) : result_scope.

Fixpoint rmap {A B} (f : A -> result B) (l : list A) : result (list B) :=
  match l with
  | [] => Return []
  | a :: l' =>
      (b <- f a ;;
       bs <- rmap f l' ;;
       Return (b :: bs))%result
  end.

(** *** Subscripting, [v[key]] and [v[i]] *)

Fixpoint dict_get (d : list (string * pyval)) (key : string) : option pyval :=
  match d with
  | [] => None
  | (k, v) :: d' => if String.eqb k key then Some v else dict_get d' key
  end.

Definition getitem_key (v : pyval) (key : string) : result pyval :=
  match v with
  | PDict d =>
      match dict_get d key with
      | Some x => Return x
      | None => Raise (KeyError (PStr key))
      end
  | _ => Raise TypeError
  end.

Definition getitem_index (v : pyval) (i : nat) : result pyval :=
  match v with
  | PList l =>
      match nth_error l i with
      | Some x => Return x
      | None => Raise IndexError
      end
  | PStr s =>
      match String.get i s with
      | Some c => Return (PStr (String c EmptyString))
      | None => Raise IndexError
      end
  | PDict _ => Raise (KeyError (PInt (Z.of_nat i)))
  | _ => Raise TypeError
  end.

(** ** DataFrames *)

Record DataFrame : Type := {
  columns : list string;
  rows : list (list pyval)
}.

Definition Series := list pyval.

Fixpoint index_of (c : string) (cs : list string) : option nat :=
  match cs with
  | [] => None
  | c' :: cs' =>
      if String.eqb c' c then Some 0
      else option_map S (index_of c cs')
  end.

Definition len (df : DataFrame) : nat := List.length (rows df).

(** [cell df i c]: the value of column [c] in the [i]-th row. *)
Definition cell (df : DataFrame) (i : nat) (c : string) : option pyval :=
  match index_of c (columns df), nth_error (rows df) i with
  | Some k, Some r => nth_error r k
  | _, _ => None
  end.

(** The NaN pandas puts where a record lacks a key or holds None among
    numbers. *)
Definition NaN : pyval := PFloat PrimFloat.nan.

(** *** Numbers *)

Definition in_int64 (n : Z) : bool :=
  ((-9223372036854775808 <=? n) && (n <=? 9223372036854775807))%Z.

(** [float(n)]: the binary64 number nearest to [n], ties to even. *)
Definition float_of_int (n : Z) : float :=
  SF2Prim (binary_normalize prec emax n 0 false).

(** Arithmetic on int64 wraps around. *)
Definition wrap64 (n : Z) : Z :=
  ((n + 9223372036854775808) mod 18446744073709551616 - 9223372036854775808)%Z.

Definition is_float (v : pyval) : bool :=
  match v with
  | PFloat _ => true
  | _ => false
  end.

Definition is_int64 (v : pyval) : bool :=
  match v with
  | PInt n => in_int64 n
  | _ => false
  end.

Definition is_null (v : pyval) : bool :=
  match v with
  | PNone => true
  | _ => false
  end.

Definition is_number (v : pyval) : bool := is_int64 v || is_float v.

(** *** [pd.DataFrame(records)]

    The columns are the keys of the dicts in order of first appearance, a
    row holds the values of one dict.  pandas gives every column one dtype:
    a column of numbers (integers of the int64 range, floats, None) that
    holds a float or a None beside a number becomes float64, its integers
    turned into floats and its None into NaN; a column of integers stays
    int64; any other column keeps the Python objects as they are. *)

Definition becomes_float64 (column : list pyval) : bool :=
  forallb (fun v => is_number v || is_null v) column
  && existsb is_number column
  && (existsb is_float column || existsb is_null column).

(** The value a column holds for the Python value [v]. *)
Definition held (column : list pyval) (v : pyval) : pyval :=
  if becomes_float64 column then
    match v with
    | PInt n => PFloat (float_of_int n)
    | PNone => NaN
    | _ => v
    end
  else v.

Fixpoint add_keys (cs : list string) (d : list (string * pyval)) : list string :=
  match d with
  | [] => cs
  | (k, _) :: d' =>
      match index_of k cs with
      | Some _ => add_keys cs d'
      | None => add_keys (cs ++ [k]) d'
      end
  end.

Definition record_cell (d : list (string * pyval)) (c : string) : pyval :=
  match dict_get d c with
  | Some v => v
  | None => NaN
  end.

Definition pd_DataFrame (records : list (list (string * pyval))) : DataFrame :=
  let cs := fold_left add_keys records [] in
  let column c := map (fun d => record_cell d c) records in
  {| columns := cs;
     rows := map (fun d => map (fun c => held (column c) (record_cell d c)) cs) records |}.

(** [df[c]] *)
Definition get_column (df : DataFrame) (c : string) : result Series :=
  match index_of c (columns df) with
  | Some k => Return (map (fun r => nth k r PNone) (rows df))
  | None => Raise (KeyError (PStr c))
  end.

Fixpoint replace_nth {A} (k : nat) (l : list A) (v : A) : list A :=
  match l, k with
  | [], _ => []
  | _ :: l', O => v :: l'
  | a :: l', S k' => a :: replace_nth k' l' v
  end.

Fixpoint zip_with {A B C} (f : A -> B -> C) (l : list A) (m : list B) : list C :=
  match l, m with
  | a :: l', b :: m' => f a b :: zip_with f l' m'
  | _, _ => []
  end.

(** [df[c] = s] for a Series [s]: an existing column is overwritten in
    place, a new one is appended on the right. *)
Definition set_column (df : DataFrame) (c : string) (s : Series) : result DataFrame :=
  if negb (Nat.eqb (List.length s) (len df)) then
    Raise (ValueError "Length of values does not match length of index")
  else
    match index_of c (columns df) with
    | Some k =>
        Return {| columns := columns df;
                  rows := zip_with (fun r v => replace_nth k r v) (rows df) s |}
    | None =>
        Return {| columns := columns df ++ [c];
                  rows := zip_with (fun r v => r ++ [v]) (rows df) s |}
    end.

(** [df[c] = v] for a scalar [v], broadcast to every row. *)
Definition set_scalar (df : DataFrame) (c : string) (v : pyval) : result DataFrame :=
  set_column df c (repeat v (len df)).

(** [df.loc[mask, c] = v] on an existing column [c]. *)
Definition loc_set (df : DataFrame) (mask : list bool) (c : string) (v : pyval)
  : result DataFrame :=
  if negb (Nat.eqb (List.length mask) (len df)) then
    Raise (ValueError "Item wrong length")
  else
    match index_of c (columns df) with
    | Some k =>
        Return {| columns := columns df;
                  rows := zip_with (fun r (b : bool) => if b then replace_nth k r v else r)
                            (rows df) mask |}
    | None =>
        Return {| columns := columns df ++ [c];
                  rows := zip_with (fun r (b : bool) => r ++ [if b then v else NaN])
                            (rows df) mask |}
    end.

(** [df.apply(f, axis=1)]: [f] sees each row with its labels. *)
Definition apply_rows (f : list string -> list pyval -> result pyval) (df : DataFrame)
  : result Series :=
  rmap (f (columns df)) (rows df).

(** [row[c]] inside [apply] *)
Definition row_get (cs : list string) (r : list pyval) (c : string) : result pyval :=
  match index_of c cs with
  | Some k =>
      match nth_error r k with
      | Some v => Return v
      | None => Raise (KeyError (PStr c))
      end
  | None => Raise (KeyError (PStr c))
  end.

(** [df.itertuples(index=False)] turned into tuples. *)
Definition itertuples (df : DataFrame) : list (list pyval) := rows df.

(** *** The array behind a column

    A column of floats is a float64 array, a column of integers of the
    int64 range an int64 array; the program computes with both.  Any other
    column is an array of objects; what pandas does with it in arithmetic
    is not followed here. *)

Inductive ndarray : Type :=
| Float64 (xs : list float)
| Int64 (ns : list Z)
| Object (vs : list pyval).

Fixpoint floats_of (s : Series) : option (list float) :=
  match s with
  | [] => Some []
  | PFloat x :: s' => option_map (cons x) (floats_of s')
  | _ :: _ => None
  end.

Fixpoint ints_of (s : Series) : option (list Z) :=
  match s with
  | [] => Some []
  | PInt n :: s' => if in_int64 n then option_map (cons n) (ints_of s') else None
  | _ :: _ => None
  end.

(** [s.values] *)
Definition values (s : Series) : ndarray :=
  match s with
  | [] => Object []
  | _ :: _ =>
      match floats_of s, ints_of s with
      | Some xs, _ => Float64 xs
      | None, Some ns => Int64 ns
      | None, None => Object s
      end
  end.

Definition as_datetime (v : pyval) : result datetime :=
  match v with
  | PDatetime t => Return t
  | _ => Raise NotModelled
  end.

(** [s * c], [s / c] and [s + c] for a Series [s] and a Python integer [c].
    On float64 the constant is converted to a float; on int64 the product
    and the sum stay int64, and the quotient is the float64 division of the
    converted operands. *)
Definition series_mul (s : Series) (c : Z) : result Series :=
  match values s with
  | Float64 xs => Return (map (fun x => PFloat (x * float_of_int c)) xs)
  | Int64 ns => Return (map (fun n => PInt (wrap64 (n * c))) ns)
  | Object [] => Return []
  | Object _ => Raise NotModelled
  end.

Definition series_div (s : Series) (c : Z) : result Series :=
  match values s with
  | Float64 xs => Return (map (fun x => PFloat (x / float_of_int c)) xs)
  | Int64 ns => Return (map (fun n => PFloat (float_of_int n / float_of_int c)) ns)
  | Object [] => Return []
  | Object _ => Raise NotModelled
  end.

Definition series_add (s : Series) (c : Z) : result Series :=
  match values s with
  | Float64 xs => Return (map (fun x => PFloat (x + float_of_int c)) xs)
  | Int64 ns => Return (map (fun n => PInt (wrap64 (n + c))) ns)
  | Object [] => Return []
  | Object _ => Raise NotModelled
  end.

(** [s > c] and [s < c]: IEEE comparisons on float64, exact ones on
    int64. *)
Definition series_gt (s : Series) (c : Z) : result (list bool) :=
  match values s with
  | Float64 xs => Return (map (fun x => F64.gt x (float_of_int c)) xs)
  | Int64 ns => Return (map (fun n => (c <? n)%Z) ns)
  | Object [] => Return []
  | Object _ => Raise NotModelled
  end.

Definition series_lt (s : Series) (c : Z) : result (list bool) :=
  match values s with
  | Float64 xs => Return (map (fun x => F64.lt x (float_of_int c)) xs)
  | Int64 ns => Return (map (fun n => (n <? c)%Z) ns)
  | Object [] => Return []
  | Object _ => Raise NotModelled
  end.

(** [s.apply(f)]: [f] is called with a Python float for each element of a
    float64 column, with a Python int for each element of an int64 one. *)
Definition series_apply (f_float : float -> pyval) (f_int : Z -> pyval) (s : Series)
  : result Series :=
  match values s with
  | Float64 xs => Return (map f_float xs)
  | Int64 ns => Return (map f_int ns)
  | Object [] => Return []
  | Object _ => Raise NotModelled
  end.

(** ** The world around the program *)

Inductive level : Type := INFO | ERROR.

(** A log message; the interpolated part of an f-string is kept apart from
    its fixed text. *)
Inductive message : Type :=
| Msg (text : string)
| MsgStr (text : string) (arg : string)
| MsgLen (text : string) (n : nat) (rest : string)
| MsgExn (text : string) (e : exn).

Record Request : Type := {
  url : string;
  params : list (string * string)
}.

(** A response of the provider: its status and, when the body is JSON, the
    decoded body. *)
Record Response : Type := {
  status_code : Z;
  body : option pyval
}.

Inductive sqltype : Type := SERIAL_PRIMARY_KEY | TEXT | NUMERIC | INTEGER | TIMESTAMP.

(** The table [current_weather]: its columns, its committed rows (one value
    per column) and the sequence behind [id]. *)
Record Table : Type := {
  schema : list (string * sqltype);
  records : list (list pyval);
  sequence : Z
}.

Inductive statement : Type :=
| CreateTableIfNotExists (cols : list (string * sqltype))
| InsertInto (cols : list string) (tuples : list (list pyval)).

Inductive db_op : Type :=
| Connect
| Execute (q : statement)
| Commit
| Close.

(** What the program does not decide: configuration and the behaviour of
    the network, the clock and the database server. *)
Record Env : Type := {
  API_KEY : option string;                  (* os.getenv('WEATHER_API_KEY') *)
  http : nat -> Request -> option Response; (* answer to the n-th request; None: no answer *)
  wall_clock : nat -> datetime;             (* n-th reading of datetime.now() *)
  fromtimestamp : pyval -> option datetime; (* datetime.fromtimestamp; None: it raises *)
  db_fault : nat -> bool;                   (* the n-th database operation fails *)
  db_input : sqltype -> pyval -> result pyval
    (* the server's conversion of a value to a column type, where it is not followed here *)
}.

Record State : Type := {
  log : list (level * message);
  requests_sent : list Request;
  clock_reads : nat;
  db_trace : list db_op;
  database : option Table
}.

Definition with_log (st : State) (l : list (level * message)) : State :=
  {| log := l; requests_sent := requests_sent st; clock_reads := clock_reads st;
     db_trace := db_trace st; database := database st |}.

Definition with_requests (st : State) (rs : list Request) : State :=
  {| log := log st; requests_sent := rs; clock_reads := clock_reads st;
     db_trace := db_trace st; database := database st |}.

Definition with_clock_reads (st : State) (n : nat) : State :=
  {| log := log st; requests_sent := requests_sent st; clock_reads := n;
     db_trace := db_trace st; database := database st |}.

Definition with_db (st : State) (tr : list db_op) (db : option Table) : State :=
  {| log := log st; requests_sent := requests_sent st; clock_reads := clock_reads st;
     db_trace := tr; database := db |}.

(** ** The monad of the pipeline *)

Definition M (A : Type) : Type := Env -> State -> result A * State.

Definition ret {A} (a : A) : M A := fun _ st => (Return a, st).

Definition raise {A} (e : exn) : M A := fun _ st => (Raise e, st).

Definition bind {A B} (c : M A) (k : A -> M B) : M B :=
  fun env st =>
    match c env st with
    | (Return a, st') => k a env st'
    | (Raise e, st') => (Raise e, st')
    end.

Definition lift {A} (r : result A) : M A := fun _ st => (r, st).

(** [try: body except E as e: handler e], [catches] telling the exceptions
    that are instances of [E]. *)
Definition try_except {A} (body : M A) (catches : exn -> bool) (handler : exn -> M A)
  : M A :=
  fun env st =>
    match body env st with
    | (Return a, st') => (Return a, st')
    | (Raise e, st') => if catches e then handler e env st' else (Raise e, st')
    end.

Definition Exception (e : exn) : bool := true.

Declare Scope pipeline_scope.
Delimit Scope pipeline_scope with M.
Notation "x <- c ;; k" := (bind c (fun x => k))
  (at level 61, c at next level, right associativity) : pipeline_scope.
Notation "c ;; k" := (bind c (fun _ => k))
  (at level 61, right associativity) : pipeline_scope.

(** *** Effects *)

Definition logger_info (m : message) : M unit :=
  fun _ st => (Return tt, with_log st (log st ++ [(INFO, m)])).

Definition logger_error (m : message) : M unit :=
  fun _ st => (Return tt, with_log st (log st ++ [(ERROR, m)])).

Definition os_getenv_API_KEY : M (option string) :=
  fun env st => (Return (API_KEY env), st).

Definition datetime_now : M datetime :=
  fun env st =>
    (Return (wall_clock env (clock_reads st)), with_clock_reads st (S (clock_reads st))).

Definition datetime_fromtimestamp (v : pyval) : M pyval :=
  fun env st =>
    match fromtimestamp env v with
    | Some t => (Return (PDatetime t), st)
    | None => (Raise PlatformError, st)
    end.

Definition requests_get (u : string) (ps : list (string * string)) : M Response :=
  fun env st =>
    let rq := {| url := u; params := ps |} in
    let st' := with_requests st (requests_sent st ++ [rq]) in
    match http env (List.length (requests_sent st)) rq with
    | Some r => (Return r, st')
    | None => (Raise ConnectionError, st')
    end.

(** [Response.raise_for_status]: it raises for the statuses 400 to 599. *)
Definition http_error (status : Z) : bool :=
  ((400 <=? status) && (status <? 600))%Z.

Definition raise_for_status (r : Response) : M unit :=
  if http_error (status_code r) then raise (HTTPError (status_code r)) else ret tt.

Definition response_json (r : Response) : M pyval :=
  match body r with
  | Some v => ret v
  | None => raise JSONDecodeError
  end.

(** *** The PostgreSQL session

    A connection holds what its open transaction has done and not yet
    committed.  Every operation that talks to the server is recorded in
    [db_trace] and fails with [OperationalError], without any effect, when
    the environment says so. *)

Record Connection : Type := {
  pending_create : option (list (string * sqltype));
  pending_rows : list (list pyval)
}.

Definition fresh_connection : Connection :=
  {| pending_create := None; pending_rows := [] |}.

Definition db_step (op : db_op) : M unit :=
  fun env st =>
    let st' := with_db st (db_trace st ++ [op]) (database st) in
    if db_fault env (List.length (db_trace st)) then (Raise OperationalError, st')
    else (Return tt, st').

Definition psycopg2_connect : M Connection :=
  (db_step Connect ;; ret fresh_connection)%M.

Definition is_serial (ty : sqltype) : bool :=
  match ty with
  | SERIAL_PRIMARY_KEY => true
  | _ => false
  end.

Definition mem (c : string) (cs : list string) : bool :=
  match index_of c cs with
  | Some _ => true
  | None => false
  end.

Fixpoint column_type (sch : list (string * sqltype)) (c : string) : option sqltype :=
  match sch with
  | [] => None
  | (c', ty) :: sch' => if String.eqb c' c then Some ty else column_type sch' c
  end.

(** **** Column names

    The INSERT names its columns with the labels of the frame, written
    without quotes.  The server reads a label made of ASCII letters,
    digits, [_] and [$], not starting with a digit or [$], of at most 63
    characters and not a reserved word, as the identifier it spells in
    lower case.  Any other label makes another statement text, which is not
    followed here. *)

Definition is_upper (a : ascii) : bool :=
  (65 <=? nat_of_ascii a)%nat && (nat_of_ascii a <=? 90)%nat.

Definition is_lower (a : ascii) : bool :=
  (97 <=? nat_of_ascii a)%nat && (nat_of_ascii a <=? 122)%nat.

Definition is_digit (a : ascii) : bool :=
  (48 <=? nat_of_ascii a)%nat && (nat_of_ascii a <=? 57)%nat.

Definition downcase (a : ascii) : ascii :=
  if is_upper a then ascii_of_nat (nat_of_ascii a + 32) else a.

Fixpoint fold_case (s : string) : string :=
  match s with
  | EmptyString => EmptyString
  | String a s' => String (downcase a) (fold_case s')
  end.

Definition identifier_start (a : ascii) : bool :=
  is_upper a || is_lower a || (nat_of_ascii a =? 95)%nat.

Definition identifier_part (a : ascii) : bool :=
  identifier_start a || is_digit a || (nat_of_ascii a =? 36)%nat.

Fixpoint all_chars (f : ascii -> bool) (s : string) : bool :=
  match s with
  | EmptyString => true
  | String a s' => f a && all_chars f s'
  end.

(** The key words of PostgreSQL 16 that cannot name a column unless
    quoted. *)
Definition reserved_words : list string :=
  ["all"; "analyse"; "analyze"; "and"; "any"; "array"; "as"; "asc"; "asymmetric";
   "authorization"; "binary"; "both"; "case"; "cast"; "check"; "collate"; "collation";
   "column"; "concurrently"; "constraint"; "create"; "cross"; "current_catalog";
   "current_date"; "current_role"; "current_schema"; "current_time";
   "current_timestamp"; "current_user"; "default"; "deferrable"; "desc"; "distinct";
   "do"; "else"; "end"; "except"; "false"; "fetch"; "for"; "foreign"; "freeze"; "from";
   "full"; "grant"; "group"; "having"; "ilike"; "in"; "initially"; "inner"; "intersect";
   "into"; "is"; "isnull"; "join"; "lateral"; "leading"; "left"; "like"; "limit";
   "localtime"; "localtimestamp"; "natural"; "not"; "notnull"; "null"; "offset"; "on";
   "only"; "or"; "order"; "outer"; "overlaps"; "placing"; "primary"; "references";
   "returning"; "right"; "select"; "session_user"; "similar"; "some"; "symmetric";
   "system_user"; "table"; "tablesample"; "then"; "to"; "trailing"; "true"; "union";
   "unique"; "user"; "using"; "variadic"; "verbose"; "when"; "where"; "window"; "with"].

Definition plain_identifier (label : string) : bool :=
  match label with
  | EmptyString => false
  | String a rest => identifier_start a && all_chars identifier_part rest
  end
  && (String.length label <=? 63)%nat
  && negb (mem (fold_case label) reserved_words).

Definition column_name (label : string) : result string :=
  if plain_identifier label then Return (fold_case label) else Raise NotModelled.

(** The server takes the named columns in order: a name the table does
    not have is refused, then a name that came before. *)
Fixpoint check_targets (sch : list (string * sqltype)) (seen names : list string)
  : result unit :=
  match names with
  | [] => Return tt
  | c :: rest =>
      match column_type sch c with
      | None => Raise (UndefinedColumn c)
      | Some _ =>
          if mem c seen then Raise DuplicateColumn
          else check_targets sch (c :: seen) rest
      end
  end.

(** **** Values

    psycopg2 writes every value into the statement as an SQL literal, and
    refuses a dict and a string that holds a NUL character. *)

Fixpoint has_nul (s : string) : bool :=
  match s with
  | EmptyString => false
  | String a s' => (nat_of_ascii a =? 0)%nat || has_nul s'
  end.

Fixpoint adapt (v : pyval) : result unit :=
  match v with
  | PDict _ => Raise CannotAdapt
  | PStr s =>
      if has_nul s
      then Raise (ValueError "A string literal cannot contain NUL (0x00) characters.")
      else Return tt
  | PList l =>
      (fix adapt_all (l : list pyval) : result unit :=
         match l with
         | [] => Return tt
         | x :: l' => (_ <- adapt x ;; adapt_all l')%result
         end) l
  | _ => Return tt
  end.

Definition in_int32 (n : Z) : bool :=
  ((-2147483648 <=? n) && (n <=? 2147483647))%Z.

(** The integer nearest to a finite float, a half rounded away from zero:
    the conversion of a numeric literal to INTEGER. *)
Definition round_half_away (x : float) : option Z :=
  match Prim2SF x with
  | S754_zero _ => Some 0%Z
  | S754_finite s m e =>
      let n :=
        if (0 <=? e)%Z then (Z.pos m * 2 ^ e)%Z
        else
          let d := (2 ^ (- e))%Z in
          if (d <=? 2 * (Z.pos m mod d))%Z then (Z.pos m / d + 1)%Z else (Z.pos m / d)%Z in
      Some (if s then (- n)%Z else n)
  | _ => None
  end.

Definition adaptable (v : pyval) : bool :=
  match adapt v with
  | Return _ => true
  | Raise _ => false
  end.

(** The conversions followed here: NULL to any column, a string to TEXT,
    an integer or a float to INTEGER and NUMERIC, a datetime to TIMESTAMP.
    For any other pair the answer of the server is [db_input]. *)
Definition modelled (ty : sqltype) (v : pyval) : bool :=
  match v, ty with
  | PNone, _ => true
  | PStr _, TEXT => true
  | PInt _, (INTEGER | SERIAL_PRIMARY_KEY | NUMERIC) => true
  | PFloat _, (INTEGER | SERIAL_PRIMARY_KEY) => true
  | PFloat x, NUMERIC => negb (PrimFloat.is_infinity x)
  | PDatetime _, TIMESTAMP => true
  | _, _ => false
  end.

(** An INTEGER is a 32-bit integer; a float is written as a numeric
    literal and rounded, a NaN or an infinity is out of range.  NUMERIC
    keeps the number as it is written, TEXT the string, TIMESTAMP the
    datetime. *)
Definition convert (ty : sqltype) (v : pyval) : result pyval :=
  match ty, v with
  | (INTEGER | SERIAL_PRIMARY_KEY), PInt n =>
      if in_int32 n then Return v else Raise NumericValueOutOfRange
  | (INTEGER | SERIAL_PRIMARY_KEY), PFloat x =>
      match round_half_away x with
      | Some n => if in_int32 n then Return (PInt n) else Raise NumericValueOutOfRange
      | None => Raise NumericValueOutOfRange
      end
  | _, _ => Return v
  end.

(** What the server finds when it reads the statement ... *)
Definition typecheck (env : Env) (ty : sqltype) (v : pyval) : result unit :=
  if modelled ty v then Return tt
  else (_ <- db_input env ty v ;; Return tt)%result.

(** ... and the value it stores. *)
Definition assign (env : Env) (ty : sqltype) (v : pyval) : result pyval :=
  if modelled ty v then convert ty v else db_input env ty v.

Definition assigned (env : Env) (ty : sqltype) (v : pyval) : pyval :=
  match assign env ty v with
  | Return w => w
  | Raise _ => PNone
  end.

Definition on_columns {A} (sch : list (string * sqltype)) (f : sqltype -> pyval -> result A)
  (names : list string) (t : list pyval) : result (list A) :=
  rmap (fun cv : string * pyval =>
          match column_type sch (fst cv) with
          | Some ty => f ty (snd cv)
          | None => Raise (UndefinedColumn (fst cv))
          end)
       (combine names t).

(** The row the server stores for one tuple of an INSERT that names the
    columns [cs]: every value goes, converted, to the column of its name; a
    column that is not named takes its default. *)
Definition stored_row (env : Env) (sch : list (string * sqltype)) (cs : list string)
  (id : Z) (t : list pyval) : list pyval :=
  map (fun cty : string * sqltype =>
         match dict_get (combine (map fold_case cs) t) (fst cty) with
         | Some v => assigned env (snd cty) v
         | None => if is_serial (snd cty) then PInt id else PNone
         end)
      sch.

Fixpoint stored_rows (env : Env) (sch : list (string * sqltype)) (cs : list string)
  (id : Z) (ts : list (list pyval)) : list (list pyval) :=
  match ts with
  | [] => []
  | t :: ts' => stored_row env sch cs id t :: stored_rows env sch cs (id + 1) ts'
  end.

(** The identity column takes its default when the INSERT does not name
    it; each row then draws the next number of the sequence. *)
Definition default_id (sch : list (string * sqltype)) (cs : list string) : bool :=
  existsb (fun cty : string * sqltype =>
             is_serial (snd cty) && negb (mem (fst cty) (map fold_case cs)))
          sch.

(** PRIMARY KEY: the identity of a row is not NULL and is not that of a
    row already there. *)
Fixpoint key_positions (sch : list (string * sqltype)) (k : nat) : list nat :=
  match sch with
  | [] => []
  | (_, ty) :: sch' =>
      (if is_serial ty then [k] else []) ++ key_positions sch' (S k)
  end.

Definition same_key (v w : pyval) : bool :=
  match v, w with
  | PInt n, PInt m => Z.eqb n m
  | _, _ => false
  end.

Fixpoint key_violation (keys : list nat) (existing : list (list pyval)) (r : list pyval)
  : option exn :=
  match keys with
  | [] => None
  | k :: keys' =>
      if is_null (nth k r PNone) then Some NotNullViolation
      else if existsb (fun r' => same_key (nth k r' PNone) (nth k r PNone)) existing
           then Some UniqueViolation
           else key_violation keys' existing r
  end.

(** The rows go in one by one; the numbers drawn from the sequence are
    not given back when a row is refused. *)
Fixpoint insert_rows (env : Env) (sch : list (string * sqltype)) (cs : list string)
  (existing : list (list pyval)) (id : Z) (ts : list (list pyval))
  : result (list (list pyval)) * Z :=
  match ts with
  | [] => (Return [], id)
  | t :: ts' =>
      let r := stored_row env sch cs id t in
      let id' := if default_id sch cs then (id + 1)%Z else id in
      match key_violation (key_positions sch 0) existing r with
      | Some e => (Raise e, id')
      | None =>
          let (rest, last_id) := insert_rows env sch cs (existing ++ [r]) id' ts' in
          ((rs <- rest ;; Return (r :: rs))%result, last_id)
      end
  end.

(** The server reads the whole statement (names, then values) before it
    converts the values, and converts them before it stores the rows. *)
Definition cursor_execute (conn : Connection) (q : statement) : M Connection :=
  (db_step (Execute q) ;;
   fun env st =>
     match q with
     | CreateTableIfNotExists cols =>
         match database st, pending_create conn with
         | None, None =>
             (Return {| pending_create := Some cols; pending_rows := pending_rows conn |}, st)
         | _, _ => (Return conn, st)
         end
     | InsertInto cs tuples =>
         match rmap column_name cs with
         | Raise e => (Raise e, st)
         | Return [] => (Raise SqlSyntaxError, st)
         | Return names =>
             match database st with
             | None => (Raise UndefinedTable, st)
             | Some t =>
                 match
                   (_ <- check_targets (schema t) [] names ;;
                    _ <- rmap (on_columns (schema t) (typecheck env) names) tuples ;;
                    rmap (on_columns (schema t) (assign env) names) tuples)%result
                 with
                 | Raise e => (Raise e, st)
                 | Return _ =>
                     let (rows, id) :=
                       insert_rows env (schema t) cs (records t ++ pending_rows conn)
                         (sequence t) tuples in
                     let st' :=
                       with_db st (db_trace st)
                         (Some {| schema := schema t; records := records t;
                                  sequence := id |}) in
                     match rows with
                     | Return rs =>
                         (Return {| pending_create := pending_create conn;
                                    pending_rows := pending_rows conn ++ rs |}, st')
                     | Raise e => (Raise e, st')
                     end
                 end
             end
         end
     end)%M.

(** [psycopg2.extras.execute_values] sends the tuples in pages of 100, one
    INSERT for each page; nothing is sent for an empty list.  The values of
    a page are written into its statement before it is sent.  (A tuple has
    one value for each column: a frame cannot hold a row of another
    length.) *)
Fixpoint _paginate {A} (page_size : nat) (seq page : list A) (i : nat) : list (list A) :=
  match seq with
  | [] =>
      match page with
      | [] => []
      | _ :: _ => [page]
      end
  | a :: seq' =>
      if Nat.eqb (S i) page_size then (page ++ [a]) :: _paginate page_size seq' [] 0
      else _paginate page_size seq' (page ++ [a]) (S i)
  end.

Definition execute_page (conn : Connection) (cs : list string) (page : list (list pyval))
  : M Connection :=
  if forallb (fun t => Nat.eqb (List.length t) (List.length cs)) page then
    (lift (rmap (rmap adapt) page) ;;
     cursor_execute conn (InsertInto cs page))%M
  else raise NotModelled.

Fixpoint execute_pages (conn : Connection) (cs : list string)
  (pages : list (list (list pyval))) : M Connection :=
  match pages with
  | [] => ret conn
  | page :: rest =>
      (conn <- execute_page conn cs page ;;
       execute_pages conn cs rest)%M
  end.

Definition execute_values (conn : Connection) (cs : list string)
  (argslist : list (list pyval)) : M Connection :=
  execute_pages conn cs (_paginate 100 argslist [] 0).

Definition conn_commit (conn : Connection) : M Connection :=
  (db_step Commit ;;
   fun env st =>
     let created :=
       match database st, pending_create conn with
       | None, Some cols => Some {| schema := cols; records := []; sequence := 1 |}
       | db, _ => db
       end in
     let written :=
       match created with
       | Some t => Some {| schema := schema t;
                           records := records t ++ pending_rows conn;
                           sequence := sequence t |}
       | None => None
       end in
     (Return fresh_connection, with_db st (db_trace st) written))%M.

Definition conn_close (conn : Connection) : M unit :=
  fun _ st => (Return tt, with_db st (db_trace st ++ [Close]) (database st)).

(** ** The program *)

Definition CITIES : list string :=
  ["London, UK"; "New York, US"; "Tokyo, JP"; "Sydney, AU"; "Rio de Janeiro, BR"].

Definition WEATHER_API_URL : string :=
  "https://api.openweathermap.org/data/2.5/weather".

(** *** extract *)

(** [not API_KEY] *)
Definition not_key (k : option string) : bool :=
  match k with
  | None => true
  | Some s => String.eqb s ""
  end.

Definition key_text (k : option string) : string :=
  match k with
  | Some s => s
  | None => ""
  end.

(** The dict literal [processed_data]; its values are evaluated in the order
    they are written. *)
Definition processed_data (city : string) (weather_data : pyval)
  : M (list (string * pyval)) :=
  (country <- lift (sys <- getitem_key weather_data "sys" ;;
                    getitem_key sys "country")%result ;;
   temperature <- lift (main <- getitem_key weather_data "main" ;;
                        getitem_key main "temp")%result ;;
   feels_like <- lift (main <- getitem_key weather_data "main" ;;
                       getitem_key main "feels_like")%result ;;
   humidity <- lift (main <- getitem_key weather_data "main" ;;
                     getitem_key main "humidity")%result ;;
   pressure <- lift (main <- getitem_key weather_data "main" ;;
                     getitem_key main "pressure")%result ;;
   wind_speed <- lift (wind <- getitem_key weather_data "wind" ;;
                       getitem_key wind "speed")%result ;;
   weather_main <- lift (weather <- getitem_key weather_data "weather" ;;
                         first <- getitem_index weather 0 ;;
                         getitem_key first "main")%result ;;
   weather_description <- lift (weather <- getitem_key weather_data "weather" ;;
                                first <- getitem_index weather 0 ;;
                                getitem_key first "description")%result ;;
   dt <- lift (getitem_key weather_data "dt") ;;
   timestamp <- datetime_fromtimestamp dt ;;
   rise <- lift (sys <- getitem_key weather_data "sys" ;;
                 getitem_key sys "sunrise")%result ;;
   sunrise <- datetime_fromtimestamp rise ;;
   set <- lift (sys <- getitem_key weather_data "sys" ;;
                getitem_key sys "sunset")%result ;;
   sunset <- datetime_fromtimestamp set ;;
   ret [("city", PStr city);
        ("country", country);
        ("temperature", temperature);
        ("feels_like", feels_like);
        ("humidity", humidity);
        ("pressure", pressure);
        ("wind_speed", wind_speed);
        ("weather_main", weather_main);
        ("weather_description", weather_description);
        ("timestamp", timestamp);
        ("sunrise", sunrise);
        ("sunset", sunset)])%M.

(** One turn of the loop [for city in CITIES]: the record of [city]. *)
Definition extract_city (key : option string) (city : string)
  : M (list (string * pyval)) :=
  (response <- requests_get WEATHER_API_URL
                 [("q", city); ("appid", key_text key); ("units", "metric")] ;;
   raise_for_status response ;;
   weather_data <- response_json response ;;
   record <- processed_data city weather_data ;;
   ret record)%M.

Fixpoint for_city_in (cities : list string) (key : option string)
  (all_weather_data : list (list (string * pyval)))
  : M (list (list (string * pyval))) :=
  match cities with
  | [] => ret all_weather_data
  | city :: rest =>
      (record <- extract_city key city ;;
       logger_info (MsgStr "Extracted weather data for " city) ;;
       for_city_in rest key (all_weather_data ++ [record]))%M
  end.

(** The body of [extract], for the list of locations [cities]. *)
Definition extract_cities (cities : list string) : M DataFrame :=
  (logger_info (Msg "Starting extraction phase...") ;;
   key <- os_getenv_API_KEY ;;
   if not_key key then
     (logger_error (Msg "No API key found. Set WEATHER_API_KEY in your .env file") ;;
      raise (ValueError "Missing API key"))
   else
     try_except
       (all_weather_data <- for_city_in cities key [] ;;
        let df := pd_DataFrame all_weather_data in
        logger_info (MsgLen "Extracted weather data for " (len df) " cities") ;;
        ret df)
       is_RequestException
       (fun e =>
          logger_error (MsgExn "Error extracting data from Weather API: " e) ;;
          raise e))%M.

Definition extract : M DataFrame := extract_cities CITIES.

(** *** transform *)

(** [sunrise <= current_time <= sunset] on datetimes *)
Definition is_daytime (cs : list string) (row : list pyval) : result pyval :=
  (current_time <- (v <- row_get cs row "timestamp" ;; as_datetime v) ;;
   sunrise <- (v <- row_get cs row "sunrise" ;; as_datetime v) ;;
   sunset <- (v <- row_get cs row "sunset" ;; as_datetime v) ;;
   Return (PStr (if (sunrise <=? current_time)%Z && (current_time <=? sunset)%Z
                 then "Day" else "Night")))%result.

(** [temp_category(temp)] when [temp] is a float: the comparisons are
    those of IEEE-754, all false on a NaN. *)
Definition temp_category (temp : float) : string :=
  if F64.lt temp 0 then "Very Cold"
  else if F64.lt temp 10 then "Cold"
  else if F64.lt temp 20 then "Mild"
  else if F64.lt temp 30 then "Warm"
  else "Hot".

(** [temp_category(temp)] when [temp] is an int. *)
Definition temp_category_int (temp : Z) : string :=
  if (temp <? 0)%Z then "Very Cold"
  else if (temp <? 10)%Z then "Cold"
  else if (temp <? 20)%Z then "Mild"
  else if (temp <? 30)%Z then "Warm"
  else "Hot".

Definition transform (df : DataFrame) : M DataFrame :=
  (logger_info (Msg "Starting transformation phase...") ;;
   try_except
     (now <- datetime_now ;;
      df <- lift (set_scalar df "etl_timestamp" (PDatetime now)) ;;
      day_night <- lift (apply_rows is_daytime df) ;;
      df <- lift (set_column df "day_night" day_night) ;;
      temperature_f <- lift (t <- get_column df "temperature" ;;
                             t9 <- series_mul t 9 ;;
                             t95 <- series_div t9 5 ;;
                             series_add t95 32)%result ;;
      df <- lift (set_column df "temperature_f" temperature_f) ;;
      feels_like_f <- lift (t <- get_column df "feels_like" ;;
                            t9 <- series_mul t 9 ;;
                            t95 <- series_div t9 5 ;;
                            series_add t95 32)%result ;;
      df <- lift (set_column df "feels_like_f" feels_like_f) ;;
      category <- lift (t <- get_column df "temperature" ;;
                        series_apply (fun x => PStr (temp_category x))
                          (fun n => PStr (temp_category_int n)) t)%result ;;
      df <- lift (set_column df "temp_category" category) ;;
      df <- lift (set_scalar df "data_quality" (PStr "Good")) ;;
      over <- lift (t <- get_column df "temperature" ;; series_gt t 50)%result ;;
      df <- lift (loc_set df over "data_quality" (PStr "Suspicious")) ;;
      under <- lift (t <- get_column df "temperature" ;; series_lt t (-50))%result ;;
      df <- lift (loc_set df under "data_quality" (PStr "Suspicious")) ;;
      logger_info (Msg "Data transformation completed") ;;
      ret df)
     Exception
     (fun e => logger_error (MsgExn "Error transforming data: " e) ;; raise e))%M.

(** *** create_table and load *)

Definition create_table_query : statement :=
  CreateTableIfNotExists
    [("id", SERIAL_PRIMARY_KEY);
     ("city", TEXT);
     ("country", TEXT);
     ("temperature", NUMERIC);
     ("temperature_f", NUMERIC);
     ("feels_like", NUMERIC);
     ("feels_like_f", NUMERIC);
     ("humidity", INTEGER);
     ("pressure", INTEGER);
     ("wind_speed", NUMERIC);
     ("weather_main", TEXT);
     ("weather_description", TEXT);
     ("timestamp", TIMESTAMP);
     ("sunrise", TIMESTAMP);
     ("sunset", TIMESTAMP);
     ("day_night", TEXT);
     ("temp_category", TEXT);
     ("data_quality", TEXT);
     ("etl_timestamp", TIMESTAMP)].

(** The columns the statement declares. *)
Definition table_columns : list (string * sqltype) :=
  match create_table_query with
  | CreateTableIfNotExists cols => cols
  | InsertInto _ _ => []
  end.

Definition create_table : M pyval :=
  try_except
    (conn <- psycopg2_connect ;;
     conn <- cursor_execute conn create_table_query ;;
     conn <- conn_commit conn ;;
     logger_info (Msg "Target table created or already exists") ;;
     conn_close conn ;;
     ret PNone)%M
    Exception
    (fun e => logger_error (MsgExn "Error creating table: " e) ;; raise e)%M.

(** The statement is [INSERT INTO current_weather (c1, c2, ...) VALUES %s]
    with the labels of the frame joined by a comma; it names its columns. *)
Definition load (df : DataFrame) : M pyval :=
  (logger_info (Msg "Starting loading phase...") ;;
   try_except
     (conn <- psycopg2_connect ;;
      create_table ;;
      let cols := columns df in
      let data_tuples := itertuples df in
      conn <- execute_values conn cols data_tuples ;;
      conn <- conn_commit conn ;;
      conn_close conn ;;
      logger_info (MsgLen "Successfully loaded " (len df)
                     " weather records into PostgreSQL") ;;
      ret PNone)
     Exception
     (fun e => logger_error (MsgExn "Error loading data: " e) ;; raise e))%M.

(** *** run_etl_pipeline *)

Definition run_etl_pipeline : M pyval :=
  (logger_info (Msg "Starting Weather ETL pipeline...") ;;
   try_except
     (raw_data <- extract ;;
      transformed_data <- transform raw_data ;;
      load transformed_data ;;
      logger_info (Msg "Weather ETL pipeline completed successfully") ;;
      ret PNone)
     Exception
     (fun e => logger_error (MsgExn "ETL pipeline failed: " e) ;; raise e))%M.

(** ** Observations

    The record of the data model: the fields [transform] computes with are
    typed (binary64 temperatures, datetimes), the others are carried as they
    came from the provider. *)

Record Observation : Type := {
  city : string;
  country : pyval;
  temperature : float;
  feels_like : float;
  humidity : pyval;
  pressure : pyval;
  wind_speed : pyval;
  weather_main : pyval;
  weather_description : pyval;
  timestamp : datetime;
  sunrise : datetime;
  sunset : datetime
}.

Definition observation_columns : list string :=
  ["city"; "country"; "temperature"; "feels_like"; "humidity"; "pressure";
   "wind_speed"; "weather_main"; "weather_description"; "timestamp"; "sunrise";
   "sunset"].

Definition observation_row (o : Observation) : list pyval :=
  [PStr (city o); country o; PFloat (temperature o); PFloat (feels_like o);
   humidity o; pressure o; wind_speed o; weather_main o; weather_description o;
   PDatetime (timestamp o); PDatetime (sunrise o); PDatetime (sunset o)].

(** A batch of observations as the frame [extract] hands to [transform]. *)
Definition observations_frame (obs : list Observation) : DataFrame :=
  {| columns := observation_columns; rows := map observation_row obs |}.

(** The columns [transform] adds, in the order it adds them. *)
Definition derived_columns : list string :=
  ["etl_timestamp"; "day_night"; "temperature_f"; "feels_like_f"; "temp_category";
   "data_quality"].

Definition day_night (o : Observation) : string :=
  if (sunrise o <=? timestamp o)%Z && (timestamp o <=? sunset o)%Z then "Day" else "Night".

Definition fahrenheit (c : float) : float := (c * 9 / 5 + 32)%float.

Definition data_quality (temp : float) : string :=
  if F64.lt temp (-50) then "Suspicious"
  else if F64.gt temp 50 then "Suspicious"
  else "Good".

Definition enriched_row (now : datetime) (o : Observation) : list pyval :=
  observation_row o
  ++ [PDatetime now; PStr (day_night o); PFloat (fahrenheit (temperature o));
      PFloat (fahrenheit (feels_like o)); PStr (temp_category (temperature o));
      PStr (data_quality (temperature o))].

Definition enriched_frame (now : datetime) (obs : list Observation) : DataFrame :=
  {| columns := observation_columns ++ derived_columns;
     rows := map (enriched_row now) obs |}.

(** The non-identity columns of the destination table, in the order of
    [create_table_query]. *)
Definition schema_columns : list string :=
  map fst (filter (fun cty => negb (is_serial (snd cty))) table_columns).

(** ** A concrete world, for running the program *)

Definition sample_weather (temp feels : float) (dt rise set : Z) : pyval :=
  PDict
    [("coord", PDict [("lon", PFloat (-0.1257)); ("lat", PFloat 51.5085)]);
     ("weather", PList [PDict [("id", PInt 804); ("main", PStr "Clouds");
                               ("description", PStr "overcast")]]);
     ("main", PDict [("temp", PFloat temp); ("feels_like", PFloat feels);
                     ("pressure", PInt 1012); ("humidity", PInt 60)]);
     ("wind", PDict [("speed", PFloat 3.2)]);
     ("dt", PInt dt);
     ("sys", PDict [("country", PStr "GB"); ("sunrise", PInt rise);
                    ("sunset", PInt set)])].

Definition sample_response : Response :=
  {| status_code := 200;
     body := Some (sample_weather 22.5 21 1700003600 1700000000 1700043200) |}.

Definition utc_fromtimestamp (v : pyval) : option datetime :=
  match v with
  | PInt n => Some (seconds n)
  | _ => None
  end.

Definition sample_env : Env :=
  {| API_KEY := Some "0123456789abcdef";
     http := fun _ _ => Some sample_response;
     wall_clock := fun n => seconds (1700003700 + Z.of_nat n);
     fromtimestamp := utc_fromtimestamp;
     db_fault := fun _ => false;
     db_input := fun _ _ => Raise DataError |}.

Definition initial_state : State :=
  {| log := []; requests_sent := []; clock_reads := 0; db_trace := []; database := None |}.

Definition sample_observation : Observation :=
  {| city := "London, UK"; country := PStr "GB"; temperature := 22.5; feels_like := 21;
     humidity := PInt 60; pressure := PInt 1012; wind_speed := PFloat 3.2;
     weather_main := PStr "Clouds"; weather_description := PStr "overcast";
     timestamp := seconds 1700003600; sunrise := seconds 1700000000;
     sunset := seconds 1700043200 |}.

(** ** What a run leaves behind *)

(** The state after a successful [transform]: two log lines and one reading
    of the clock. *)
Definition after_transform (st : State) : State :=
  {| log := log st ++ [(INFO, Msg "Starting transformation phase...");
                       (INFO, Msg "Data transformation completed")];
     requests_sent := requests_sent st;
     clock_reads := S (clock_reads st);
     db_trace := db_trace st;
     database := database st |}.

(** The request [extract] sends for one location. *)
Definition weather_request (key : option string) (city : string) : Request :=
  {| url := WEATHER_API_URL;
     params := [("q", city); ("appid", key_text key); ("units", "metric")] |}.

(** What the fetch of one location comes to when it is the [n]-th request:
    the record of the location, or the exception that ends it (no answer, a
    status from 400 to 599, a body that is not JSON, a body that lacks a
    field or holds a time that cannot be converted). *)
Definition location_outcome (env : Env) (n : nat) (key : option string) (city : string)
  : result (list (string * pyval)) :=
  match http env n (weather_request key city) with
  | None => Raise ConnectionError
  | Some r =>
      if http_error (status_code r) then Raise (HTTPError (status_code r))
      else
        match body r with
        | None => Raise JSONDecodeError
        | Some weather_data => fst (processed_data city weather_data env initial_state)
        end
  end.

(** A position in the response: keys and indexes from the root. *)
Inductive step : Type :=
| Key (k : string)
| Index (i : nat).

Fixpoint lookup (v : pyval) (path : list step) : result pyval :=
  match path with
  | [] => Return v
  | Key k :: path' => (x <- getitem_key v k ;; lookup x path')%result
  | Index i :: path' => (x <- getitem_index v i ;; lookup x path')%result
  end.

(** The fields of a response that become columns as they are, and the
    three that are converted with [datetime.fromtimestamp]. *)
Definition value_fields : list (string * list step) :=
  [("country", [Key "sys"; Key "country"]);
   ("temperature", [Key "main"; Key "temp"]);
   ("feels_like", [Key "main"; Key "feels_like"]);
   ("humidity", [Key "main"; Key "humidity"]);
   ("pressure", [Key "main"; Key "pressure"]);
   ("wind_speed", [Key "wind"; Key "speed"]);
   ("weather_main", [Key "weather"; Index 0; Key "main"]);
   ("weather_description", [Key "weather"; Index 0; Key "description"])].

Definition time_fields : list (string * list step) :=
  [("timestamp", [Key "dt"]);
   ("sunrise", [Key "sys"; Key "sunrise"]);
   ("sunset", [Key "sys"; Key "sunset"])].

Definition present (wd : pyval) (path : list step) : bool :=
  match lookup wd path with
  | Return _ => true
  | Raise _ => false
  end.

Definition converts (env : Env) (wd : pyval) (path : list step) : bool :=
  match lookup wd path with
  | Return v =>
      match fromtimestamp env v with
      | Some _ => true
      | None => false
      end
  | Raise _ => false
  end.

(** A body is well formed when it has every field and its three times can
    be converted. *)
Definition well_formed (env : Env) (wd : pyval) : bool :=
  forallb (fun f => present wd (snd f)) value_fields
  && forallb (fun f => converts env wd (snd f)) time_fields.

(** The fetch of a location fails when the [n]-th request gets no answer,
    an answer with a status from 400 to 599, a body that is not JSON, or a
    body that is not well formed. *)
Definition fetch_fails (env : Env) (n : nat) (rq : Request) : bool :=
  match http env n rq with
  | None => true
  | Some r =>
      http_error (status_code r)
      || match body r with
         | None => true
         | Some wd => negb (well_formed env wd)
         end
  end.

(** The record of a location, read off a well-formed body. *)
Definition field (wd : pyval) (path : list step) : pyval :=
  match lookup wd path with
  | Return v => v
  | Raise _ => PNone
  end.

Definition time_field (env : Env) (wd : pyval) (path : list step) : pyval :=
  match fromtimestamp env (field wd path) with
  | Some t => PDatetime t
  | None => PNone
  end.

Definition reading (env : Env) (city : string) (wd : pyval) : list (string * pyval) :=
  ("city", PStr city)
  :: map (fun f => (fst f, field wd (snd f))) value_fields
  ++ map (fun f => (fst f, time_field env wd (snd f))) time_fields.


(** The rows committed to [current_weather]. *)
Definition committed (st : State) : list (list pyval) :=
  match database st with
  | Some t => records t
  | None => []
  end.

(** The value stored in column [c] of the [i]-th committed row. *)
Definition table_cell (t : Table) (i : nat) (c : string) : option pyval :=
  match index_of c (map fst (schema t)), nth_error (records t) i with
  | Some k, Some r => nth_error r k
  | _, _ => None
  end.

(** ** Bookkeeping of [extract] *)

(** The records of the locations when the first is the [n]-th request,
    or the first exception met. *)
Fixpoint outcomes (env : Env) (n : nat) (key : option string) (cities : list string)
  : result (list (list (string * pyval))) :=
  match cities with
  | [] => Return []
  | city :: rest =>
      (record <- location_outcome env n key city ;;
       records <- outcomes env (S n) key rest ;;
       Return (record :: records))%result
  end.

Definition extracted_line (city : string) : level * message :=
  (INFO, MsgStr "Extracted weather data for " city).

(** How many locations are fetched before the first failure. *)
Fixpoint leading (env : Env) (n : nat) (key : option string) (cities : list string) : nat :=
  match cities with
  | [] => 0
  | city :: rest =>
      match location_outcome env n key city with
      | Return _ => S (leading env (S n) key rest)
      | Raise _ => 0
      end
  end.

(** The state the loop leaves after [j] successful fetches, the request of
    the next location sent. *)
Definition loop_state (st : State) (key : option string) (cities : list string) (j : nat)
  : State :=
  {| log := log st ++ map extracted_line (firstn j cities);
     requests_sent := requests_sent st ++ map (weather_request key) (firstn (S j) cities);
     clock_reads := clock_reads st;
     db_trace := db_trace st;
     database := database st |}.

(** ** Bookkeeping of [load] *)

(** The table [load] writes to: the one that exists, or the one
    [create_table] makes. *)
Definition destination (st : State) : Table :=
  match database st with
  | Some t => t
  | None => {| schema := table_columns; records := []; sequence := 1 |}
  end.

(** The sequence after [n] rows of an INSERT that names the columns
    [cs]. *)
Definition advance (sch : list (string * sqltype)) (cs : list string) (id : Z) (n : nat)
  : Z :=
  if default_id sch cs then (id + Z.of_nat n)%Z else id.

Definition is_close (op : db_op) : bool :=
  match op with
  | Close => true
  | _ => false
  end.

Definition is_connect (op : db_op) : bool :=
  match op with
  | Connect => true
  | _ => false
  end.

Definition is_execute (op : db_op) : bool :=
  match op with
  | Execute _ => true
  | _ => false
  end.

(** How many operations of a kind a trace holds. *)
Definition count_ops (kind : db_op -> bool) (ops : list db_op) : nat :=
  List.length (filter kind ops).

(** A tuple the server accepts for the columns [cs]: the labels are
    names of distinct columns of the table and every value converts to the
    type of its column. *)
Definition accepted (env : Env) (sch : list (string * sqltype)) (cs : list string)
  (t : list pyval) : Prop :=
  List.length t = List.length cs /\
  rmap column_name cs = Return (map fold_case cs) /\
  check_targets sch [] (map fold_case cs) = Return tt /\
  exists ws, on_columns sch (assign env) (map fold_case cs) t = Return ws.

(** What sending the tuples [ts] of a frame with the columns [cs] does,
    from the state [st] where the table is [t], on a connection whose
    transaction is [conn]: INSERT statements only, the table kept but for
    its sequence and, when all are accepted, the rows added to the
    transaction. *)
Definition sent (env : Env) (conn : Connection) (cs : list string)
  (ts : list (list pyval)) (st : State) (t : Table) (r : result Connection) (st' : State)
  : Prop :=
  log st' = log st /\ requests_sent st' = requests_sent st /\
  clock_reads st' = clock_reads st /\
  (exists ops, db_trace st' = db_trace st ++ ops /\ forallb is_execute ops = true) /\
  exists t',
    database st' = Some t' /\ schema t' = schema t /\ records t' = records t /\
    (sequence t <= sequence t')%Z /\
    match r with
    | Return conn' =>
        pending_create conn' = pending_create conn /\
        Forall (accepted env (schema t) cs) ts /\
        pending_rows conn'
        = pending_rows conn ++ stored_rows env (schema t) cs (sequence t) ts /\
        sequence t' = advance (schema t) cs (sequence t) (List.length ts)
    | Raise _ => True
    end.

(** How [load] ends when a step of it raises. *)
Definition load_fails (e : exn) (st : State) : result pyval * State :=
  (Raise e, with_log st (log st ++ [(ERROR, MsgExn "Error loading data: " e)])).

Definition insert_ops (df : DataFrame) : list db_op :=
  map (fun page => Execute (InsertInto (columns df) page))
      (_paginate 100 (itertuples df) [] 0).

(** The state a successful [load] of [df] leaves. *)
Definition loaded (env : Env) (df : DataFrame) (st : State) : State :=
  {| log := log st ++ [(INFO, Msg "Starting loading phase...");
                       (INFO, Msg "Target table created or already exists");
                       (INFO, MsgLen "Successfully loaded " (len df)
                                     " weather records into PostgreSQL")];
     requests_sent := requests_sent st;
     clock_reads := clock_reads st;
     db_trace := db_trace st
                 ++ [Connect; Connect; Execute create_table_query; Commit; Close]
                 ++ insert_ops df ++ [Commit; Close];
     database :=
       Some {| schema := schema (destination st);
               records := records (destination st)
                          ++ stored_rows env (schema (destination st)) (columns df)
                               (sequence (destination st)) (itertuples df);
               sequence := advance (schema (destination st)) (columns df)
                             (sequence (destination st)) (len df) |} |}.

(** A check that two lists of labels hold the same labels. *)
Fixpoint remove_label (c : string) (l : list string) : option (list string) :=
  match l with
  | [] => None
  | c' :: l' =>
      if String.eqb c' c then Some l'
      else option_map (cons c') (remove_label c l')
  end.

Fixpoint same_labels (l1 l2 : list string) : bool :=
  match l1 with
  | [] => match l2 with [] => true | _ => false end
  | c :: l1' =>
      match remove_label c l2 with
      | Some l2' => same_labels l1' l2'
      | None => false
      end
  end.

(** ** More concrete worlds *)

(** The sample world without the credential. *)
Definition no_key_env : Env :=
  {| API_KEY := None;
     http := http sample_env;
     wall_clock := wall_clock sample_env;
     fromtimestamp := fromtimestamp sample_env;
     db_fault := db_fault sample_env;
     db_input := db_input sample_env |}.

(** A frame as [transform] returns it, of one record. *)
Definition sample_enriched : DataFrame :=
  enriched_frame (seconds 1700003700) [sample_observation].

(** An observation with a humidity that is not a whole number, and its
    frame. *)
Definition rounded_observation : Observation :=
  {| city := "London, UK"; country := PStr "GB"; temperature := 22.5; feels_like := 21;
     humidity := PFloat 60.5; pressure := PInt 1012; wind_speed := PFloat 3.2;
     weather_main := PStr "Clouds"; weather_description := PStr "overcast";
     timestamp := seconds 1700003600; sunrise := seconds 1700000000;
     sunset := seconds 1700043200 |}.

Definition rounded_frame : DataFrame :=
  enriched_frame (seconds 1700003700) [rounded_observation].

(** What a run without credential logs. *)
Definition missing_key_log : list (level * message) :=
  [(INFO, Msg "Starting Weather ETL pipeline...");
   (INFO, Msg "Starting extraction phase...");
   (ERROR, Msg "No API key found. Set WEATHER_API_KEY in your .env file");
   (ERROR, MsgExn "ETL pipeline failed: " (ValueError "Missing API key"))].

Definition not_found : Response := {| status_code := 404; body := None |}.



(** A provider that answers the third request with 404. *)
Definition failing_env : Env :=
  {| API_KEY := API_KEY sample_env;
     http := fun n _ => if Nat.eqb n 2 then Some not_found else Some sample_response;
     wall_clock := wall_clock sample_env;
     fromtimestamp := fromtimestamp sample_env;
     db_fault := db_fault sample_env;
     db_input := db_input sample_env |}.

(** ** Further bookkeeping *)

(** A NaN is the one number that is not equal to itself. *)
Definition is_NaN (x : float) : bool := negb (PrimFloat.eqb x x).

(** The state a failed [transform] leaves. *)
Definition after_failed_transform (st : State) (e : exn) : State :=
  {| log := log st ++ [(INFO, Msg "Starting transformation phase...");
                       (ERROR, MsgExn "Error transforming data: " e)];
     requests_sent := requests_sent st;
     clock_reads := S (clock_reads st);
     db_trace := db_trace st;
     database := database st |}.

(** The lines [extract] logs around the loop. *)
Definition extraction_starts : level * message :=
  (INFO, Msg "Starting extraction phase...").

Definition extraction_ends (n : nat) : level * message :=
  (INFO, MsgLen "Extracted weather data for " n " cities").

Definition extraction_fails (e : exn) : level * message :=
  (ERROR, MsgExn "Error extracting data from Weather API: " e).

(** The record [processed_data] builds when every value has the type of
    the data model. *)
Definition observation_record (o : Observation) : list (string * pyval) :=
  combine observation_columns (observation_row o).

(** The state a successful [create_table] leaves. *)
Definition table_ready (st : State) : State :=
  {| log := log st ++ [(INFO, Msg "Target table created or already exists")];
     requests_sent := requests_sent st;
     clock_reads := clock_reads st;
     db_trace := db_trace st ++ [Connect; Execute create_table_query; Commit; Close];
     database := Some (destination st) |}.

(** The first and last lines of [run_etl_pipeline]. *)
Definition pipeline_starts : level * message :=
  (INFO, Msg "Starting Weather ETL pipeline...").

Definition pipeline_completes : level * message :=
  (INFO, Msg "Weather ETL pipeline completed successfully").

Definition pipeline_fails (e : exn) : level * message :=
  (ERROR, MsgExn "ETL pipeline failed: " e).

(** ** Further concrete worlds *)

(** An observation whose temperature is a NaN. *)
Definition nan_observation : Observation :=
  {| city := "Tokyo, JP"; country := PStr "JP"; temperature := PrimFloat.nan;
     feels_like := 21; humidity := PInt 60; pressure := PInt 1012;
     wind_speed := PFloat 3.2; weather_main := PStr "Clouds";
     weather_description := PStr "overcast";
     timestamp := seconds 1700003600; sunrise := seconds 1700000000;
     sunset := seconds 1700043200 |}.

(** A frame with rows and no time column. *)
Definition untimed_frame : DataFrame :=
  {| columns := ["city"; "temperature"];
     rows := [[PStr "London, UK"; PFloat 22.5]] |}.

(** An observation of the polar night: the sun sets before it rises. *)
Definition polar_observation : Observation :=
  {| city := "Sydney, AU"; country := PStr "AU"; temperature := -12.5; feels_like := -20;
     humidity := PInt 80; pressure := PInt 990; wind_speed := PFloat 7.5;
     weather_main := PStr "Snow"; weather_description := PStr "light snow";
     timestamp := seconds 1700003600; sunrise := seconds 1700040000;
     sunset := seconds 1700000000 |}.

(** A table made by an earlier version of the program. *)
Definition legacy_state : State :=
  {| log := []; requests_sent := []; clock_reads := 0; db_trace := [];
     database := Some {| schema := [("id", SERIAL_PRIMARY_KEY); ("city", TEXT);
                                    ("temperature", NUMERIC)];
                         records := []; sequence := 1 |} |}.


(** ** Whole degrees

    A temperature that comes as a JSON integer for every location makes an
    int64 column: [transform] then multiplies in int64, divides in float64,
    and [temp_category] and the two thresholds compare integers. *)

(** The row of an observation whose temperature is the integer [n]. *)
Definition whole_row (on : Observation * Z) : list pyval :=
  replace_nth 2 (observation_row (fst on)) (PInt (snd on)).

Definition whole_frame (l : list (Observation * Z)) : DataFrame :=
  {| columns := observation_columns; rows := map whole_row l |}.

(** [n * 9 / 5 + 32] on an int64 column. *)
Definition fahrenheit_int (n : Z) : float :=
  (float_of_int (wrap64 (n * 9)) / 5 + 32)%float.

Definition data_quality_int (temp : Z) : string :=
  if (temp <? -50)%Z then "Suspicious"
  else if (50 <? temp)%Z then "Suspicious"
  else "Good".

(** The row [transform] makes of it. *)
Definition whole_enriched_row (now : datetime) (on : Observation * Z) : list pyval :=
  whole_row on
  ++ [PDatetime now; PStr (day_night (fst on)); PFloat (fahrenheit_int (snd on));
      PFloat (fahrenheit (feels_like (fst on))); PStr (temp_category_int (snd on));
      PStr (data_quality_int (snd on))].

(** Two floats that are the same binary64 datum. *)
Definition same_float (x y : float) : bool :=
  match Prim2SF x, Prim2SF y with
  | S754_zero s, S754_zero s' => Bool.eqb s s'
  | S754_infinity s, S754_infinity s' => Bool.eqb s s'
  | S754_nan, S754_nan => true
  | S754_finite s m e, S754_finite s' m' e' =>
      Bool.eqb s s' && Pos.eqb m m' && Z.eqb e e'
  | _, _ => false
  end.

(** On the whole number [n] the integer and the float computations of
    [transform] give the same three fields. *)
Definition whole_agrees (n : Z) : bool :=
  same_float (fahrenheit_int n) (fahrenheit (float_of_int n))
  && String.eqb (temp_category_int n) (temp_category (float_of_int n))
  && String.eqb (data_quality_int n) (data_quality (float_of_int n)).

(** The whole numbers from -1000 to 1000. *)
Definition thousand : list Z := map (fun k => (Z.of_nat k - 1000)%Z) (seq 0 2001).

(** Five whole temperatures, one for each category. *)
Definition whole_sample : list (Observation * Z) :=
  [(sample_observation, (-60)%Z); (sample_observation, 5%Z); (sample_observation, 15%Z);
   (sample_observation, 22%Z); (sample_observation, 51%Z)].

(** A provider whose temperatures are whole numbers; the feels-like value
    of the second answer and the humidity of the third are not. *)
Definition mixed_weather (feels hum : pyval) : pyval :=
  PDict
    [("weather", PList [PDict [("id", PInt 804); ("main", PStr "Clouds");
                               ("description", PStr "overcast")]]);
     ("main", PDict [("temp", PInt 22); ("feels_like", feels);
                     ("pressure", PInt 1012); ("humidity", hum)]);
     ("wind", PDict [("speed", PInt 3)]);
     ("dt", PInt 1700003600);
     ("sys", PDict [("country", PStr "GB"); ("sunrise", PInt 1700000000);
                    ("sunset", PInt 1700043200)])].

Definition mixed_env : Env :=
  {| API_KEY := API_KEY sample_env;
     http := fun n _ =>
       Some {| status_code := 200;
               body := Some (mixed_weather
                               (if Nat.eqb n 1 then PFloat 20.5 else PInt 21)
                               (if Nat.eqb n 2 then PFloat 60.5 else PInt 60)) |};
     wall_clock := wall_clock sample_env;
     fromtimestamp := fromtimestamp sample_env;
     db_fault := db_fault sample_env;
     db_input := db_input sample_env |}.

(** * Properties *)

(** ** Order of binary64 numbers *)

Lemma SFleb_trans_ltb_false (a b t : spec_float) :
  SFleb a b = true -> SFleb b t = true -> SFltb t a = false.
Proof.
  unfold SFleb, SFltb.
  destruct a as [sa|sa| |sa ma ea], b as [sb|sb| |sb mb eb], t as [st|st| |st mt et];
    simpl; try discriminate; try reflexivity;
    repeat match goal with s : bool |- _ => destruct s end; simpl;
    try discriminate; try reflexivity.
  all: rewrite ?Pos.compare_cont_spec; simpl.
  all: destruct (Z.compare_spec ea eb), (Z.compare_spec eb et), (Z.compare_spec et ea);
    simpl; try discriminate; try reflexivity; try lia.
  all: subst.
  all: destruct (Pos.compare_spec ma mb), (Pos.compare_spec mb mt), (Pos.compare_spec mt ma);
    simpl; try discriminate; try reflexivity; try lia.
Qed.

Lemma F64_le_le_not_lt (a b t : float) :
  F64.le a b = true -> F64.le b t = true -> F64.lt t a = false.
Proof.
  unfold F64.le, F64.lt. rewrite !leb_spec, ltb_spec.
  apply SFleb_trans_ltb_false.
Qed.

(** ** Frames whose rows are computed from a list *)

Section MappedFrames.

Context {A : Type}.
Variable cs : list string.
Variable f : A -> list pyval.

Lemma rmap_map {B C} (h : B -> result C) (p : A -> B) (g : A -> C) (l : list A) :
  (forall a, h (p a) = Return (g a)) ->
  rmap h (map p l) = Return (map g l).
Proof.
  intros Hh. induction l as [|a l IH]; simpl.
  - reflexivity.
  - rewrite Hh. simpl. rewrite IH. reflexivity.
Qed.

Lemma zip_with_map {B C D} (h : B -> C -> D) (p : A -> B) (q : A -> C) (l : list A) :
  zip_with h (map p l) (map q l) = map (fun a => h (p a) (q a)) l.
Proof.
  induction l as [|a l IH]; simpl; [reflexivity | now rewrite IH].
Qed.

Lemma repeat_map {B} (v : B) (l : list A) :
  repeat v (List.length l) = map (fun _ => v) l.
Proof.
  induction l as [|a l IH]; simpl; [reflexivity | now rewrite IH].
Qed.

Lemma get_column_map (c : string) (k : nat) (l : list A) :
  index_of c cs = Some k ->
  get_column {| columns := cs; rows := map f l |} c
  = Return (map (fun a => nth k (f a) PNone) l).
Proof.
  intros Hk. unfold get_column. simpl. rewrite Hk, map_map. reflexivity.
Qed.

Lemma set_column_map (c : string) (g : A -> pyval) (l : list A) :
  index_of c cs = None ->
  set_column {| columns := cs; rows := map f l |} c (map g l)
  = Return {| columns := cs ++ [c]; rows := map (fun a => f a ++ [g a]) l |}.
Proof.
  intros Hc. unfold set_column, len. simpl.
  rewrite !length_map, Nat.eqb_refl, Hc. simpl.
  now rewrite zip_with_map.
Qed.

Lemma set_scalar_map (c : string) (v : pyval) (l : list A) :
  index_of c cs = None ->
  set_scalar {| columns := cs; rows := map f l |} c v
  = Return {| columns := cs ++ [c]; rows := map (fun a => f a ++ [v]) l |}.
Proof.
  intros Hc. unfold set_scalar, len. simpl.
  rewrite length_map, repeat_map. now apply set_column_map.
Qed.

Lemma loc_set_map (c : string) (k : nat) (m : A -> bool) (v : pyval) (l : list A) :
  index_of c cs = Some k ->
  loc_set {| columns := cs; rows := map f l |} (map m l) c v
  = Return {| columns := cs;
              rows := map (fun a => if m a then replace_nth k (f a) v else f a) l |}.
Proof.
  intros Hc. unfold loc_set, len. simpl.
  rewrite !length_map, Nat.eqb_refl, Hc. simpl.
  now rewrite zip_with_map.
Qed.

Lemma apply_rows_map (h : list string -> list pyval -> result pyval) (g : A -> pyval)
  (l : list A) :
  (forall a, h cs (f a) = Return (g a)) ->
  apply_rows h {| columns := cs; rows := map f l |} = Return (map g l).
Proof.
  intros Hh. unfold apply_rows. simpl. now apply rmap_map.
Qed.

End MappedFrames.

(** ** Columns of floats *)

(** The Python integers of the program, as floats. *)
Lemma float_of_int_constants :
  float_of_int 9 = 9%float /\ float_of_int 5 = 5%float /\ float_of_int 32 = 32%float /\
  float_of_int 50 = 50%float /\ float_of_int (-50) = (-50)%float.
Proof. repeat split; reflexivity. Qed.

Section FloatColumns.

Context {A : Type}.
Variable p : A -> pyval.
Variable g : A -> float.
Hypothesis p_float : forall a, p a = PFloat (g a).

Lemma floats_of_floats (l : list A) : floats_of (map p l) = Some (map g l).
Proof.
  induction l as [|a l IH]; [reflexivity|].
  cbn [map floats_of]. rewrite p_float, IH. reflexivity.
Qed.

Lemma values_floats (l : list A) :
  values (map p l) = match l with [] => Object [] | _ :: _ => Float64 (map g l) end.
Proof.
  destruct l as [|a l]; [reflexivity|].
  unfold values. rewrite floats_of_floats. reflexivity.
Qed.

Lemma series_mul_floats (c : Z) (l : list A) :
  series_mul (map p l) c = Return (map (fun a => PFloat (g a * float_of_int c)) l).
Proof.
  unfold series_mul. rewrite values_floats. destruct l; [reflexivity|].
  now rewrite map_map.
Qed.

Lemma series_div_floats (c : Z) (l : list A) :
  series_div (map p l) c = Return (map (fun a => PFloat (g a / float_of_int c)) l).
Proof.
  unfold series_div. rewrite values_floats. destruct l; [reflexivity|].
  now rewrite map_map.
Qed.

Lemma series_add_floats (c : Z) (l : list A) :
  series_add (map p l) c = Return (map (fun a => PFloat (g a + float_of_int c)) l).
Proof.
  unfold series_add. rewrite values_floats. destruct l; [reflexivity|].
  now rewrite map_map.
Qed.

Lemma series_gt_floats (c : Z) (l : list A) :
  series_gt (map p l) c = Return (map (fun a => F64.gt (g a) (float_of_int c)) l).
Proof.
  unfold series_gt. rewrite values_floats. destruct l; [reflexivity|].
  now rewrite map_map.
Qed.

Lemma series_lt_floats (c : Z) (l : list A) :
  series_lt (map p l) c = Return (map (fun a => F64.lt (g a) (float_of_int c)) l).
Proof.
  unfold series_lt. rewrite values_floats. destruct l; [reflexivity|].
  now rewrite map_map.
Qed.

Lemma series_apply_floats (f_float : float -> pyval) (f_int : Z -> pyval) (l : list A) :
  series_apply f_float f_int (map p l) = Return (map (fun a => f_float (g a)) l).
Proof.
  unfold series_apply. rewrite values_floats. destruct l; [reflexivity|].
  now rewrite map_map.
Qed.

End FloatColumns.

(** ** transform on a batch of observations *)

Ltac column k :=
  rewrite (get_column_map _ _ _ k) by reflexivity; cbn [rbind].
Ltac fahrenheit_of_column :=
  erewrite series_mul_floats by (intros ?; reflexivity); cbn [rbind];
  erewrite series_div_floats by (intros ?; reflexivity); cbn [rbind];
  erewrite series_add_floats by (intros ?; reflexivity); cbn [rbind].
Ltac new_column :=
  rewrite set_column_map by reflexivity; cbn [app].

(** [transform] succeeds on every batch of observations and yields the
    enriched frame, stamped with the clock reading taken at the call. *)
Lemma transform_observations (env : Env) (st : State) (obs : list Observation) :
  transform (observations_frame obs) env st
  = (Return (enriched_frame (wall_clock env (clock_reads st)) obs), after_transform st).
Proof.
  unfold transform, observations_frame, observation_columns.
  unfold bind, try_except, lift, logger_info, datetime_now, ret. cbn [fst snd].
  rewrite set_scalar_map by reflexivity. cbn [app].
  erewrite apply_rows_map by (intros a; reflexivity).
  new_column.
  column 2%nat. fahrenheit_of_column. new_column.
  column 3%nat. fahrenheit_of_column. new_column.
  column 2%nat. erewrite series_apply_floats by (intros ?; reflexivity). cbn [rbind].
  new_column.
  rewrite set_scalar_map by reflexivity. cbn [app].
  column 2%nat. erewrite series_gt_floats by (intros ?; reflexivity). cbn [rbind].
  rewrite (loc_set_map _ _ _ 17%nat) by reflexivity.
  column 2%nat.
  erewrite series_lt_floats
    by (intros a; destruct (F64.gt (temperature a) (float_of_int 50)); reflexivity).
  cbn [rbind].
  rewrite (loc_set_map _ _ _ 17%nat) by reflexivity.
  destruct float_of_int_constants as (-> & -> & -> & -> & ->).
  unfold enriched_frame, after_transform, with_log, with_clock_reads. cbn.
  rewrite <- app_assoc. cbn [app].
  f_equal. f_equal. f_equal.
  apply map_ext. intros a. unfold enriched_row, data_quality, fahrenheit.
  unfold F64.lt, F64.gt.
  destruct (PrimFloat.ltb (temperature a) (-50)), (PrimFloat.ltb 50 (temperature a));
    reflexivity.
Qed.

(** ** The derived fields *)


(** Two numbers that compare equal compare alike with any third. *)
Lemma SFcompare_eq_left (a b x : spec_float) :
  SFcompare a b = Some Eq -> SFcompare a x = SFcompare b x.
Proof.
  destruct a as [sa|sa| |sa ma ea], b as [sb|sb| |sb mb eb]; simpl;
    try discriminate;
    repeat match goal with s : bool |- _ => destruct s end; simpl;
    try discriminate; try (destruct x as [[]|[]| |[] ? ?]; reflexivity).
  all: rewrite ?Pos.compare_cont_spec; simpl.
  all: destruct (Z.compare_spec ea eb); try discriminate.
  all: destruct (Pos.compare_spec ma mb); try discriminate.
  all: subst; reflexivity.
Qed.

Lemma SFcompare_eq_right (a b x : spec_float) :
  SFcompare a b = Some Eq -> SFcompare x a = SFcompare x b.
Proof.
  destruct a as [sa|sa| |sa ma ea], b as [sb|sb| |sb mb eb]; simpl;
    try discriminate;
    repeat match goal with s : bool |- _ => destruct s end; simpl;
    try discriminate; try (destruct x as [[]|[]| |[] ? ?]; reflexivity).
  all: rewrite ?Pos.compare_cont_spec; simpl.
  all: destruct (Z.compare_spec ea eb); try discriminate.
  all: destruct (Pos.compare_spec ma mb); try discriminate.
  all: subst; reflexivity.
Qed.

Lemma F64_eqb_compare (t c : float) :
  PrimFloat.eqb t c = true -> SFcompare (Prim2SF t) (Prim2SF c) = Some Eq.
Proof.
  rewrite eqb_spec. unfold SFeqb.
  destruct (SFcompare (Prim2SF t) (Prim2SF c)) as [[]|]; try discriminate; reflexivity.
Qed.

Lemma F64_eqb_lt_left (t c x : float) :
  PrimFloat.eqb t c = true -> F64.lt t x = F64.lt c x.
Proof.
  intros H. unfold F64.lt. rewrite !ltb_spec. unfold SFltb.
  now rewrite (SFcompare_eq_left _ _ _ (F64_eqb_compare _ _ H)).
Qed.

Lemma F64_eqb_lt_right (t c x : float) :
  PrimFloat.eqb t c = true -> F64.lt x t = F64.lt x c.
Proof.
  intros H. unfold F64.lt. rewrite !ltb_spec. unfold SFltb.
  now rewrite (SFcompare_eq_right _ _ _ (F64_eqb_compare _ _ H)).
Qed.

Lemma temp_category_eqb (t c : float) :
  PrimFloat.eqb t c = true -> temp_category t = temp_category c.
Proof.
  intros H. unfold temp_category. now rewrite !(F64_eqb_lt_left _ _ _ H).
Qed.

Lemma data_quality_eqb (t c : float) :
  PrimFloat.eqb t c = true -> data_quality t = data_quality c.
Proof.
  intros H. unfold data_quality, F64.gt.
  change (PrimFloat.ltb 50 t) with (F64.lt 50 t).
  change (PrimFloat.ltb 50 c) with (F64.lt 50 c).
  now rewrite (F64_eqb_lt_left _ _ _ H), (F64_eqb_lt_right _ _ _ H).
Qed.

(** The bucket of a temperature, read off its position among the bounds. *)
Lemma temp_category_spec (t : float) :
  (F64.lt t 0 = true -> temp_category t = "Very Cold") /\
  (F64.le 0 t = true -> F64.lt t 10 = true -> temp_category t = "Cold") /\
  (F64.le 10 t = true -> F64.lt t 20 = true -> temp_category t = "Mild") /\
  (F64.le 20 t = true -> F64.lt t 30 = true -> temp_category t = "Warm") /\
  (F64.le 30 t = true -> temp_category t = "Hot").
Proof.
  unfold temp_category. repeat split.
  - intros ->. reflexivity.
  - intros H0 H10.
    rewrite (F64_le_le_not_lt 0 0 t), H10 by (reflexivity || assumption). reflexivity.
  - intros H10 H20.
    rewrite (F64_le_le_not_lt 0 10 t), (F64_le_le_not_lt 10 10 t), H20
      by (reflexivity || assumption). reflexivity.
  - intros H20 H30.
    rewrite (F64_le_le_not_lt 0 20 t), (F64_le_le_not_lt 10 20 t),
      (F64_le_le_not_lt 20 20 t), H30 by (reflexivity || assumption). reflexivity.
  - intros H30.
    rewrite (F64_le_le_not_lt 0 30 t), (F64_le_le_not_lt 10 30 t),
      (F64_le_le_not_lt 20 30 t), (F64_le_le_not_lt 30 30 t)
      by (reflexivity || assumption). reflexivity.
Qed.

(** ** Cells of the frames *)

Lemma cell_enriched (now : datetime) (obs : list Observation) (i : nat) (o : Observation)
  (c : string) (k : nat) :
  nth_error obs i = Some o ->
  index_of c (observation_columns ++ derived_columns) = Some k ->
  cell (enriched_frame now obs) i c = nth_error (enriched_row now o) k.
Proof.
  intros Ho Hk. unfold cell, enriched_frame. cbn [columns rows].
  rewrite Hk, nth_error_map, Ho. reflexivity.
Qed.

Lemma cell_observation (obs : list Observation) (i : nat) (o : Observation)
  (c : string) (k : nat) :
  nth_error obs i = Some o ->
  index_of c observation_columns = Some k ->
  cell (observations_frame obs) i c = nth_error (observation_row o) k.
Proof.
  intros Ho Hk. unfold cell, observations_frame. cbn [columns rows].
  rewrite Hk, nth_error_map, Ho. reflexivity.
Qed.

(** The bounds themselves, the two zeros and the values around 50. *)
Example temp_category_at_bounds :
  temp_category 0 = "Cold" /\ temp_category (-0) = "Cold" /\
  temp_category 10 = "Mild" /\ temp_category 20 = "Warm" /\
  temp_category 30 = "Hot" /\ temp_category (-0.5) = "Very Cold".
Proof. repeat split; reflexivity. Qed.

Example data_quality_at_bounds :
  data_quality 50 = "Good" /\ data_quality 50.0001 = "Suspicious" /\
  data_quality (-50) = "Good" /\ data_quality (-50.0001) = "Suspicious".
Proof. repeat split; reflexivity. Qed.

(** C1: in the frame [transform] returns, the temperature category of a
    record is the bucket of its Celsius temperature: below 0 "Very Cold",
    from 0 and below 10 "Cold", from 10 and below 20 "Mild", from 20 and
    below 30 "Warm", from 30 on "Hot"; a temperature equal to 0, 10, 20 or 30
    is in the bucket that starts there. *)
Theorem transform_temp_category (env : Env) (st : State) (obs : list Observation)
  (i : nat) (o : Observation) :
  nth_error obs i = Some o ->
  exists df cat,
    fst (transform (observations_frame obs) env st) = Return df /\
    cell df i "temp_category" = Some (PStr cat) /\
    (F64.lt (temperature o) 0 = true -> cat = "Very Cold") /\
    (F64.le 0 (temperature o) = true -> F64.lt (temperature o) 10 = true ->
     cat = "Cold") /\
    (F64.le 10 (temperature o) = true -> F64.lt (temperature o) 20 = true ->
     cat = "Mild") /\
    (F64.le 20 (temperature o) = true -> F64.lt (temperature o) 30 = true ->
     cat = "Warm") /\
    (F64.le 30 (temperature o) = true -> cat = "Hot") /\
    (PrimFloat.eqb (temperature o) 0 = true -> cat = "Cold") /\
    (PrimFloat.eqb (temperature o) 10 = true -> cat = "Mild") /\
    (PrimFloat.eqb (temperature o) 20 = true -> cat = "Warm") /\
    (PrimFloat.eqb (temperature o) 30 = true -> cat = "Hot").
Proof.
  intros Ho.
  exists (enriched_frame (wall_clock env (clock_reads st)) obs),
    (temp_category (temperature o)).
  rewrite transform_observations. split; [reflexivity|].
  split; [rewrite (cell_enriched _ _ _ _ _ 16 Ho) by reflexivity; reflexivity|].
  destruct (temp_category_spec (temperature o)) as (H1 & H2 & H3 & H4 & H5).
  repeat split; try assumption.
  all: intros E; rewrite (temp_category_eqb _ _ E); reflexivity.
Qed.

Lemma transform_temp_category_witness :
  exists df cat,
    fst (transform (observations_frame [sample_observation]) sample_env initial_state)
    = Return df /\
    cell df 0 "temp_category" = Some (PStr cat) /\ cat = "Warm".
Proof.
  destruct (transform_temp_category sample_env initial_state [sample_observation] 0
              sample_observation eq_refl)
    as (df & cat & Hrun & Hcell & _ & _ & _ & Hwarm & _).
  exists df, cat. repeat split; try assumption.
  apply Hwarm; reflexivity.
Defined.


Lemma data_quality_spec (t : float) :
  (data_quality t = "Suspicious" <-> F64.gt t 50 = true \/ F64.lt t (-50) = true) /\
  (data_quality t = "Good" <-> ~ (F64.gt t 50 = true \/ F64.lt t (-50) = true)).
Proof.
  unfold data_quality.
  destruct (F64.lt t (-50)), (F64.gt t 50); split; split;
    try discriminate; try reflexivity; intuition discriminate.
Qed.

(** C2: the data quality flag of a record is "Suspicious" exactly when its
    Celsius temperature is above 50 or below -50, and "Good" exactly when it
    is not; a temperature equal to 50 or to -50 is flagged "Good". *)
Theorem transform_data_quality (env : Env) (st : State) (obs : list Observation)
  (i : nat) (o : Observation) :
  nth_error obs i = Some o ->
  exists df flag,
    fst (transform (observations_frame obs) env st) = Return df /\
    cell df i "data_quality" = Some (PStr flag) /\
    (flag = "Suspicious" <->
     F64.gt (temperature o) 50 = true \/ F64.lt (temperature o) (-50) = true) /\
    (flag = "Good" <->
     ~ (F64.gt (temperature o) 50 = true \/ F64.lt (temperature o) (-50) = true)) /\
    (PrimFloat.eqb (temperature o) 50 = true -> flag = "Good") /\
    (PrimFloat.eqb (temperature o) (-50) = true -> flag = "Good").
Proof.
  intros Ho.
  exists (enriched_frame (wall_clock env (clock_reads st)) obs),
    (data_quality (temperature o)).
  rewrite transform_observations. split; [reflexivity|].
  split; [rewrite (cell_enriched _ _ _ _ _ 17 Ho) by reflexivity; reflexivity|].
  destruct (data_quality_spec (temperature o)) as (H1 & H2).
  split; [exact H1|]. split; [exact H2|].
  split; intros E; rewrite (data_quality_eqb _ _ E); reflexivity.
Qed.

Lemma transform_data_quality_witness :
  exists df flag,
    fst (transform (observations_frame [sample_observation]) sample_env initial_state)
    = Return df /\
    cell df 0 "data_quality" = Some (PStr flag) /\ flag = "Good".
Proof.
  destruct (transform_data_quality sample_env initial_state [sample_observation] 0
              sample_observation eq_refl)
    as (df & flag & Hrun & Hcell & _ & Hgood & _).
  exists df, flag. repeat split; try assumption.
  apply Hgood. intros [H|H]; discriminate H.
Defined.

Lemma day_night_spec (o : Observation) :
  (day_night o = "Day" <-> (sunrise o <= timestamp o <= sunset o)%Z) /\
  (day_night o = "Night" <-> ~ (sunrise o <= timestamp o <= sunset o)%Z).
Proof.
  unfold day_night.
  destruct (Z.leb_spec (sunrise o) (timestamp o)), (Z.leb_spec (timestamp o) (sunset o));
    simpl; split; split; intros; try discriminate; try reflexivity; lia.
Qed.

(** C3: the day/night indicator of a record is "Day" exactly when
    sunrise <= timestamp <= sunset, both bounds included, and "Night"
    exactly when not; a timestamp equal to sunrise or to sunset (of a day
    whose sunrise is not after its sunset) gives "Day", a timestamp one
    second before sunrise gives "Night". *)
Theorem transform_day_night (env : Env) (st : State) (obs : list Observation)
  (i : nat) (o : Observation) :
  nth_error obs i = Some o ->
  exists df dn,
    fst (transform (observations_frame obs) env st) = Return df /\
    cell df i "day_night" = Some (PStr dn) /\
    (dn = "Day" <-> (sunrise o <= timestamp o <= sunset o)%Z) /\
    (dn = "Night" <-> ~ (sunrise o <= timestamp o <= sunset o)%Z) /\
    (timestamp o = sunrise o -> (sunrise o <= sunset o)%Z -> dn = "Day") /\
    (timestamp o = sunset o -> (sunrise o <= sunset o)%Z -> dn = "Day") /\
    (timestamp o = (sunrise o - seconds 1)%Z -> dn = "Night").
Proof.
  intros Ho.
  exists (enriched_frame (wall_clock env (clock_reads st)) obs), (day_night o).
  rewrite transform_observations. split; [reflexivity|].
  split; [rewrite (cell_enriched _ _ _ _ _ 13 Ho) by reflexivity; reflexivity|].
  destruct (day_night_spec o) as (H1 & H2).
  split; [exact H1|]. split; [exact H2|].
  split; [|split].
  - intros E Hle. apply H1. lia.
  - intros E Hle. apply H1. lia.
  - intros E. apply H2. unfold seconds in E. lia.
Qed.

Lemma transform_day_night_witness :
  exists df dn,
    fst (transform (observations_frame [sample_observation]) sample_env initial_state)
    = Return df /\
    cell df 0 "day_night" = Some (PStr dn) /\ dn = "Day".
Proof.
  destruct (transform_day_night sample_env initial_state [sample_observation] 0
              sample_observation eq_refl)
    as (df & dn & Hrun & Hcell & Hday & _).
  exists df, dn. repeat split; try assumption.
  apply Hday. vm_compute. split; discriminate.
Defined.

(** C4: the Fahrenheit fields of a record are the linear conversion of its
    Celsius fields, [c * 9 / 5 + 32] evaluated in binary64 as the program
    does, with no other step: temperature_f from temperature, feels_like_f
    from feels_like, the Celsius fields being those of the input record. *)
Theorem transform_fahrenheit (env : Env) (st : State) (obs : list Observation)
  (i : nat) (o : Observation) :
  nth_error obs i = Some o ->
  exists df c fl,
    fst (transform (observations_frame obs) env st) = Return df /\
    c = temperature o /\ fl = feels_like o /\
    cell df i "temperature" = Some (PFloat c) /\
    cell df i "temperature_f" = Some (PFloat (c * 9 / 5 + 32)) /\
    cell df i "feels_like" = Some (PFloat fl) /\
    cell df i "feels_like_f" = Some (PFloat (fl * 9 / 5 + 32)).
Proof.
  intros Ho.
  exists (enriched_frame (wall_clock env (clock_reads st)) obs),
    (temperature o), (feels_like o).
  rewrite transform_observations. split; [reflexivity|].
  split; [reflexivity|]. split; [reflexivity|].
  repeat split.
  - rewrite (cell_enriched _ _ _ _ _ 2 Ho) by reflexivity; reflexivity.
  - rewrite (cell_enriched _ _ _ _ _ 14 Ho) by reflexivity; reflexivity.
  - rewrite (cell_enriched _ _ _ _ _ 3 Ho) by reflexivity; reflexivity.
  - rewrite (cell_enriched _ _ _ _ _ 15 Ho) by reflexivity; reflexivity.
Qed.

Lemma transform_fahrenheit_witness :
  exists df,
    fst (transform (observations_frame [sample_observation]) sample_env initial_state)
    = Return df /\
    cell df 0 "temperature" = Some (PFloat 22.5) /\
    cell df 0 "temperature_f" = Some (PFloat 72.5).
Proof.
  destruct (transform_fahrenheit sample_env initial_state [sample_observation] 0
              sample_observation eq_refl)
    as (df & c & fl & Hrun & Hc & _ & Ht & Htf & _).
  exists df. subst c. repeat split; assumption.
Defined.

(** C5: one call of [transform] reads the clock once, whatever the size of
    the batch, and every record of the output carries that reading, the one
    taken when the call starts, as its etl timestamp. *)
Theorem transform_single_etl_timestamp (env : Env) (st : State) (obs : list Observation) :
  exists df st' now,
    transform (observations_frame obs) env st = (Return df, st') /\
    now = wall_clock env (clock_reads st) /\
    clock_reads st' = S (clock_reads st) /\
    len df = List.length obs /\
    forall i, i < len df -> cell df i "etl_timestamp" = Some (PDatetime now).
Proof.
  exists (enriched_frame (wall_clock env (clock_reads st)) obs), (after_transform st),
    (wall_clock env (clock_reads st)).
  rewrite transform_observations.
  assert (Hlen : len (enriched_frame (wall_clock env (clock_reads st)) obs)
                 = List.length obs).
  { unfold len, enriched_frame. cbn [rows]. apply length_map. }
  repeat split; try assumption.
  intros i Hi. rewrite Hlen in Hi.
  destruct (nth_error obs i) as [o|] eqn:Ho.
  - rewrite (cell_enriched _ _ _ _ _ 12 Ho) by reflexivity; reflexivity.
  - apply nth_error_None in Ho. lia.
Qed.

(** C6: [transform] returns a batch with as many records as its input, in
    the same order; the columns of the input come first and unchanged, the
    derived columns are added after them, and every source field of every
    record has in the output the value it has in the input. *)
Theorem transform_preserves_batch (env : Env) (st : State) (obs : list Observation) :
  exists df,
    fst (transform (observations_frame obs) env st) = Return df /\
    len df = len (observations_frame obs) /\
    columns df = columns (observations_frame obs) ++ derived_columns /\
    forall i c, i < List.length obs -> In c observation_columns ->
      exists v, cell (observations_frame obs) i c = Some v /\ cell df i c = Some v.
Proof.
  exists (enriched_frame (wall_clock env (clock_reads st)) obs).
  rewrite transform_observations. split; [reflexivity|].
  split; [unfold len; cbn [rows enriched_frame observations_frame];
          now rewrite !length_map|].
  split; [reflexivity|].
  intros i c Hi Hc.
  destruct (nth_error obs i) as [o|] eqn:Ho; [|apply nth_error_None in Ho; lia].
  unfold observation_columns in Hc. simpl in Hc.
  repeat (destruct Hc as [<-|Hc];
    [ match goal with
      | |- context [cell (observations_frame _) _ ?c] =>
          match eval vm_compute in (index_of c observation_columns) with
          | Some ?k =>
              rewrite (cell_observation _ _ _ c k Ho) by reflexivity;
              rewrite (cell_enriched _ _ _ _ c k Ho) by reflexivity
          end
      end; eexists; split; reflexivity | ]).
  contradiction.
Qed.

(** ** extract *)

Ltac split_result :=
  match goal with
  | |- context [fromtimestamp ?env ?v] => destruct (fromtimestamp env v)
  | |- context [match ?x with Return _ => _ | Raise _ => _ end] =>
      lazymatch x with
      | match _ with _ => _ end => fail
      | _ => destruct x
      end
  end.

(** Building the record of a location changes nothing in the state. *)
Lemma processed_data_pure (city : string) (wd : pyval) (env : Env) (st : State) :
  processed_data city wd env st = (fst (processed_data city wd env initial_state), st).
Proof.
  unfold processed_data, bind, lift, ret, datetime_fromtimestamp.
  cbn [rbind].
  repeat (cbv beta iota; cbn [fst snd]; try reflexivity; split_result).
Qed.

(** One turn of the loop: its result is [location_outcome], its only
    effect the request. *)
Lemma extract_city_run (key : option string) (city : string) (env : Env) (st : State) :
  extract_city key city env st
  = (location_outcome env (List.length (requests_sent st)) key city,
     with_requests st (requests_sent st ++ [weather_request key city])).
Proof.
  unfold extract_city, location_outcome, bind, requests_get, raise_for_status,
    response_json, ret, raise.
  fold (weather_request key city).
  destruct (http env _ _) as [r|]; [|reflexivity].
  destruct (http_error (status_code r)); [reflexivity|].
  destruct (body r) as [wd|]; [|reflexivity].
  rewrite processed_data_pure.
  destruct (fst (processed_data city wd env initial_state)); reflexivity.
Qed.

(** The whole loop: the records of the locations up to the first failure. *)
Lemma for_city_in_run (cities : list string) :
  forall key acc env st,
    for_city_in cities key acc env st
    = ((records <- outcomes env (List.length (requests_sent st)) key cities ;;
        Return (acc ++ records))%result,
       loop_state st key cities (leading env (List.length (requests_sent st)) key cities)).
Proof.
  induction cities as [|city rest IH]; intros key acc env st.
  - unfold loop_state. simpl. rewrite !app_nil_r. destruct st; reflexivity.
  - cbn [for_city_in outcomes leading]. unfold bind at 1.
    rewrite extract_city_run.
    destruct (location_outcome env (List.length (requests_sent st)) key city)
      as [record|e]; cbn [rbind].
    + unfold bind at 1, logger_info at 1. rewrite IH.
      cbn [requests_sent with_log with_requests]. rewrite length_app, Nat.add_1_r.
      f_equal.
      * destruct (outcomes env _ key rest); cbn [rbind]; [|reflexivity].
        now rewrite <- app_assoc.
      * unfold loop_state, with_log, with_requests. cbn.
        now rewrite <- !app_assoc.
    + unfold loop_state, with_requests. cbn. now rewrite app_nil_r.
Qed.

Lemma outcomes_all (env : Env) (key : option string) (cities : list string) :
  forall n,
    (forall i city, nth_error cities i = Some city ->
       exists record, location_outcome env (n + i) key city = Return record) ->
    exists records,
      outcomes env n key cities = Return records /\
      leading env n key cities = List.length cities /\
      List.length records = List.length cities /\
      forall i city, nth_error cities i = Some city ->
        exists record,
          nth_error records i = Some record /\
          location_outcome env (n + i) key city = Return record.
Proof.
  induction cities as [|city rest IH]; intros n Hall.
  - exists []. repeat split. intros [|i] c H; discriminate H.
  - destruct (Hall 0 city eq_refl) as [record Hrec]. rewrite Nat.add_0_r in Hrec.
    destruct (IH (S n)) as (records & Hout & Hlead & Hlen & Hnth).
    { intros i c Hi. rewrite Nat.add_succ_comm. now apply (Hall (S i)). }
    exists (record :: records). cbn [outcomes leading]. rewrite Hrec, Hout, Hlead.
    repeat split; [simpl; now rewrite Hlen|].
    intros [|i] c Hi.
    + injection Hi as <-. exists record. rewrite Nat.add_0_r. now split.
    + rewrite <- Nat.add_succ_comm. now apply Hnth.
Qed.


(** *** The records and the frame built from them *)

Lemma processed_data_keys (city : string) (wd : pyval) (env : Env)
  (record : list (string * pyval)) :
  fst (processed_data city wd env initial_state) = Return record ->
  map fst record = observation_columns /\ dict_get record "city" = Some (PStr city).
Proof.
  unfold processed_data, bind, lift, ret, datetime_fromtimestamp. cbn [rbind].
  repeat (cbv beta iota; cbn [fst snd]; try discriminate; try split_result).
  intros H. injection H as <-. split; reflexivity.
Qed.

Lemma location_outcome_keys (env : Env) (n : nat) (key : option string) (city : string)
  (record : list (string * pyval)) :
  location_outcome env n key city = Return record ->
  map fst record = observation_columns /\ dict_get record "city" = Some (PStr city).
Proof.
  unfold location_outcome.
  destruct (http env n _) as [r|]; [|discriminate].
  destruct (http_error _); [discriminate|].
  destruct (body r) as [wd|]; [|discriminate].
  apply processed_data_keys.
Qed.

Lemma index_of_nth (c : string) (cs : list string) :
  forall k, index_of c cs = Some k -> nth_error cs k = Some c.
Proof.
  induction cs as [|c' cs IH]; intros k H; simpl in H; [discriminate|].
  destruct (String.eqb_spec c' c) as [->|Hne].
  - injection H as <-. reflexivity.
  - destruct (index_of c cs) as [k'|]; [|discriminate].
    injection H as <-. simpl. now apply IH.
Qed.



Lemma add_keys_observation (cs : list string) (record : list (string * pyval)) :
  cs = [] \/ cs = observation_columns ->
  map fst record = observation_columns ->
  add_keys cs record = observation_columns.
Proof.
  intros Hcs Hkeys. unfold observation_columns in Hkeys.
  repeat (destruct record as [|[? ?] record]; simpl in Hkeys; [discriminate Hkeys|];
          injection Hkeys as -> Hkeys).
  destruct record; [|simpl in Hkeys; discriminate Hkeys].
  destruct Hcs as [->| ->]; reflexivity.
Qed.

Lemma pd_DataFrame_columns (records : list (list (string * pyval))) :
  Forall (fun r => map fst r = observation_columns) records ->
  records <> [] ->
  columns (pd_DataFrame records) = observation_columns.
Proof.
  intros Hall. unfold pd_DataFrame. cbn [columns].
  assert (H : forall cs, cs = [] \/ cs = observation_columns ->
                         fold_left add_keys records cs = observation_columns
                         \/ (records = [] /\ fold_left add_keys records cs = cs)).
  { induction Hall as [|r rs Hr Hrs IH]; intros cs Hcs.
    - right. now split.
    - left. simpl. rewrite (add_keys_observation cs r Hcs Hr).
      destruct (IH observation_columns) as [H|[_ H]]; auto. }
  intros Hne.
  destruct (H [] (or_introl eq_refl)) as [H1|[H1 _]]; [assumption|contradiction].
Qed.


Ltac split_getitem_in H :=
  match type of H with
  | context [getitem_key ?v ?k] => destruct (getitem_key v k) eqn:?
  | context [getitem_index ?v ?i] => destruct (getitem_index v i) eqn:?
  | context [fromtimestamp ?env ?v] => destruct (fromtimestamp env v) eqn:?
  end.

(** From a well-formed body [processed_data] builds the reading. *)
Lemma processed_data_well_formed (city : string) (wd : pyval) (env : Env) :
  well_formed env wd = true ->
  fst (processed_data city wd env initial_state) = Return (reading env city wd).
Proof.
  unfold well_formed, value_fields, time_fields, present, converts.
  unfold processed_data, bind, lift, ret, datetime_fromtimestamp, reading, time_field,
    field, value_fields, time_fields.
  cbn [forallb map snd fst lookup rbind app].
  intros H.
  repeat (split_getitem_in H; cbn [rbind andb] in H |- *; try discriminate H).
  repeat match goal with E : _ = _ |- _ => rewrite E end.
  reflexivity.
Qed.

(** From any other body it raises. *)
Lemma processed_data_ill_formed (city : string) (wd : pyval) (env : Env) :
  well_formed env wd = false ->
  exists e, fst (processed_data city wd env initial_state) = Raise e.
Proof.
  unfold well_formed, value_fields, time_fields, present, converts.
  unfold processed_data, bind, lift, ret, datetime_fromtimestamp.
  cbn [forallb map snd fst lookup rbind app].
  intros H.
  repeat first [ solve [eexists; reflexivity]
               | discriminate H
               | split_getitem_in H; cbn [rbind andb fst snd] in H |- * ].
Qed.

(** What the fetch of a location comes to, told from the answer. *)
Lemma location_outcome_fetched (env : Env) (n : nat) (key : option string) (city : string) :
  fetch_fails env n (weather_request key city) = false ->
  exists r wd,
    http env n (weather_request key city) = Some r /\
    http_error (status_code r) = false /\
    body r = Some wd /\
    location_outcome env n key city = Return (reading env city wd).
Proof.
  unfold fetch_fails, location_outcome.
  destruct (http env n _) as [r|]; [|discriminate].
  destruct (http_error (status_code r)) eqn:Hs; [discriminate|].
  destruct (body r) as [wd|] eqn:Hb; [|discriminate].
  cbn [orb]. intros H. apply negb_false_iff in H.
  exists r, wd. split; [reflexivity|]. split; [exact Hs|]. split; [exact Hb|].
  now apply processed_data_well_formed.
Qed.

Lemma location_outcome_failed (env : Env) (n : nat) (key : option string) (city : string) :
  fetch_fails env n (weather_request key city) = true ->
  exists e,
    location_outcome env n key city = Raise e /\
    (http env n (weather_request key city) = None -> e = ConnectionError) /\
    (forall r, http env n (weather_request key city) = Some r ->
       (http_error (status_code r) = true -> e = HTTPError (status_code r)) /\
       (http_error (status_code r) = false -> body r = None -> e = JSONDecodeError)).
Proof.
  unfold fetch_fails, location_outcome.
  destruct (http env n _) as [r|].
  - destruct (http_error (status_code r)) eqn:Hs.
    + intros _. eexists. split; [reflexivity|]. split; [discriminate|].
      intros r' E. injection E as <-. rewrite Hs. split; [reflexivity|discriminate].
    + destruct (body r) as [wd|] eqn:Hb.
      * cbn [orb]. intros H. apply negb_true_iff in H.
        destruct (processed_data_ill_formed city wd env H) as [e He].
        exists e. split; [exact He|]. split; [discriminate|].
        intros r' E. injection E as <-. rewrite Hs, Hb. split; discriminate.
      * intros _. eexists. split; [reflexivity|]. split; [discriminate|].
        intros r' E. injection E as <-. rewrite Hs. split; [discriminate|reflexivity].
  - intros _. eexists. split; [reflexivity|]. split; [reflexivity|]. discriminate.
Qed.


(** What a run of [extract] with a credential comes to. *)
Lemma extract_cities_run (cities : list string) (env : Env) (st : State) :
  not_key (API_KEY env) = false ->
  extract_cities cities env st
  = match outcomes env (List.length (requests_sent st)) (API_KEY env) cities with
    | Return records =>
        (Return (pd_DataFrame records),
         with_log
           (loop_state (with_log st (log st ++ [extraction_starts])) (API_KEY env)
              cities (List.length cities))
           ((log st ++ [extraction_starts]) ++ map extracted_line cities
            ++ [extraction_ends (List.length records)]))
    | Raise e =>
        let st1 :=
          loop_state (with_log st (log st ++ [extraction_starts])) (API_KEY env) cities
            (leading env (List.length (requests_sent st)) (API_KEY env) cities) in
        (Raise e,
         if is_RequestException e
         then with_log st1 (log st1 ++ [extraction_fails e])
         else st1)
    end.
Proof.
  intros Hkey.
  unfold extract_cities, bind at 1, logger_info at 1, bind at 1, os_getenv_API_KEY.
  rewrite Hkey. unfold try_except, bind at 1. rewrite for_city_in_run.
  cbn [requests_sent with_log].
  destruct (outcomes env _ (API_KEY env) cities) as [records|e] eqn:Hout; cbn [rbind app].
  - assert (Hlead : leading env (List.length (requests_sent st)) (API_KEY env) cities
                    = List.length cities).
    { clear - Hout. revert records Hout. generalize (List.length (requests_sent st)).
      induction cities as [|c rest IH]; intros n records Hout; [reflexivity|].
      cbn [outcomes leading] in *.
      destruct (location_outcome env n (API_KEY env) c); [|discriminate].
      cbn [rbind] in Hout.
      destruct (outcomes env (S n) (API_KEY env) rest) eqn:E; [|discriminate].
      now rewrite (IH _ _ E). }
    rewrite Hlead. unfold bind, logger_info, ret, len, pd_DataFrame. cbn [rows].
    rewrite length_map. f_equal. f_equal.
    unfold loop_state. cbn [log with_log]. now rewrite firstn_all, <- app_assoc.
  - destruct (is_RequestException e); reflexivity.
Qed.


(** [extract] sends requests and writes log lines; it leaves the clock and
    the database alone. *)
Lemma extract_leaves_database (cities : list string) (env : Env) (st : State)
  (r : result DataFrame) (st' : State) :
  extract_cities cities env st = (r, st') ->
  clock_reads st' = clock_reads st /\
  db_trace st' = db_trace st /\
  database st' = database st.
Proof.
  unfold extract_cities, bind at 1, logger_info at 1, bind at 1, os_getenv_API_KEY.
  destruct (not_key (API_KEY env)).
  - unfold bind, logger_error, raise. intros H. injection H as <- <-. now repeat split.
  - unfold try_except, bind at 1. rewrite for_city_in_run.
    destruct (outcomes env _ (API_KEY env) cities) as [records|e]; cbn [rbind].
    + unfold bind, logger_info, ret. intros H. injection H as <- <-. now repeat split.
    + destruct (is_RequestException e); unfold bind, logger_error, raise;
        intros H; injection H as <- <-; now repeat split.
Qed.






(** The third location fails: [extract] raises its error, the last two
    locations are never requested, and the pipeline stops before [load]. *)
Example extract_fails_fast :
  exists st',
    extract failing_env initial_state = (Raise (HTTPError 404), st') /\
    List.length (requests_sent st') = 3 /\
  exists st'',
    run_etl_pipeline failing_env initial_state = (Raise (HTTPError 404), st'') /\
    db_trace st'' = [] /\ database st'' = None.
Proof.
  eexists. split; [vm_compute; reflexivity|]. split; [reflexivity|].
  eexists. split; [vm_compute; reflexivity|]. split; reflexivity.
Qed.

(** ** load *)

Lemma State_ext (a b : State) :
  log a = log b -> requests_sent a = requests_sent b -> clock_reads a = clock_reads b ->
  db_trace a = db_trace b -> database a = database b -> a = b.
Proof.
  destruct a, b; simpl; intros; subst; reflexivity.
Qed.

Section Projections.

Variable s : State.

Lemma log_with_log l : log (with_log s l) = l.
Proof. reflexivity. Qed.
Lemma log_with_db tr db : log (with_db s tr db) = log s.
Proof. reflexivity. Qed.
Lemma requests_with_log l : requests_sent (with_log s l) = requests_sent s.
Proof. reflexivity. Qed.
Lemma requests_with_db tr db : requests_sent (with_db s tr db) = requests_sent s.
Proof. reflexivity. Qed.
Lemma clock_with_log l : clock_reads (with_log s l) = clock_reads s.
Proof. reflexivity. Qed.
Lemma clock_with_db tr db : clock_reads (with_db s tr db) = clock_reads s.
Proof. reflexivity. Qed.
Lemma trace_with_log l : db_trace (with_log s l) = db_trace s.
Proof. reflexivity. Qed.
Lemma trace_with_db tr db : db_trace (with_db s tr db) = tr.
Proof. reflexivity. Qed.
Lemma database_with_log l : database (with_log s l) = database s.
Proof. reflexivity. Qed.
Lemma database_with_db tr db : database (with_db s tr db) = db.
Proof. reflexivity. Qed.

End Projections.

Create Rewrite HintDb state.
#[local] Hint Rewrite log_with_log log_with_db requests_with_log requests_with_db
  clock_with_log clock_with_db trace_with_log trace_with_db database_with_log
  database_with_db : state.

Lemma committed_destination (st : State) : committed st = records (destination st).
Proof. unfold committed, destination. now destruct (database st). Qed.

(** *** Pages *)

Lemma concat_paginate {A} (n : nat) (seq : list A) :
  forall page i, List.concat (_paginate n seq page i) = page ++ seq.
Proof.
  induction seq as [|a seq IH]; intros page i; cbn [_paginate].
  - destruct page; cbn [List.concat app]; now rewrite ?app_nil_r.
  - destruct (Nat.eqb (S i) n); [cbn [List.concat]|]; rewrite IH, <- app_assoc; reflexivity.
Qed.

(** *** Rows *)

Lemma stored_rows_length (env : Env) (sch : list (string * sqltype)) (cs : list string)
  (ts : list (list pyval)) :
  forall id, List.length (stored_rows env sch cs id ts) = List.length ts.
Proof.
  induction ts as [|t ts IH]; intros id; simpl; [reflexivity | now rewrite IH].
Qed.

Lemma stored_rows_app (env : Env) (sch : list (string * sqltype)) (cs : list string)
  (ts1 ts2 : list (list pyval)) :
  forall id,
    stored_rows env sch cs id (ts1 ++ ts2)
    = stored_rows env sch cs id ts1
      ++ stored_rows env sch cs (id + Z.of_nat (List.length ts1)) ts2.
Proof.
  induction ts1 as [|t ts1 IH]; intros id.
  - cbn. now rewrite Z.add_0_r.
  - cbn [stored_rows app List.length]. rewrite IH. cbn [app]. do 3 f_equal. lia.
Qed.

Lemma dict_get_combine (names : list string) (c : string) :
  forall t : list pyval,
    List.length t = List.length names ->
    mem c names = true ->
    exists v, dict_get (combine names t) c = Some v.
Proof.
  unfold mem. induction names as [|c' names IH]; intros t Hlen Hmem; [discriminate|].
  destruct t as [|v t]; [discriminate|]. cbn [combine dict_get].
  cbn [index_of] in Hmem. destruct (String.eqb c' c); [now exists v|].
  apply IH; [cbn in Hlen; lia|].
  destruct (index_of c names); [reflexivity|discriminate].
Qed.

(** When the INSERT names the identity column, the sequence plays no part
    in the row. *)
Lemma stored_row_named_id (env : Env) (sch : list (string * sqltype)) (cs : list string)
  (t : list pyval) (id id' : Z) :
  default_id sch cs = false ->
  List.length t = List.length cs ->
  stored_row env sch cs id t = stored_row env sch cs id' t.
Proof.
  intros Hdef Hlen. unfold stored_row. apply map_ext_in. intros [c ty] Hin. cbn [fst snd].
  destruct (is_serial ty) eqn:Hs; [|now destruct (dict_get _ c)].
  unfold default_id in Hdef.
  assert (Hmem : mem c (map fold_case cs) = true).
  { destruct (mem c (map fold_case cs)) eqn:E; [reflexivity|].
    assert (H : existsb (fun cty : string * sqltype =>
                  is_serial (snd cty) && negb (mem (fst cty) (map fold_case cs))) sch = true).
    { apply existsb_exists. exists (c, ty). split; [exact Hin|]. cbn. now rewrite Hs, E. }
    congruence. }
  destruct (dict_get_combine (map fold_case cs) c t) as [v ->];
    [now rewrite length_map| exact Hmem | reflexivity].
Qed.

Lemma stored_rows_named_id (env : Env) (sch : list (string * sqltype)) (cs : list string)
  (ts : list (list pyval)) :
  default_id sch cs = false ->
  Forall (fun t => List.length t = List.length cs) ts ->
  forall id id', stored_rows env sch cs id ts = stored_rows env sch cs id' ts.
Proof.
  intros Hdef Hall. induction Hall as [|t ts Ht Hts IH]; intros id id'; [reflexivity|].
  cbn [stored_rows]. rewrite (stored_row_named_id env sch cs t id id' Hdef Ht).
  f_equal. apply IH.
Qed.

Lemma insert_rows_run (env : Env) (sch : list (string * sqltype)) (cs : list string)
  (ts : list (list pyval)) :
  Forall (fun t => List.length t = List.length cs) ts ->
  forall existing id r id',
    insert_rows env sch cs existing id ts = (r, id') ->
    (id <= id')%Z /\
    match r with
    | Return rs =>
        rs = stored_rows env sch cs id ts /\ id' = advance sch cs id (List.length ts)
    | Raise _ => True
    end.
Proof.
  unfold advance.
  intros Hall. induction Hall as [|t ts Ht Hts IH]; intros existing id r id' H.
  - cbn in H. injection H as <- <-. split; [lia|]. split; [reflexivity|].
    destruct (default_id sch cs); simpl; lia.
  - cbn [insert_rows] in H.
    destruct (key_violation _ existing _).
    + injection H as <- <-. split; [destruct (default_id sch cs); lia|exact I].
    + destruct (insert_rows env sch cs _ _ ts) as [rest last_id] eqn:E.
      injection H as <- <-.
      destruct (IH _ _ _ _ E) as [Hle Hrest].
      split; [destruct (default_id sch cs); lia|].
      destruct rest as [rs|e]; cbn [rbind]; [|exact I].
      destruct Hrest as [-> ->]. cbn [stored_rows List.length].
      destruct (default_id sch cs) eqn:Hdef.
      * split; [reflexivity|lia].
      * split; [|reflexivity]. f_equal.
        now apply stored_rows_named_id.
Qed.

(** *** One page, then all of them *)

Lemma rmap_Return {A B} (f : A -> result B) (l : list A) :
  forall bs, rmap f l = Return bs -> Forall2 (fun a b => f a = Return b) l bs.
Proof.
  induction l as [|a l IH]; intros bs H; cbn [rmap] in H.
  - injection H as <-. constructor.
  - destruct (f a) as [b|] eqn:Ha; [|discriminate]. cbn [rbind] in H.
    destruct (rmap f l) as [bs'|]; [|discriminate]. cbn [rbind] in H.
    injection H as <-. constructor; [assumption|now apply IH].
Qed.

Lemma rmap_column_name (cs names : list string) :
  rmap column_name cs = Return names -> names = map fold_case cs.
Proof.
  intros H. apply rmap_Return in H.
  induction H as [|c name cs names Hc _ IH]; [reflexivity|].
  cbn [map]. rewrite IH. f_equal. unfold column_name in Hc.
  destruct (plain_identifier c); [now injection Hc|discriminate].
Qed.

Lemma sent_nothing (env : Env) (conn : Connection) (cs : list string)
  (ts : list (list pyval)) (st : State) (t : Table) (e : exn) :
  database st = Some t -> sent env conn cs ts st t (Raise e) st.
Proof.
  intros Hdb. repeat split.
  - exists []. rewrite app_nil_r. split; reflexivity.
  - exists t. repeat split; [assumption|lia].
Qed.

Lemma sent_refused (env : Env) (conn : Connection) (cs : list string)
  (ts : list (list pyval)) (st : State) (t : Table) (e : exn) (q : statement) (id : Z) :
  database st = Some t ->
  (sequence t <= id)%Z ->
  sent env conn cs ts st t (Raise e)
    (with_db st (db_trace st ++ [Execute q])
       (Some {| schema := schema t; records := records t; sequence := id |})).
Proof.
  intros Hdb Hle. repeat split.
  - eexists. autorewrite with state. split; reflexivity.
  - eexists. autorewrite with state. split; [reflexivity|]. cbn. repeat split. exact Hle.
Qed.

Lemma execute_page_run (conn : Connection) (cs : list string) (page : list (list pyval))
  (env : Env) (st : State) (r : result Connection) (st' : State) (t : Table) :
  database st = Some t ->
  execute_page conn cs page env st = (r, st') ->
  sent env conn cs page st t r st' /\
  match r with
  | Return _ => db_trace st' = db_trace st ++ [Execute (InsertInto cs page)]
  | Raise _ => True
  end.
Proof.
  intros Hdb. unfold execute_page.
  assert (Hsame : forall e, (Raise e : result Connection, st) = (r, st') ->
            sent env conn cs page st t r st' /\
            match r with
            | Return _ => db_trace st' = db_trace st ++ [Execute (InsertInto cs page)]
            | Raise _ => True
            end).
  { intros e H. injection H as <- <-. split; [now apply sent_nothing|exact I]. }
  destruct (forallb _ page) eqn:Hwf; [|apply Hsame].
  unfold bind at 1, lift. destruct (rmap (rmap adapt) page); [|apply Hsame].
  unfold cursor_execute, bind, db_step.
  assert (Hexec : forall e id, (sequence t <= id)%Z ->
            (Raise e : result Connection,
             with_db st (db_trace st ++ [Execute (InsertInto cs page)])
               (Some {| schema := schema t; records := records t; sequence := id |}))
            = (r, st') ->
            sent env conn cs page st t r st' /\
            match r with
            | Return _ => db_trace st' = db_trace st ++ [Execute (InsertInto cs page)]
            | Raise _ => True
            end).
  { intros e id Hle H. injection H as <- <-. split; [now apply sent_refused|exact I]. }
  assert (Ht : Some t = Some {| schema := schema t; records := records t;
                                sequence := sequence t |}) by now destruct t.
  destruct (db_fault env _); rewrite ?database_with_db, ?trace_with_db, Hdb;
    [rewrite Ht; apply Hexec; lia|].
  destruct (rmap column_name cs) as [[|name names]|e] eqn:Hnames;
    [rewrite Ht; apply Hexec; lia| |rewrite Ht; apply Hexec; lia].
  assert (Hfold := rmap_column_name _ _ Hnames). rewrite Hfold in *.
  destruct (check_targets _ _ _) as [[]|] eqn:Hcheck; cbn [rbind];
    [|rewrite Ht; apply Hexec; lia].
  destruct (rmap (on_columns _ (typecheck env) _) page); cbn [rbind];
    [|rewrite Ht; apply Hexec; lia].
  destruct (rmap (on_columns _ (assign env) _) page) as [wss|] eqn:Hassign;
    [|rewrite Ht; apply Hexec; lia].
  assert (Hall : Forall (fun tu => List.length tu = List.length cs) page).
  { apply Forall_forall. intros tu Hin.
    rewrite forallb_forall in Hwf. now apply Nat.eqb_eq, Hwf. }
  assert (Hacc : Forall (accepted env (schema t) cs) page).
  { apply rmap_Return in Hassign. clear - Hassign Hall Hnames Hcheck.
    induction Hassign as [|tu ws page wss Htu _ IH]; [constructor|].
    inversion Hall; subst. constructor; [|now apply IH].
    split; [assumption|]. split; [assumption|]. split; [assumption|]. now exists ws. }
  destruct (insert_rows env (schema t) cs _ (sequence t) page) as [rows id] eqn:Hins.
  destruct (insert_rows_run env _ _ _ Hall _ _ _ _ Hins) as [Hle Hrows].
  destruct rows as [rs|e]; autorewrite with state; [|now apply Hexec].
  intros H; injection H as <- <-; autorewrite with state.
  destruct Hrows as [-> ->]. split; [|reflexivity]. repeat split.
  - eexists. autorewrite with state. split; reflexivity.
  - eexists. autorewrite with state. split; [reflexivity|]. cbn. repeat split; assumption.
Qed.

Lemma execute_pages_run (cs : list string) (env : Env) (pages : list (list (list pyval))) :
  forall conn st r st' t,
    database st = Some t ->
    execute_pages conn cs pages env st = (r, st') ->
    sent env conn cs (List.concat pages) st t r st' /\
    match r with
    | Return _ =>
        db_trace st' = db_trace st ++ map (fun page => Execute (InsertInto cs page)) pages
    | Raise _ => True
    end.
Proof.
  induction pages as [|page pages IH]; intros conn st r st' t Hdb H.
  - cbn in H. injection H as <- <-. cbn [List.concat map]. rewrite app_nil_r.
    split; [|reflexivity]. repeat split.
    + exists []. rewrite app_nil_r. split; reflexivity.
    + exists t. unfold advance. cbn. rewrite app_nil_r.
      repeat split; try assumption; try lia; [constructor|].
      destruct (default_id _ _); lia.
  - cbn [execute_pages] in H. unfold bind in H.
    destruct (execute_page conn cs page env st) as [r1 st1] eqn:H1.
    destruct (execute_page_run _ _ _ _ _ _ _ _ Hdb H1)
      as [(Hl1 & Hq1 & Hc1 & (ops1 & Ho1 & He1) & t1 & Hdb1 & Hs1 & Hr1 & Hle1 & Hres1) Htr1].
    destruct r1 as [conn1|e1].
    + destruct (IH _ _ _ _ _ Hdb1 H)
        as [(Hl2 & Hq2 & Hc2 & (ops2 & Ho2 & He2) & t2 & Hdb2 & Hs2 & Hr2 & Hle2 & Hres2) Htr2].
      split.
      * split; [congruence|]. split; [congruence|]. split; [congruence|]. split.
        { exists (ops1 ++ ops2). rewrite Ho2, Ho1, <- app_assoc. split; [reflexivity|].
          rewrite forallb_app, He1, He2. reflexivity. }
        exists t2. split; [exact Hdb2|]. split; [congruence|]. split; [congruence|].
        split; [lia|].
        destruct r as [conn2|e2]; [|exact I].
        destruct Hres1 as (Hp1 & Hf1 & Hrows1 & Hseq1).
        destruct Hres2 as (Hp2 & Hf2 & Hrows2 & Hseq2).
        cbn [List.concat].
        rewrite Hs1 in *.
        split; [congruence|]. split; [now apply Forall_app|]. split.
        -- rewrite Hrows2, Hrows1, <- app_assoc. f_equal.
           rewrite Hseq1. unfold advance.
           destruct (default_id (schema t) cs) eqn:Hdef.
           ++ now rewrite stored_rows_app.
           ++ rewrite stored_rows_app. f_equal.
              apply stored_rows_named_id; [assumption|].
              eapply Forall_impl; [|exact Hf2]. now intros tu [Hlen _].
        -- rewrite Hseq2, Hseq1. unfold advance. rewrite length_app.
           destruct (default_id (schema t) cs); lia.
      * destruct r; [|exact I]. rewrite Htr2, Htr1, <- app_assoc. reflexivity.
    + injection H as <- <-. split; [|exact I].
      split; [exact Hl1|]. split; [exact Hq1|]. split; [exact Hc1|]. split.
      * exists ops1. split; assumption.
      * exists t1. repeat split; assumption.
Qed.

(** *** create_table *)

Ltac split_db_in H :=
  match type of H with
  | context [if db_fault ?e ?n then _ else _] => destruct (db_fault e n) eqn:?
  | context [match database ?s with _ => _ end] => destruct (database s) as [?t|] eqn:?
  end.

Ltac run_create_table H :=
  unfold create_table, psycopg2_connect, cursor_execute, conn_commit, conn_close,
    db_step, try_except, bind, logger_info, logger_error, ret, raise, Exception in H;
  change create_table_query with (CreateTableIfNotExists table_columns) in H;
  cbn [database with_log with_db db_trace log pending_create pending_rows
       fresh_connection] in H;
  repeat (split_db_in H;
          cbn [database with_log with_db db_trace log pending_create pending_rows
               fresh_connection negb schema records sequence] in H).

Lemma create_table_outcome (env : Env) (st : State) (r : result pyval) (st' : State) :
  create_table env st = (r, st') ->
  match r with
  | Return v => v = PNone /\ st' = table_ready st
  | Raise e =>
      e = OperationalError /\
      database st' = database st /\
      (exists n, db_fault env n = true) /\
      (exists l, log st' = l ++ [(ERROR, MsgExn "Error creating table: " e)]) /\
      requests_sent st' = requests_sent st /\ clock_reads st' = clock_reads st /\
      exists ops,
        db_trace st' = db_trace st ++ Connect :: ops /\
        count_ops is_close ops = 0 /\ count_ops is_connect ops = 0
  end.
Proof.
  intros H. run_create_table H.
  all: injection H as <- <-.
  all: try (split; [reflexivity|apply State_ext]).
  all: try (split; [reflexivity
                   |split; [|split; [eexists; eassumption
                                    |split; [eexists; autorewrite with state; reflexivity
                                            |split; [reflexivity|split; [reflexivity|]]]]]]).
  all: unfold table_ready, destination.
  all: change create_table_query with (CreateTableIfNotExists table_columns).
  all: autorewrite with state.
  all: cbn [log requests_sent clock_reads db_trace database].
  all: repeat match goal with E : database _ = _ |- _ => rewrite E end.
  all: rewrite <- ?app_assoc, ?app_nil_r; cbn [app].
  all: try reflexivity.
  all: try (eexists; split; [reflexivity|split; reflexivity]).
  all: match goal with t : Table |- _ => destruct t end; reflexivity.
Qed.

Lemma create_table_succeeds (env : Env) (st : State) :
  (forall n, db_fault env n = false) ->
  create_table env st = (Return PNone, table_ready st).
Proof.
  intros Hfault. destruct (create_table env st) as [r st'] eqn:H.
  apply create_table_outcome in H. destruct r as [v|e].
  - destruct H as [-> ->]. reflexivity.
  - destruct H as (_ & _ & [n Hn] & _). rewrite Hfault in Hn. discriminate Hn.
Qed.

(** *** load, stage by stage *)

Lemma load_stages (df : DataFrame) (env : Env) (st : State) :
  load df env st
  = match db_step Connect env
            (with_log st (log st ++ [(INFO, Msg "Starting loading phase...")])) with
    | (Raise e, st1) => load_fails e st1
    | (Return _, st1) =>
        match create_table env st1 with
        | (Raise e, st2) => load_fails e st2
        | (Return _, st2) =>
            match execute_values fresh_connection (columns df) (itertuples df) env st2 with
            | (Raise e, st3) => load_fails e st3
            | (Return conn, st3) =>
                match conn_commit conn env st3 with
                | (Raise e, st4) => load_fails e st4
                | (Return _, st4) =>
                    (Return PNone,
                     with_log (with_db st4 (db_trace st4 ++ [Close]) (database st4))
                       (log st4 ++ [(INFO, MsgLen "Successfully loaded " (len df)
                                                  " weather records into PostgreSQL")]))
                end
            end
        end
    end.
Proof.
  unfold load, load_fails, try_except, psycopg2_connect, bind at 1, logger_info at 1.
  unfold bind at 1. unfold bind at 1.
  destruct (db_step Connect env _) as [[[]|e] st1]; [|reflexivity].
  unfold ret at 1. unfold bind at 1.
  destruct (create_table env st1) as [[v|e] st2]; [|reflexivity].
  unfold bind at 1.
  destruct (execute_values _ _ _ env st2) as [[conn|e] st3]; [|reflexivity].
  unfold bind at 1.
  destruct (conn_commit conn env st3) as [[conn'|e] st4]; [|reflexivity].
  reflexivity.
Qed.

Lemma count_ops_app (kind : db_op -> bool) (a b : list db_op) :
  count_ops kind (a ++ b) = count_ops kind a + count_ops kind b.
Proof. unfold count_ops. now rewrite filter_app, length_app. Qed.

Lemma count_ops_execute (ops : list db_op) :
  forallb is_execute ops = true ->
  count_ops is_close ops = 0 /\ count_ops is_connect ops = 0.
Proof.
  induction ops as [|op ops IH]; [now split|].
  cbn [forallb]. intros H. apply andb_prop in H. destruct H as [Hop Hops].
  destruct (IH Hops) as [Hc Hk]. unfold count_ops in *.
  destruct op; try discriminate Hop. cbn. now split.
Qed.

(** What a run of [load] comes to: the state [loaded] and no value, or an
    exception, logged, with the table as it was but for its sequence. *)
Lemma load_outcome (df : DataFrame) (env : Env) (st : State) (r : result pyval)
  (st' : State) :
  load df env st = (r, st') ->
  requests_sent st' = requests_sent st /\ clock_reads st' = clock_reads st /\
  match r with
  | Return v =>
      v = PNone /\ st' = loaded env df st /\
      Forall (accepted env (schema (destination st)) (columns df)) (rows df)
  | Raise e =>
      (exists l, log st' = l ++ [(ERROR, MsgExn "Error loading data: " e)]) /\
      (exists ops,
         db_trace st' = db_trace st ++ ops /\
         count_ops is_close ops <= 1 /\
         count_ops is_close ops < count_ops is_connect ops) /\
      (database st = None -> committed st' = []) /\
      (forall t, database st = Some t ->
         exists t',
           database st' = Some t' /\ schema t' = schema t /\ records t' = records t /\
           (sequence t <= sequence t')%Z)
  end.
Proof.
  rewrite load_stages. unfold load_fails.
  set (st0 := with_log st (log st ++ [(INFO, Msg "Starting loading phase...")])).
  unfold db_step at 1.
  destruct (db_fault env (List.length (db_trace st0))).
  { intros H. injection H as <- <-. subst st0. autorewrite with state.
    split; [reflexivity|]. split; [reflexivity|]. split; [eexists; reflexivity|].
    split; [exists [Connect]; split; [reflexivity|cbn; lia]|].
    split; [unfold committed; autorewrite with state; now intros ->|].
    intros t Ht. exists t. repeat split; [assumption|lia]. }
  set (st1 := with_db st0 (db_trace st0 ++ [Connect]) (database st0)).
  destruct (create_table env st1) as [[v|e] st2] eqn:Hct;
    apply create_table_outcome in Hct.
  2:{ destruct Hct as (_ & Hdb & _ & _ & Hrq & Hck & ops & Hops & Hclose & Hconn).
      intros H. injection H as <- <-. autorewrite with state.
      subst st1 st0. autorewrite with state in *.
      split; [exact Hrq|]. split; [exact Hck|]. split; [eexists; reflexivity|].
      split.
      { exists (Connect :: Connect :: ops). autorewrite with state.
        rewrite Hops, <- app_assoc.
        split; [reflexivity|].
        change (Connect :: Connect :: ops) with ([Connect; Connect] ++ ops).
        rewrite !count_ops_app, Hclose, Hconn. cbn. lia. }
      split; [unfold committed; autorewrite with state; rewrite Hdb; now intros ->|].
      intros t Ht. exists t. rewrite Hdb. repeat split; [assumption|lia]. }
  destruct Hct as [-> ->].
  assert (Hdest : destination st1 = destination st) by reflexivity.
  assert (Hdb2 : database (table_ready st1) = Some (destination st)) by reflexivity.
  unfold execute_values.
  destruct (execute_pages fresh_connection (columns df) _ env (table_ready st1))
    as [[conn|e] st3] eqn:Hex;
    destruct (execute_pages_run _ _ _ _ _ _ _ _ Hdb2 Hex)
      as [(Hl3 & Hq3 & Hc3 & (ops3 & Ho3 & He3) & t3 & Hdb3 & Hs3 & Hr3 & Hle3 & Hres3) Htr3];
    rewrite ?concat_paginate in *; cbn [app] in *;
    destruct (count_ops_execute _ He3) as [Hclose3 Hconn3].
  2:{ intros H. injection H as <- <-. autorewrite with state.
      split; [now rewrite Hq3|]. split; [now rewrite Hc3|]. split; [eexists; reflexivity|].
      split.
      { exists ([Connect; Connect; Execute create_table_query; Commit; Close] ++ ops3).
        autorewrite with state.
        rewrite Ho3. unfold table_ready. cbn [db_trace]. subst st1 st0.
        autorewrite with state. rewrite <- !app_assoc. split; [reflexivity|].
        rewrite !count_ops_app, Hclose3, Hconn3. cbn. lia. }
      split.
      { unfold committed. autorewrite with state. rewrite Hdb3, Hr3.
        unfold destination. now intros ->. }
      intros t Ht. exists t3. rewrite Hdb3, Hs3, Hr3. unfold destination. rewrite Ht.
      repeat split. unfold destination in Hle3. now rewrite Ht in Hle3. }
  destruct Hres3 as (Hp3 & Hf3 & Hrows3 & Hseq3).
  unfold conn_commit, bind, db_step.
  destruct (db_fault env (List.length (db_trace st3))).
  { intros H. injection H as <- <-. autorewrite with state.
    split; [now rewrite Hq3|]. split; [now rewrite Hc3|]. split; [eexists; reflexivity|].
    split.
    { exists ([Connect; Connect; Execute create_table_query; Commit; Close]
              ++ ops3 ++ [Commit]).
      autorewrite with state.
      rewrite Ho3. unfold table_ready. cbn [db_trace]. subst st1 st0.
      autorewrite with state. rewrite <- !app_assoc. split; [reflexivity|].
      rewrite !count_ops_app, Hclose3, Hconn3. cbn. lia. }
    split.
    { unfold committed. autorewrite with state. rewrite Hdb3, Hr3.
      unfold destination. now intros ->. }
    intros t Ht. exists t3. rewrite Hdb3, Hs3, Hr3. unfold destination. rewrite Ht.
    repeat split. unfold destination in Hle3. now rewrite Ht in Hle3. }
  intros H. injection H as <- <-. autorewrite with state.
  split; [now rewrite Hq3|]. split; [now rewrite Hc3|]. split; [reflexivity|].
  split; [|exact Hf3].
  apply State_ext; unfold loaded; autorewrite with state;
    cbn [log requests_sent clock_reads db_trace database].
  - rewrite Hl3. unfold table_ready. cbn [log]. subst st1 st0. autorewrite with state.
    rewrite <- !app_assoc. reflexivity.
  - rewrite Hq3. reflexivity.
  - rewrite Hc3. reflexivity.
  - rewrite Htr3. unfold table_ready, insert_ops. cbn [db_trace]. subst st1 st0.
    autorewrite with state. rewrite <- !app_assoc. reflexivity.
  - rewrite Hdb3. cbv beta iota. rewrite Hs3, Hr3, Hrows3, Hseq3. reflexivity.
Qed.

(** A failed [load] has committed nothing and has logged its exception. *)
Lemma load_raises (df : DataFrame) (env : Env) (st : State) (e : exn) (st' : State) :
  load df env st = (Raise e, st') ->
  committed st' = committed st /\
  In (ERROR, MsgExn "Error loading data: " e) (log st').
Proof.
  intros H. apply load_outcome in H.
  destruct H as (_ & _ & (l & Hl) & _ & Hnone & Hsome). split.
  - unfold committed at 2. destruct (database st) as [t|] eqn:Hdb.
    + destruct (Hsome t eq_refl) as (t' & Hdb' & _ & Hr & _).
      unfold committed. now rewrite Hdb'.
    + now apply Hnone.
  - rewrite Hl. apply in_or_app. right. simpl. auto.
Qed.

(** C9 (amended): [load] returns no value (None).  When it succeeds on a
    batch of N records, exactly N rows, one per record, have been added to
    the committed rows of the table and the count N is logged; when it
    fails, the exception is logged and raised again and the committed rows
    are what they were before the call. *)
Theorem load_all_or_nothing (df : DataFrame) (env : Env) (st : State)
  (r : result pyval) (st' : State) :
  load df env st = (r, st') ->
  match r with
  | Return v =>
      v = PNone /\
      committed st'
      = committed st
        ++ stored_rows env (schema (destination st)) (columns df)
             (sequence (destination st)) (itertuples df) /\
      List.length (committed st') = List.length (committed st) + len df /\
      In (INFO, MsgLen "Successfully loaded " (len df)
                       " weather records into PostgreSQL") (log st')
  | Raise e =>
      committed st' = committed st /\
      In (ERROR, MsgExn "Error loading data: " e) (log st')
  end.
Proof.
  intros H. destruct r as [v|e]; [|now apply (load_raises df env)].
  apply load_outcome in H. destruct H as (_ & _ & H).
  - destruct H as (-> & -> & _). split; [reflexivity|].
    assert (Hc : committed (loaded env df st)
                 = committed st
                   ++ stored_rows env (schema (destination st)) (columns df)
                        (sequence (destination st)) (itertuples df)).
    { rewrite (committed_destination st). reflexivity. }
    split; [exact Hc|]. split.
    + rewrite Hc, length_app, stored_rows_length. reflexivity.
    + unfold loaded. cbn [log]. apply in_or_app. right. simpl. auto.
Qed.

(** The run of [load] on the sample frame, in the sample world. *)
Lemma sample_load_run :
  load sample_enriched sample_env initial_state
  = (Return PNone, loaded sample_env sample_enriched initial_state).
Proof. vm_compute. reflexivity. Qed.

Lemma load_all_or_nothing_witness :
  load sample_enriched sample_env initial_state
  = (Return PNone, loaded sample_env sample_enriched initial_state) /\
  List.length (committed (loaded sample_env sample_enriched initial_state)) = 1.
Proof.
  split; [exact sample_load_run|].
  assert (H := load_all_or_nothing sample_enriched sample_env initial_state
                 (Return PNone) (loaded sample_env sample_enriched initial_state)
                 sample_load_run).
  cbv beta iota in H. destruct H as (_ & _ & Hlen & _). exact Hlen.
Defined.

(** C9 as stated fails: a successful [load] of one record returns None,
    not the count 1. *)
Lemma load_returns_None_not_the_count :
  load sample_enriched sample_env initial_state
  = (Return PNone, loaded sample_env sample_enriched initial_state) /\
  List.length (committed (loaded sample_env sample_enriched initial_state)) = 1 /\
  Return PNone <> Return (PInt 1).
Proof.
  split; [exact sample_load_run|].
  split; [vm_compute; reflexivity|discriminate].
Qed.

(** *** Where the values go *)

Lemma nth_error_stored_rows (env : Env) (sch : list (string * sqltype)) (cs : list string)
  (ts : list (list pyval)) :
  forall id i,
    nth_error (stored_rows env sch cs id ts) i
    = option_map (stored_row env sch cs (id + Z.of_nat i)) (nth_error ts i).
Proof.
  induction ts as [|t ts IH]; intros id i.
  - destruct i; reflexivity.
  - destruct i as [|i]; cbn [stored_rows nth_error option_map].
    + now rewrite Z.add_0_r.
    + rewrite IH. now replace (id + 1 + Z.of_nat i)%Z with (id + Z.of_nat (S i))%Z by lia.
Qed.

Lemma mem_cons (c c' : string) (seen : list string) :
  mem c (c' :: seen) = false -> String.eqb c' c = false /\ mem c seen = false.
Proof.
  unfold mem. cbn [index_of]. destruct (String.eqb c' c); [discriminate|].
  destruct (index_of c seen); [discriminate|]. now split.
Qed.

(** The names the server takes are names of columns, each at the one
    place where it stands in the list. *)
Lemma check_targets_places (sch : list (string * sqltype)) (names : list string) :
  forall seen,
    check_targets sch seen names = Return tt ->
    forall k c,
      nth_error names k = Some c ->
      index_of c names = Some k /\ mem c seen = false /\
      exists ty, column_type sch c = Some ty.
Proof.
  induction names as [|c0 names IH]; intros seen H k c Hk; [destruct k; discriminate|].
  cbn [check_targets] in H.
  destruct (column_type sch c0) as [ty0|] eqn:Hty; [|discriminate].
  destruct (mem c0 seen) eqn:Hseen; [discriminate|].
  destruct k as [|k].
  - injection Hk as <-. cbn [index_of]. rewrite String.eqb_refl.
    split; [reflexivity|]. split; [assumption|]. now exists ty0.
  - destruct (IH _ H k c Hk) as (Hidx & Hmem & Hcol).
    apply mem_cons in Hmem. destruct Hmem as [Hne Hmem].
    cbn [index_of]. rewrite Hne, Hidx. now repeat split.
Qed.

Lemma index_of_map_inv (f : string -> string) (cs : list string) :
  forall k c,
    nth_error cs k = Some c ->
    index_of (f c) (map f cs) = Some k ->
    index_of c cs = Some k.
Proof.
  induction cs as [|c0 cs IH]; intros k c Hk Hidx; [destruct k; discriminate|].
  cbn [map index_of] in *. destruct k as [|k].
  - injection Hk as <-. now rewrite String.eqb_refl.
  - destruct (String.eqb_spec (f c0) (f c)) as [E|Hne]; [discriminate|].
    destruct (String.eqb_spec c0 c) as [->|_]; [contradiction|].
    destruct (index_of (f c) (map f cs)) as [j|] eqn:Hj; [|discriminate].
    injection Hidx as ->. now rewrite (IH k c Hk Hj).
Qed.

Lemma dict_get_combine_index (names : list string) (c : string) :
  forall (t : list pyval) k x,
    index_of c names = Some k ->
    nth_error t k = Some x ->
    dict_get (combine names t) c = Some x.
Proof.
  induction names as [|c0 names IH]; intros t k x Hidx Hx; [discriminate|].
  destruct t as [|v t]; [destruct k; discriminate|].
  cbn [combine dict_get index_of] in *.
  destruct (String.eqb c0 c).
  - injection Hidx as <-. now injection Hx as <-.
  - destruct (index_of c names) as [j|] eqn:Hj; [|discriminate].
    injection Hidx as <-. now apply (IH t j x).
Qed.

Lemma on_columns_nth {A} (sch : list (string * sqltype)) (f : sqltype -> pyval -> result A)
  (names : list string) :
  forall (t : list pyval) ws k c x ty,
    on_columns sch f names t = Return ws ->
    nth_error names k = Some c ->
    nth_error t k = Some x ->
    column_type sch c = Some ty ->
    exists w, f ty x = Return w.
Proof.
  unfold on_columns.
  induction names as [|c0 names IH]; intros t ws k c x ty H Hk Hx Hty;
    [destruct k; discriminate|].
  destruct t as [|v t]; [destruct k; discriminate|].
  cbn [combine rmap fst snd] in H.
  destruct k as [|k].
  - injection Hk as ->. injection Hx as ->. rewrite Hty in H.
    destruct (f ty x) as [w|]; [now exists w|discriminate].
  - destruct (column_type sch c0); [|discriminate].
    destruct (f s v); [|discriminate]. cbn [rbind] in H.
    destruct (rmap _ (combine names t)) as [ws'|] eqn:E; [|discriminate].
    now apply (IH t ws' k c x ty).
Qed.

Lemma column_type_place (sch : list (string * sqltype)) (c : string) (ty : sqltype) :
  column_type sch c = Some ty ->
  exists j, index_of c (map fst sch) = Some j /\ nth_error sch j = Some (c, ty).
Proof.
  induction sch as [|[c0 ty0] sch IH]; intros H; [discriminate|].
  cbn [column_type map fst index_of] in *.
  destruct (String.eqb_spec c0 c) as [->|Hne].
  - injection H as <-. now exists 0.
  - destruct (IH H) as (j & Hj & Hn). exists (S j). rewrite Hj. now split.
Qed.

(** The cell of a stored row under a named column is the value the tuple
    has under that name, converted. *)
Lemma stored_cell (env : Env) (sch : list (string * sqltype)) (cs : list string)
  (t : list pyval) (id : Z) (k : nat) (c : string) (x : pyval) :
  accepted env sch cs t ->
  nth_error cs k = Some c ->
  nth_error t k = Some x ->
  index_of c cs = Some k /\
  exists ty w j,
    column_type sch (fold_case c) = Some ty /\
    assign env ty x = Return w /\
    index_of (fold_case c) (map fst sch) = Some j /\
    nth_error (stored_row env sch cs id t) j = Some w.
Proof.
  intros (Hlen & Hnames & Hcheck & ws & Hassign) Hk Hx.
  assert (Hk' : nth_error (map fold_case cs) k = Some (fold_case c))
    by (now rewrite nth_error_map, Hk).
  destruct (check_targets_places _ _ _ Hcheck k _ Hk') as (Hidx & _ & ty & Hty).
  split; [now apply (index_of_map_inv fold_case)|].
  destruct (on_columns_nth _ _ _ _ _ _ _ _ _ Hassign Hk' Hx Hty) as [w Hw].
  destruct (column_type_place _ _ _ Hty) as (j & Hj & Hn).
  exists ty, w, j. split; [exact Hty|]. split; [exact Hw|]. split; [exact Hj|].
  unfold stored_row. rewrite nth_error_map, Hn. cbn [option_map fst snd].
  rewrite (dict_get_combine_index _ _ _ _ _ Hidx Hx). unfold assigned. now rewrite Hw.
Qed.

Lemma remove_label_Permutation (c : string) (l : list string) :
  forall l', remove_label c l = Some l' -> Permutation l (c :: l').
Proof.
  induction l as [|c' l IH]; intros l' H; simpl in H; [discriminate|].
  destruct (String.eqb_spec c' c) as [->|Hne].
  - injection H as <-. apply Permutation_refl.
  - destruct (remove_label c l) as [m|]; [|discriminate].
    injection H as <-. rewrite (IH m eq_refl). apply perm_swap.
Qed.

Lemma same_labels_Permutation (l1 : list string) :
  forall l2, same_labels l1 l2 = true -> Permutation l1 l2.
Proof.
  induction l1 as [|c l1 IH]; intros l2 H; simpl in H.
  - destruct l2; [apply perm_nil|discriminate].
  - destruct (remove_label c l2) as [l2'|] eqn:Hr; [|discriminate].
    rewrite (remove_label_Permutation c l2 l2' Hr).
    apply perm_skip. now apply IH.
Qed.

Lemma frame_columns_permute_schema :
  Permutation (observation_columns ++ derived_columns) schema_columns.
Proof. apply same_labels_Permutation. reflexivity. Qed.

Lemma frame_columns_not_schema_order :
  observation_columns ++ derived_columns <> schema_columns.
Proof. intros H. vm_compute in H. discriminate H. Qed.

(** C10 (amended): the INSERT names its columns, in the column order of
    the frame, which is also the order of the values in each tuple; the
    tuples go in pages of 100, one INSERT for each page.  For the frame
    [transform] returns, that list of columns is a permutation of the
    columns of the table that are not the identity, and not their order in
    CREATE TABLE.  No check of the order is made: when the load succeeds,
    every value of every row is stored in the column that bears its label
    (read without regard to case), converted to the type of that
    column. *)
Theorem load_stores_by_name (df : DataFrame) (env : Env) (st : State) (v : pyval)
  (st' : State) :
  load df env st = (Return v, st') ->
  (columns df = observation_columns ++ derived_columns ->
   Permutation (columns df) schema_columns /\ columns df <> schema_columns) /\
  db_trace st'
  = db_trace st
    ++ [Connect; Connect; Execute create_table_query; Commit; Close]
    ++ map (fun page => Execute (InsertInto (columns df) page))
           (_paginate 100 (rows df) [] 0)
    ++ [Commit; Close] /\
  List.concat (_paginate 100 (rows df) [] 0) = rows df /\
  exists t',
    database st' = Some t' /\
    schema t' = schema (destination st) /\
    forall i k c,
      i < len df ->
      nth_error (columns df) k = Some c ->
      exists x ty w,
        cell df i c = Some x /\
        column_type (schema t') (fold_case c) = Some ty /\
        assign env ty x = Return w /\
        table_cell t' (List.length (committed st) + i) (fold_case c) = Some w.
Proof.
  intros H. apply load_outcome in H. destruct H as (_ & _ & _ & -> & Hacc).
  split.
  { intros ->. split; [exact frame_columns_permute_schema
                      |exact frame_columns_not_schema_order]. }
  split; [reflexivity|]. split; [apply concat_paginate|].
  eexists. split; [reflexivity|]. cbn [schema]. split; [reflexivity|].
  intros i k c Hi Hk.
  destruct (nth_error (rows df) i) as [t|] eqn:Ht;
    [|apply nth_error_None in Ht; unfold len in Hi; lia].
  assert (Hat : accepted env (schema (destination st)) (columns df) t).
  { rewrite Forall_forall in Hacc. apply Hacc. eapply nth_error_In; eauto. }
  assert (Hlen : List.length t = List.length (columns df)) by apply Hat.
  destruct (nth_error t k) as [x|] eqn:Hx.
  2:{ apply nth_error_None in Hx.
      assert (k < List.length (columns df)) by (apply nth_error_Some; congruence). lia. }
  destruct (stored_cell env _ _ _ (sequence (destination st) + Z.of_nat i) k c x Hat Hk Hx)
    as (Hidx & ty & w & j & Hty & Hw & Hj & Hcell).
  exists x, ty, w.
  split; [unfold cell; now rewrite Hidx, Ht|].
  split; [exact Hty|]. split; [exact Hw|].
  unfold table_cell. cbn [schema records]. rewrite Hj.
  rewrite committed_destination, nth_error_app2 by lia.
  replace (List.length (records (destination st)) + i
           - List.length (records (destination st))) with i by lia.
  rewrite nth_error_stored_rows. unfold itertuples. rewrite Ht. exact Hcell.
Qed.

Lemma rounded_load_run :
  load rounded_frame sample_env initial_state
  = (Return PNone, loaded sample_env rounded_frame initial_state).
Proof. vm_compute. reflexivity. Qed.

Lemma load_stores_by_name_witness :
  exists st' t',
    load rounded_frame sample_env initial_state = (Return PNone, st') /\
    database st' = Some t' /\
    cell rounded_frame 0 "temperature_f" = Some (PFloat 72.5) /\
    table_cell t' 0 "temperature_f" = Some (PFloat 72.5) /\
    cell rounded_frame 0 "humidity" = Some (PFloat 60.5) /\
    table_cell t' 0 "humidity" = Some (PInt 61).
Proof.
  destruct (load_stores_by_name rounded_frame sample_env initial_state PNone _
              rounded_load_run)
    as (_ & _ & _ & t' & Hdb & Hsch & Hcells).
  exists (loaded sample_env rounded_frame initial_state), t'.
  split; [exact rounded_load_run|]. split; [exact Hdb|].
  destruct (Hcells 0 14 "temperature_f") as (x & ty & w & Hx & Hty & Hw & Hcell);
    [cbn; lia|reflexivity|].
  destruct (Hcells 0 4 "humidity") as (x' & ty' & w' & Hx' & Hty' & Hw' & Hcell');
    [cbn; lia|reflexivity|].
  rewrite Hsch in Hty, Hty'.
  vm_compute in Hx, Hx', Hty, Hty'.
  injection Hx as <-. injection Hx' as <-. injection Hty as <-. injection Hty' as <-.
  vm_compute in Hw, Hw'. injection Hw as <-. injection Hw' as <-.
  repeat split; assumption.
Defined.

(** C10 as stated fails: in a run of the pipeline the INSERT lists the
    columns in an order that is not the order of the schema, and the run
    succeeds with its five rows committed. *)
Lemma insert_order_is_not_schema_order :
  exists cols tuples st',
    run_etl_pipeline sample_env initial_state = (Return PNone, st') /\
    In (Execute (InsertInto cols tuples)) (db_trace st') /\
    cols <> schema_columns /\
    List.length (committed st') = List.length CITIES.
Proof.
  eexists (observation_columns ++ derived_columns), _, _.
  split; [vm_compute; reflexivity|].
  split; [cbn [db_trace]; do 5 right; left; reflexivity|].
  split; [exact frame_columns_not_schema_order|reflexivity].
Qed.


(** ** run_etl_pipeline *)

(** C8: when the credential is absent (unset or empty), [extract] raises
    ValueError "Missing API key", its configuration error, before any
    request is sent; [run_etl_pipeline] raises the same exception, and in
    its run no request is sent, the clock is not read, no database operation
    takes place and [load] does not start: the log holds the four lines of
    [missing_key_log] and nothing else. *)
Theorem missing_credential_aborts (env : Env) (st : State) :
  not_key (API_KEY env) = true ->
  (exists st1,
     extract env st = (Raise (ValueError "Missing API key"), st1) /\
     requests_sent st1 = requests_sent st) /\
  (exists st2,
     run_etl_pipeline env st = (Raise (ValueError "Missing API key"), st2) /\
     requests_sent st2 = requests_sent st /\
     clock_reads st2 = clock_reads st /\
     db_trace st2 = db_trace st /\
     database st2 = database st /\
     log st2 = log st ++ missing_key_log).
Proof.
  intros Hkey. split.
  - unfold extract, extract_cities, bind, logger_info, os_getenv_API_KEY.
    rewrite Hkey. eexists. split; reflexivity.
  - unfold run_etl_pipeline, try_except, bind at 1, logger_info at 1, bind at 1.
    unfold extract, extract_cities, bind, logger_info, os_getenv_API_KEY.
    rewrite Hkey. eexists. split; [reflexivity|].
    repeat split. cbn. now rewrite <- !app_assoc.
Qed.

Lemma missing_credential_aborts_witness :
  not_key (API_KEY no_key_env) = true /\
  exists st2,
    run_etl_pipeline no_key_env initial_state
    = (Raise (ValueError "Missing API key"), st2) /\
    requests_sent st2 = [] /\ db_trace st2 = [] /\ database st2 = None.
Proof.
  split; [reflexivity|].
  destruct (missing_credential_aborts no_key_env initial_state eq_refl)
    as [_ (st2 & Hrun & Hreq & _ & Hdb & Hdata & _)].
  exists st2. repeat split; assumption.
Defined.


(** * Further properties *)

(** ** transform on any frame *)

Ltac split_lifted_in H :=
  match type of H with
  | context [match ?x with Return _ => _ | Raise _ => _ end] =>
      lazymatch x with
      | match _ with _ => _ end => fail
      | _ => destruct x
      end
  end.

(** Whatever the frame, [transform] ends in one of two states. *)
Lemma transform_outcome (df : DataFrame) (env : Env) (st : State)
  (r : result DataFrame) (st' : State) :
  transform df env st = (r, st') ->
  st' = match r with
        | Return _ => after_transform st
        | Raise e => after_failed_transform st e
        end.
Proof.
  unfold transform, bind, try_except, lift, logger_info, logger_error, datetime_now,
    ret, raise, Exception.
  intros H. cbn [fst snd] in H.
  repeat (split_lifted_in H; cbn [fst snd] in H).
  all: injection H as <- <-.
  all: unfold after_transform, after_failed_transform, with_log, with_clock_reads; cbn;
    rewrite <- app_assoc; reflexivity.
Qed.

(** X1: whatever frame it is given and whether it succeeds or fails,
    [transform] reads the clock exactly once, sends no request and does
    nothing to the database; it logs its start and then either its
    completion or the exception it raises again. *)
Theorem transform_reads_clock_once (df : DataFrame) (env : Env) (st : State)
  (r : result DataFrame) (st' : State) :
  transform df env st = (r, st') ->
  clock_reads st' = S (clock_reads st) /\
  requests_sent st' = requests_sent st /\
  db_trace st' = db_trace st /\
  database st' = database st /\
  match r with
  | Return _ =>
      log st' = log st ++ [(INFO, Msg "Starting transformation phase...");
                           (INFO, Msg "Data transformation completed")]
  | Raise e =>
      log st' = log st ++ [(INFO, Msg "Starting transformation phase...");
                           (ERROR, MsgExn "Error transforming data: " e)]
  end.
Proof.
  intros H. apply transform_outcome in H. subst st'.
  destruct r; repeat split; reflexivity.
Qed.

Lemma transform_reads_clock_once_witness :
  exists df st',
    transform (observations_frame [sample_observation]) sample_env initial_state
    = (Return df, st') /\
    clock_reads st' = 1 /\ db_trace st' = [].
Proof.
  destruct (transform_reads_clock_once _ _ _ _ _
              (transform_observations sample_env initial_state [sample_observation]))
    as (Hclock & _ & Htrace & _).
  eexists _, _. split; [apply transform_observations|]. split; assumption.
Defined.

Lemma index_of_app_other (c c' : string) (cs : list string) :
  index_of c cs = None -> String.eqb c' c = false -> index_of c (cs ++ [c']) = None.
Proof.
  intros Hc Hne. induction cs as [|x cs IH]; simpl in *.
  - now rewrite Hne.
  - destruct (String.eqb x c); [discriminate|].
    destruct (index_of c cs); [discriminate|]. now rewrite IH.
Qed.

(** X2: on a frame that has rows but no 'timestamp' column, [transform]
    raises KeyError('timestamp'), logged as "Error transforming data" and
    raised again; no frame is returned. *)
Theorem transform_missing_timestamp (df : DataFrame) (env : Env) (st : State) :
  rows df <> [] ->
  index_of "timestamp" (columns df) = None ->
  transform df env st
  = (Raise (KeyError (PStr "timestamp")),
     after_failed_transform st (KeyError (PStr "timestamp"))).
Proof.
  intros Hrows Hcol.
  destruct (transform df env st) as [r st'] eqn:Hrun.
  assert (Hst := transform_outcome _ _ _ _ _ Hrun).
  assert (Hr : r = Raise (KeyError (PStr "timestamp"))).
  { revert Hrun.
    unfold transform, bind at 1, logger_info at 1, try_except, bind at 1, datetime_now,
      bind at 1, lift at 1, set_scalar, set_column, len.
    rewrite repeat_length, Nat.eqb_refl. cbn [negb].
    destruct (rows df) as [|row rest] eqn:Erows; [contradiction|].
    assert (Hfail : forall cs r0 rs, index_of "timestamp" cs = None ->
              apply_rows is_daytime {| columns := cs; rows := r0 :: rs |}
              = Raise (KeyError (PStr "timestamp"))).
    { intros cs r0 rs' H. unfold apply_rows, is_daytime, row_get. cbn [columns rows rmap].
      rewrite H. reflexivity. }
    destruct (index_of "etl_timestamp" (columns df)) as [k|]; cbn [Datatypes.length repeat zip_with];
      unfold bind at 1, lift at 1.
    - rewrite Hfail by assumption. unfold Exception, bind, logger_error, raise.
      intros H. now injection H as <- _.
    - rewrite Hfail by (apply index_of_app_other; [assumption|reflexivity]).
      unfold Exception, bind, logger_error, raise.
      intros H. now injection H as <- _. }
  subst r. now rewrite Hst.
Qed.

Lemma transform_missing_timestamp_witness :
  transform untimed_frame sample_env initial_state
  = (Raise (KeyError (PStr "timestamp")),
     after_failed_transform initial_state (KeyError (PStr "timestamp"))).
Proof.
  apply transform_missing_timestamp.
  - discriminate.
  - reflexivity.
Defined.

(** ** transform on its own output *)

Section ReplacedColumns.

Context {A : Type}.
Variable cs : list string.
Variable f : A -> list pyval.

Lemma set_column_map_replace (c : string) (k : nat) (g : A -> pyval) (l : list A) :
  index_of c cs = Some k ->
  set_column {| columns := cs; rows := map f l |} c (map g l)
  = Return {| columns := cs; rows := map (fun a => replace_nth k (f a) (g a)) l |}.
Proof.
  intros Hc. unfold set_column, len. simpl.
  rewrite !length_map, Nat.eqb_refl, Hc. simpl.
  now rewrite zip_with_map.
Qed.

Lemma set_scalar_map_replace (c : string) (k : nat) (v : pyval) (l : list A) :
  index_of c cs = Some k ->
  set_scalar {| columns := cs; rows := map f l |} c v
  = Return {| columns := cs; rows := map (fun a => replace_nth k (f a) v) l |}.
Proof.
  intros Hc. unfold set_scalar, len. simpl.
  rewrite length_map, repeat_map. now apply set_column_map_replace.
Qed.

End ReplacedColumns.

Ltac old_column k :=
  rewrite (set_column_map_replace _ _ _ k) by reflexivity.

(** Run on its own output, [transform] overwrites the derived columns where
    they are and stamps the frame with the new reading of the clock. *)
Lemma transform_enriched (env : Env) (st : State) (now : datetime)
  (obs : list Observation) :
  transform (enriched_frame now obs) env st
  = (Return (enriched_frame (wall_clock env (clock_reads st)) obs), after_transform st).
Proof.
  unfold transform, enriched_frame, observation_columns, derived_columns.
  unfold bind, try_except, lift, logger_info, datetime_now, ret. cbn [fst snd app].
  rewrite (set_scalar_map_replace _ _ _ 12%nat) by reflexivity.
  erewrite apply_rows_map by (intros a; reflexivity).
  old_column 13%nat.
  column 2%nat. fahrenheit_of_column. old_column 14%nat.
  column 3%nat. fahrenheit_of_column. old_column 15%nat.
  column 2%nat. erewrite series_apply_floats by (intros ?; reflexivity). cbn [rbind].
  old_column 16%nat.
  rewrite (set_scalar_map_replace _ _ _ 17%nat) by reflexivity.
  column 2%nat. erewrite series_gt_floats by (intros ?; reflexivity). cbn [rbind].
  rewrite (loc_set_map _ _ _ 17%nat) by reflexivity.
  column 2%nat.
  erewrite series_lt_floats
    by (intros a; destruct (F64.gt (temperature a) (float_of_int 50)); reflexivity).
  cbn [rbind].
  rewrite (loc_set_map _ _ _ 17%nat) by reflexivity.
  destruct float_of_int_constants as (-> & -> & -> & -> & ->).
  unfold after_transform, with_log, with_clock_reads. cbn.
  rewrite <- app_assoc. cbn [app].
  f_equal. f_equal. f_equal.
  apply map_ext. intros a. unfold enriched_row, data_quality, fahrenheit.
  unfold F64.lt, F64.gt.
  destruct (PrimFloat.ltb (temperature a) (-50)), (PrimFloat.ltb 50 (temperature a));
    reflexivity.
Qed.

(** X3: run on its own output, [transform] succeeds and adds no column:
    the derived columns are overwritten where they stand, with the values
    recomputed from the source fields, and only the etl timestamp changes,
    to the second reading of the clock. *)
Theorem transform_twice (env : Env) (st : State) (obs : list Observation) :
  exists df1 st1 df2 st2,
    transform (observations_frame obs) env st = (Return df1, st1) /\
    transform df1 env st1 = (Return df2, st2) /\
    columns df2 = columns df1 /\
    len df2 = len df1 /\
    df2 = enriched_frame (wall_clock env (S (clock_reads st))) obs /\
    forall i c, c <> "etl_timestamp" -> cell df2 i c = cell df1 i c.
Proof.
  exists (enriched_frame (wall_clock env (clock_reads st)) obs), (after_transform st),
    (enriched_frame (wall_clock env (S (clock_reads st))) obs),
    (after_transform (after_transform st)).
  split; [apply transform_observations|].
  split; [apply transform_enriched|].
  split; [reflexivity|].
  split; [unfold len, enriched_frame; cbn [rows]; now rewrite !length_map|].
  split; [reflexivity|].
  intros i c Hc. unfold cell, enriched_frame. cbn [columns rows].
  destruct (index_of c (observation_columns ++ derived_columns)) as [k|] eqn:Hk;
    [|reflexivity].
  rewrite !nth_error_map. destruct (nth_error obs i) as [o|]; [|reflexivity].
  cbn [option_map].
  assert (Hk12 : k <> 12).
  { intros ->. apply index_of_nth in Hk. vm_compute in Hk. injection Hk as <-.
    now apply Hc. }
  unfold enriched_row, observation_row. cbn [app].
  do 12 (destruct k as [|k]; [reflexivity|]).
  destruct k as [|k]; [contradiction|].
  do 6 (destruct k as [|k]; [reflexivity|]). destruct k; reflexivity.
Qed.

(** ** Temperatures at the edges *)

Lemma SFcompare_refl (s : spec_float) :
  s <> S754_nan -> SFcompare s s = Some Eq.
Proof.
  destruct s as [b|b| |b m e]; intros H; simpl.
  - reflexivity.
  - now destruct b.
  - contradiction.
  - rewrite Z.compare_refl, Pos.compare_cont_spec, Pos.compare_refl. now destruct b.
Qed.

Lemma is_NaN_spec (x : float) : is_NaN x = true -> Prim2SF x = S754_nan.
Proof.
  unfold is_NaN. rewrite eqb_spec. unfold SFeqb. intros H.
  destruct (Prim2SF x) as [b|b| |b m e] eqn:E; try reflexivity;
    rewrite SFcompare_refl in H by discriminate; discriminate H.
Qed.

Lemma NaN_compares_false (x c : float) :
  is_NaN x = true -> F64.lt x c = false /\ F64.lt c x = false.
Proof.
  intros H. apply is_NaN_spec in H. unfold F64.lt. rewrite !ltb_spec, H.
  split; [reflexivity|]. unfold SFltb. now destruct (Prim2SF c).
Qed.

Lemma NaN_fahrenheit (x : float) : is_NaN x = true -> is_NaN (fahrenheit x) = true.
Proof.
  intros H. apply is_NaN_spec in H.
  assert (E : Prim2SF (fahrenheit x) = S754_nan).
  { unfold fahrenheit. rewrite add_spec, div_spec, mul_spec, H. reflexivity. }
  unfold is_NaN. rewrite eqb_spec, E. reflexivity.
Qed.

Lemma SFltb_SFleb (a b : spec_float) : SFltb a b = true -> SFleb a b = true.
Proof.
  unfold SFltb, SFleb. now destruct (SFcompare a b) as [[]|].
Qed.

Lemma SFltb_leb_trans (t a b : spec_float) :
  SFltb t a = true -> SFleb a b = true -> SFltb t b = true.
Proof.
  unfold SFleb, SFltb.
  destruct a as [sa|sa| |sa ma ea], b as [sb|sb| |sb mb eb], t as [st|st| |st mt et];
    simpl; try discriminate; try reflexivity;
    repeat match goal with s : bool |- _ => destruct s end; simpl;
    try discriminate; try reflexivity.
  all: rewrite ?Pos.compare_cont_spec; simpl.
  all: destruct (Z.compare_spec et ea), (Z.compare_spec ea eb), (Z.compare_spec et eb);
    simpl; try discriminate; try reflexivity; try lia.
  all: subst.
  all: destruct (Pos.compare_spec mt ma), (Pos.compare_spec ma mb), (Pos.compare_spec mt mb);
    simpl; try discriminate; try reflexivity; try lia.
Qed.

Lemma F64_lt_le_trans (t a b : float) :
  F64.lt t a = true -> F64.le a b = true -> F64.lt t b = true.
Proof.
  unfold F64.lt, F64.le. rewrite !ltb_spec, leb_spec. apply SFltb_leb_trans.
Qed.

Lemma F64_lt_le (a b : float) : F64.lt a b = true -> F64.le a b = true.
Proof.
  unfold F64.lt, F64.le. rewrite ltb_spec, leb_spec. apply SFltb_SFleb.
Qed.

(** X4: a record whose temperature is a NaN falls through every
    comparison: its category is "Hot", its quality flag is "Good", and its
    Fahrenheit temperature is a NaN as well. *)
Theorem transform_nan_temperature (env : Env) (st : State) (obs : list Observation)
  (i : nat) (o : Observation) :
  nth_error obs i = Some o ->
  is_NaN (temperature o) = true ->
  exists df f,
    fst (transform (observations_frame obs) env st) = Return df /\
    cell df i "temp_category" = Some (PStr "Hot") /\
    cell df i "data_quality" = Some (PStr "Good") /\
    cell df i "temperature_f" = Some (PFloat f) /\ is_NaN f = true.
Proof.
  intros Ho Hnan.
  exists (enriched_frame (wall_clock env (clock_reads st)) obs),
    (fahrenheit (temperature o)).
  rewrite transform_observations. split; [reflexivity|].
  rewrite (cell_enriched _ _ _ _ _ 16 Ho), (cell_enriched _ _ _ _ _ 17 Ho),
    (cell_enriched _ _ _ _ _ 14 Ho) by reflexivity.
  cbn [enriched_row observation_row app nth_error].
  unfold temp_category, data_quality, F64.gt.
  change (PrimFloat.ltb 50 (temperature o)) with (F64.lt 50 (temperature o)).
  rewrite !(proj1 (NaN_compares_false _ _ Hnan)), (proj2 (NaN_compares_false _ 50 Hnan)).
  repeat split. now apply NaN_fahrenheit.
Qed.

Lemma transform_nan_temperature_witness :
  exists df,
    fst (transform (observations_frame [nan_observation]) sample_env initial_state)
    = Return df /\
    cell df 0 "temp_category" = Some (PStr "Hot") /\
    cell df 0 "data_quality" = Some (PStr "Good").
Proof.
  destruct (transform_nan_temperature sample_env initial_state [nan_observation] 0
              nan_observation eq_refl eq_refl)
    as (df & f & Hrun & Hcat & Hq & _).
  exists df. repeat split; assumption.
Defined.

Lemma suspicious_is_extreme (t : float) :
  (F64.gt t 50 = true -> temp_category t = "Hot" /\ data_quality t = "Suspicious") /\
  (F64.lt t (-50) = true ->
   temp_category t = "Very Cold" /\ data_quality t = "Suspicious").
Proof.
  split.
  - intros H. assert (Hle : F64.le 50 t = true) by (apply F64_lt_le; exact H).
    unfold temp_category, data_quality. rewrite H.
    rewrite (F64_le_le_not_lt 0 50 t), (F64_le_le_not_lt 10 50 t),
      (F64_le_le_not_lt 20 50 t), (F64_le_le_not_lt 30 50 t),
      (F64_le_le_not_lt (-50) 50 t) by (reflexivity || assumption).
    split; reflexivity.
  - intros H. unfold temp_category, data_quality.
    rewrite H, (F64_lt_le_trans t (-50) 0 H eq_refl). split; reflexivity.
Qed.

(** X5: the two derived classifications agree: a record flagged
    "Suspicious" has the category "Hot" or "Very Cold", and a record whose
    category is "Cold", "Mild" or "Warm" is flagged "Good". *)
Theorem transform_suspicious_is_extreme (env : Env) (st : State)
  (obs : list Observation) (i : nat) (o : Observation) :
  nth_error obs i = Some o ->
  exists df cat flag,
    fst (transform (observations_frame obs) env st) = Return df /\
    cell df i "temp_category" = Some (PStr cat) /\
    cell df i "data_quality" = Some (PStr flag) /\
    (flag = "Suspicious" -> cat = "Hot" \/ cat = "Very Cold") /\
    (cat = "Cold" \/ cat = "Mild" \/ cat = "Warm" -> flag = "Good").
Proof.
  intros Ho.
  exists (enriched_frame (wall_clock env (clock_reads st)) obs),
    (temp_category (temperature o)), (data_quality (temperature o)).
  rewrite transform_observations. split; [reflexivity|].
  rewrite (cell_enriched _ _ _ _ _ 16 Ho), (cell_enriched _ _ _ _ _ 17 Ho) by reflexivity.
  split; [reflexivity|]. split; [reflexivity|].
  destruct (suspicious_is_extreme (temperature o)) as [Hhot Hcold].
  assert (Hs : data_quality (temperature o) = "Suspicious" ->
               temp_category (temperature o) = "Hot"
               \/ temp_category (temperature o) = "Very Cold").
  { intros Hq. destruct (proj1 (proj1 (data_quality_spec _)) Hq) as [H|H].
    - left. now apply Hhot.
    - right. now apply Hcold. }
  split; [exact Hs|].
  intros Hcat.
  destruct (data_quality (temperature o) =? "Suspicious")%string eqn:E.
  - apply String.eqb_eq in E. destruct (Hs E) as [H|H]; rewrite H in Hcat;
      destruct Hcat as [Hc|[Hc|Hc]]; discriminate Hc.
  - unfold data_quality in *.
    destruct (F64.lt (temperature o) (-50)), (F64.gt (temperature o) 50);
      try discriminate E; reflexivity.
Qed.

Lemma transform_suspicious_is_extreme_witness :
  exists df cat flag,
    fst (transform (observations_frame [sample_observation]) sample_env initial_state)
    = Return df /\
    cell df 0 "temp_category" = Some (PStr cat) /\
    cell df 0 "data_quality" = Some (PStr flag) /\ flag = "Good".
Proof.
  destruct (transform_suspicious_is_extreme sample_env initial_state
              [sample_observation] 0 sample_observation eq_refl)
    as (df & cat & flag & Hrun & Hcat & Hflag & _ & Hgood).
  exists df, cat, flag. repeat split; try assumption.
  apply Hgood.
  rewrite transform_observations in Hrun. injection Hrun as <-.
  vm_compute in Hcat. injection Hcat as <-. right; right; reflexivity.
Defined.

(** X6: when the provider gives a sunset that is before the sunrise, no
    timestamp counts as day: the indicator is "Night" whatever the hour. *)
Theorem transform_inverted_sun_is_night (env : Env) (st : State)
  (obs : list Observation) (i : nat) (o : Observation) :
  nth_error obs i = Some o ->
  (sunset o < sunrise o)%Z ->
  exists df,
    fst (transform (observations_frame obs) env st) = Return df /\
    cell df i "day_night" = Some (PStr "Night").
Proof.
  intros Ho Hinv.
  exists (enriched_frame (wall_clock env (clock_reads st)) obs).
  rewrite transform_observations. split; [reflexivity|].
  rewrite (cell_enriched _ _ _ _ _ 13 Ho) by reflexivity.
  cbn [enriched_row observation_row app nth_error].
  do 3 f_equal. apply (proj2 (day_night_spec o)). lia.
Qed.

Lemma transform_inverted_sun_is_night_witness :
  exists df,
    fst (transform (observations_frame [polar_observation]) sample_env initial_state)
    = Return df /\
    cell df 0 "day_night" = Some (PStr "Night").
Proof.
  apply (transform_inverted_sun_is_night sample_env initial_state [polar_observation] 0
           polar_observation eq_refl).
  reflexivity.
Defined.

(** ** Columns of integers *)

Lemma wrap64_in_int64 (n : Z) : in_int64 (wrap64 n) = true.
Proof.
  unfold in_int64, wrap64.
  assert (H := Z.mod_pos_bound (n + 9223372036854775808) 18446744073709551616 eq_refl).
  apply andb_true_intro. split; [apply Z.leb_le|apply Z.leb_le]; lia.
Qed.

Lemma wrap64_small (n : Z) : in_int64 n = true -> wrap64 n = n.
Proof.
  unfold in_int64, wrap64. intros H. apply andb_prop in H. destruct H as [H1 H2].
  apply Z.leb_le in H1, H2. rewrite Z.mod_small; lia.
Qed.

Section IntColumns.

Context {A : Type}.
Variable p : A -> pyval.
Variable g : A -> Z.
Hypothesis p_int : forall a, p a = PInt (g a).

Lemma ints_of_ints (l : list A) :
  Forall (fun a => in_int64 (g a) = true) l -> ints_of (map p l) = Some (map g l).
Proof.
  induction 1 as [|a l' Ha _ IH]; [reflexivity|].
  cbn [map ints_of]. rewrite p_int, Ha, IH. reflexivity.
Qed.

Lemma values_ints (l : list A) :
  Forall (fun a => in_int64 (g a) = true) l ->
  values (map p l) = match l with [] => Object [] | _ :: _ => Int64 (map g l) end.
Proof.
  intros Hall. assert (H := ints_of_ints l Hall). destruct l as [|a l']; [reflexivity|].
  unfold values. rewrite H. cbn [map floats_of]. rewrite p_int. reflexivity.
Qed.

Lemma series_mul_ints (c : Z) (l : list A) :
  Forall (fun a => in_int64 (g a) = true) l ->
  series_mul (map p l) c = Return (map (fun a => PInt (wrap64 (g a * c))) l).
Proof.
  intros Hall. unfold series_mul. rewrite values_ints by assumption.
  destruct l; [reflexivity|]. now rewrite map_map.
Qed.

Lemma series_div_ints (c : Z) (l : list A) :
  Forall (fun a => in_int64 (g a) = true) l ->
  series_div (map p l) c
  = Return (map (fun a => PFloat (float_of_int (g a) / float_of_int c)) l).
Proof.
  intros Hall. unfold series_div. rewrite values_ints by assumption.
  destruct l; [reflexivity|]. now rewrite map_map.
Qed.

Lemma series_gt_ints (c : Z) (l : list A) :
  Forall (fun a => in_int64 (g a) = true) l ->
  series_gt (map p l) c = Return (map (fun a => (c <? g a)%Z) l).
Proof.
  intros Hall. unfold series_gt. rewrite values_ints by assumption.
  destruct l; [reflexivity|]. now rewrite map_map.
Qed.

Lemma series_lt_ints (c : Z) (l : list A) :
  Forall (fun a => in_int64 (g a) = true) l ->
  series_lt (map p l) c = Return (map (fun a => (g a <? c)%Z) l).
Proof.
  intros Hall. unfold series_lt. rewrite values_ints by assumption.
  destruct l; [reflexivity|]. now rewrite map_map.
Qed.

Lemma series_apply_ints (f_float : float -> pyval) (f_int : Z -> pyval) (l : list A) :
  Forall (fun a => in_int64 (g a) = true) l ->
  series_apply f_float f_int (map p l) = Return (map (fun a => f_int (g a)) l).
Proof.
  intros Hall. unfold series_apply. rewrite values_ints by assumption.
  destruct l; [reflexivity|]. now rewrite map_map.
Qed.

End IntColumns.

(** ** transform on whole degrees *)

Lemma transform_whole (env : Env) (st : State) (l : list (Observation * Z)) :
  Forall (fun on => in_int64 (snd on) = true) l ->
  transform (whole_frame l) env st
  = (Return {| columns := observation_columns ++ derived_columns;
               rows := map (whole_enriched_row (wall_clock env (clock_reads st))) l |},
     after_transform st).
Proof.
  intros Hall.
  assert (Hall9 : Forall (fun on : Observation * Z => in_int64 (wrap64 (snd on * 9)) = true) l).
  { apply Forall_forall. intros on _. apply wrap64_in_int64. }
  unfold transform, whole_frame, observation_columns.
  unfold bind, try_except, lift, logger_info, datetime_now, ret. cbn [fst snd].
  rewrite set_scalar_map by reflexivity. cbn [app].
  erewrite apply_rows_map by (intros a; reflexivity).
  new_column.
  column 2%nat.
  erewrite (series_mul_ints _ snd) by first [intros ?; reflexivity | exact Hall].
  cbn [rbind].
  erewrite (series_div_ints _ (fun on => wrap64 (snd on * 9)))
    by first [intros ?; reflexivity | exact Hall9].
  cbn [rbind].
  erewrite series_add_floats by (intros ?; reflexivity). cbn [rbind].
  new_column.
  column 3%nat. fahrenheit_of_column. new_column.
  column 2%nat.
  erewrite (series_apply_ints _ snd) by first [intros ?; reflexivity | exact Hall].
  cbn [rbind]. new_column.
  rewrite set_scalar_map by reflexivity. cbn [app].
  column 2%nat.
  erewrite (series_gt_ints _ snd) by first [intros ?; reflexivity | exact Hall].
  cbn [rbind].
  rewrite (loc_set_map _ _ _ 17%nat) by reflexivity.
  column 2%nat.
  erewrite (series_lt_ints _ snd)
    by first [intros a; destruct (50 <? snd a)%Z; reflexivity | exact Hall].
  cbn [rbind].
  rewrite (loc_set_map _ _ _ 17%nat) by reflexivity.
  destruct float_of_int_constants as (-> & -> & -> & _).
  unfold after_transform, with_log, with_clock_reads. cbn.
  rewrite <- app_assoc. cbn [app].
  f_equal. f_equal. f_equal.
  apply map_ext. intros a. unfold whole_enriched_row, data_quality_int, fahrenheit_int,
    fahrenheit.
  destruct (snd a <? -50)%Z, (50 <? snd a)%Z; reflexivity.
Qed.

Lemma same_float_eq (x y : float) : same_float x y = true -> x = y.
Proof.
  unfold same_float. intros H. apply Prim2SF_inj.
  destruct (Prim2SF x) as [s|s| |s m e], (Prim2SF y) as [s'|s'| |s' m' e'];
    try discriminate H; try reflexivity.
  - apply Bool.eqb_prop in H. now subst.
  - apply Bool.eqb_prop in H. now subst.
  - apply andb_prop in H. destruct H as [H He]. apply andb_prop in H. destruct H as [Hs Hm].
    apply Bool.eqb_prop in Hs. apply Pos.eqb_eq in Hm. apply Z.eqb_eq in He. now subst.
Qed.

Lemma thousand_agrees : forallb whole_agrees thousand = true.
Proof. vm_compute. reflexivity. Qed.

Lemma in_thousand (n : Z) : (-1000 <= n <= 1000)%Z -> In n thousand.
Proof.
  intros H. unfold thousand. apply in_map_iff. exists (Z.to_nat (n + 1000)).
  split; [lia|]. apply in_seq. lia.
Qed.

(** From -1000 to 1000 degrees, a whole temperature gets the fields of the
    float of the same value. *)
Lemma whole_as_float (n : Z) :
  (-1000 <= n <= 1000)%Z ->
  fahrenheit_int n = fahrenheit (float_of_int n) /\
  temp_category_int n = temp_category (float_of_int n) /\
  data_quality_int n = data_quality (float_of_int n).
Proof.
  intros H. assert (Hn := in_thousand n H).
  assert (Ha := thousand_agrees). rewrite forallb_forall in Ha. specialize (Ha n Hn).
  unfold whole_agrees in Ha.
  apply andb_prop in Ha. destruct Ha as [Ha Hq]. apply andb_prop in Ha.
  destruct Ha as [Hf Hc].
  split; [now apply same_float_eq|]. split; now apply String.eqb_eq.
Qed.

(** X17: when every temperature of the batch is a whole number (an int64
    column), [transform] succeeds and computes on integers: the category
    and the quality flag come from exact integer comparisons with the same
    boundaries, the Fahrenheit value is the float of the int64 product
    [n * 9] (which wraps around beyond 64 bits), divided by 5, plus 32.
    From -1000 to 1000 degrees these are the fields of the float [n]; the
    other derived fields are as for any observation. *)
Theorem transform_whole_degrees (env : Env) (st : State) (l : list (Observation * Z)) :
  Forall (fun on => in_int64 (snd on) = true) l ->
  exists df,
    transform (whole_frame l) env st = (Return df, after_transform st) /\
    len df = List.length l /\
    forall i o n,
      nth_error l i = Some (o, n) ->
      cell df i "temperature" = Some (PInt n) /\
      cell df i "temp_category" = Some (PStr (temp_category_int n)) /\
      cell df i "data_quality" = Some (PStr (data_quality_int n)) /\
      cell df i "temperature_f" = Some (PFloat (fahrenheit_int n)) /\
      (in_int64 (n * 9) = true ->
       fahrenheit_int n = (float_of_int (n * 9) / 5 + 32)%float) /\
      ((-1000 <= n <= 1000)%Z ->
       fahrenheit_int n = fahrenheit (float_of_int n) /\
       temp_category_int n = temp_category (float_of_int n) /\
       data_quality_int n = data_quality (float_of_int n)) /\
      cell df i "feels_like_f" = Some (PFloat (fahrenheit (feels_like o))) /\
      cell df i "day_night" = Some (PStr (day_night o)) /\
      cell df i "etl_timestamp" = Some (PDatetime (wall_clock env (clock_reads st))).
Proof.
  intros Hall. eexists. split; [now apply transform_whole|].
  split; [unfold len; cbn [rows]; now rewrite length_map|].
  intros i o n Hi.
  assert (Hrow : forall c, cell {| columns := observation_columns ++ derived_columns;
                                  rows := map (whole_enriched_row
                                                 (wall_clock env (clock_reads st))) l |} i c
                 = match index_of c (observation_columns ++ derived_columns) with
                   | Some k => nth_error (whole_enriched_row
                                            (wall_clock env (clock_reads st)) (o, n)) k
                   | None => None
                   end).
  { intros c. unfold cell. cbn [columns rows].
    rewrite nth_error_map, Hi. reflexivity. }
  rewrite !Hrow.
  split; [reflexivity|]. split; [reflexivity|]. split; [reflexivity|].
  split; [reflexivity|]. split.
  { intros H. unfold fahrenheit_int. now rewrite wrap64_small. }
  split; [apply whole_as_float|]. repeat split.
Qed.

Lemma transform_whole_degrees_witness :
  exists df,
    fst (transform (whole_frame whole_sample) sample_env initial_state) = Return df /\
    cell df 3 "temperature_f" = Some (PFloat 71.6) /\
    cell df 3 "temp_category" = Some (PStr "Warm") /\
    cell df 0 "data_quality" = Some (PStr "Suspicious") /\
    cell df 4 "temp_category" = Some (PStr "Hot").
Proof.
  destruct (transform_whole_degrees sample_env initial_state whole_sample) as (df & Hrun & _ & H).
  - repeat constructor.
  - exists df. rewrite Hrun. split; [reflexivity|].
    destruct (H 3 sample_observation 22%Z eq_refl) as (_ & Hc3 & _ & Hf3 & _).
    destruct (H 0 sample_observation (-60)%Z eq_refl) as (_ & _ & Hq0 & _).
    destruct (H 4 sample_observation 51%Z eq_refl) as (_ & Hc4 & _).
    split; [exact Hf3|]. split; [exact Hc3|]. split; [exact Hq0|exact Hc4].
Defined.

(** ** extract: requests and log *)

(** X7: when every fetch succeeds, [extract] has sent exactly one request
    per location, in the order of the list, each to the weather endpoint
    with the location as 'q', the credential as 'appid' and 'units' set to
    'metric'; it has logged one line per location between its first and
    last lines, has left the clock and the database alone, and the frame has
    the twelve source columns in the order of the record. *)
Theorem extract_sends_one_request_per_location (env : Env) (st : State)
  (cities : list string) (key : string) :
  API_KEY env = Some key ->
  key <> "" ->
  (forall i city,
     nth_error cities i = Some city ->
     exists record,
       location_outcome env (List.length (requests_sent st) + i) (Some key) city
       = Return record) ->
  exists df st',
    extract_cities cities env st = (Return df, st') /\
    requests_sent st'
    = requests_sent st
      ++ map (fun city =>
                {| url := "https://api.openweathermap.org/data/2.5/weather";
                   params := [("q", city); ("appid", key); ("units", "metric")] |})
             cities /\
    log st'
    = log st
      ++ [(INFO, Msg "Starting extraction phase...")]
      ++ map (fun city => (INFO, MsgStr "Extracted weather data for " city)) cities
      ++ [(INFO, MsgLen "Extracted weather data for " (List.length cities) " cities")] /\
    clock_reads st' = clock_reads st /\
    db_trace st' = db_trace st /\
    (cities <> [] -> columns df = observation_columns).
Proof.
  intros Hkey Hne Hall.
  assert (Hnot : not_key (API_KEY env) = false).
  { rewrite Hkey. cbn. now apply String.eqb_neq. }
  rewrite extract_cities_run by assumption. rewrite Hkey in *.
  destruct (outcomes_all env (Some key) cities _ Hall)
    as (records & Hout & _ & Hlen & Hnth).
  rewrite Hout. eexists _, _. split; [reflexivity|].
  unfold loop_state. cbn [requests_sent log clock_reads db_trace with_log].
  rewrite firstn_all2 by lia. split; [reflexivity|].
  split; [rewrite Hlen, <- app_assoc; reflexivity|].
  split; [reflexivity|]. split; [reflexivity|].
  intros Hcities. apply pd_DataFrame_columns.
  - apply Forall_forall. intros r Hr.
    destruct (In_nth_error _ _ Hr) as [i Hi].
    assert (Hlt : i < List.length cities).
    { rewrite <- Hlen. apply nth_error_Some. congruence. }
    destruct (nth_error cities i) as [city|] eqn:Hc;
      [|apply nth_error_None in Hc; lia].
    destruct (Hnth i city Hc) as (r' & Hr' & Hloc).
    assert (r' = r) by congruence. subst r'.
    now apply location_outcome_keys in Hloc.
  - intros ->. destruct cities; [contradiction|discriminate].
Qed.

Lemma extract_sends_one_request_per_location_witness :
  exists df st',
    extract_cities CITIES sample_env initial_state = (Return df, st') /\
    List.length (requests_sent st') = 5 /\
    columns df = observation_columns.
Proof.
  destruct (extract_sends_one_request_per_location sample_env initial_state CITIES
              "0123456789abcdef" eq_refl)
    as (df & st' & Hrun & Hreq & _ & _ & _ & Hcols).
  - discriminate.
  - intros i city _. eexists. reflexivity.
  - exists df, st'. split; [exact Hrun|]. split.
    + rewrite Hreq. reflexivity.
    + apply Hcols. discriminate.
Defined.



(** ** create_table *)

(** X9: with a server that answers, [create_table] can be run twice in a
    row: both runs succeed and the second changes nothing.  A table that
    existed is the same table afterwards; one that did not exist is created
    empty with the columns of the statement. *)
Theorem create_table_idempotent (env : Env) (st : State) :
  (forall n, db_fault env n = false) ->
  exists st1 st2 t,
    create_table env st = (Return PNone, st1) /\
    create_table env st1 = (Return PNone, st2) /\
    database st1 = Some t /\
    database st2 = Some t /\
    (database st = None -> schema t = table_columns /\ records t = []) /\
    (forall t0, database st = Some t0 -> t = t0).
Proof.
  intros Hfault.
  exists (table_ready st), (table_ready (table_ready st)), (destination st).
  split; [now apply create_table_succeeds|].
  split; [now apply create_table_succeeds|].
  split; [reflexivity|]. split; [reflexivity|].
  unfold destination. split.
  - intros ->. split; reflexivity.
  - intros t0 ->. reflexivity.
Qed.

Lemma create_table_idempotent_witness :
  exists st1 st2 t,
    create_table sample_env initial_state = (Return PNone, st1) /\
    create_table sample_env st1 = (Return PNone, st2) /\
    database st1 = Some t /\ database st2 = Some t /\ records t = [].
Proof.
  destruct (create_table_idempotent sample_env initial_state (fun _ => eq_refl))
    as (st1 & st2 & t & H1 & H2 & Hd1 & Hd2 & Hnew & _).
  exists st1, st2, t. repeat split; try assumption.
  now apply Hnew.
Defined.

(** X10: whatever happens, [create_table] leaves an existing table as it
    is; when it fails, the exception is logged and raised again and the
    database is as before (no table is left half made); when it succeeds
    the table exists. *)
Theorem create_table_keeps_existing_table (env : Env) (st : State)
  (r : result pyval) (st' : State) :
  create_table env st = (r, st') ->
  (forall t, database st = Some t -> database st' = Some t) /\
  match r with
  | Return v => v = PNone /\ exists t, database st' = Some t
  | Raise e =>
      database st' = database st /\
      In (ERROR, MsgExn "Error creating table: " e) (log st')
  end.
Proof.
  intros H. apply create_table_outcome in H. destruct r as [v|e].
  - destruct H as [-> ->]. split.
    + intros t Ht. unfold table_ready, destination. cbn [database]. now rewrite Ht.
    + split; [reflexivity|]. eexists. reflexivity.
  - destruct H as (_ & Hdb & _ & (l & Hl) & _). split.
    + intros t Ht. now rewrite Hdb.
    + split; [exact Hdb|]. rewrite Hl. apply in_or_app. right. simpl. auto.
Qed.

Lemma create_table_keeps_existing_table_witness :
  exists st1 t,
    create_table sample_env (loaded sample_env sample_enriched initial_state)
    = (Return PNone, st1) /\
    database (loaded sample_env sample_enriched initial_state) = Some t /\
    database st1 = Some t /\ List.length (records t) = 1.
Proof.
  assert (Hrun : create_table sample_env (loaded sample_env sample_enriched initial_state)
                 = (Return PNone, table_ready (loaded sample_env sample_enriched initial_state)))
    by (vm_compute; reflexivity).
  destruct (create_table_keeps_existing_table _ _ _ _ Hrun) as [Hkeep _].
  eexists _, _. split; [exact Hrun|]. split; [reflexivity|].
  split; [apply Hkeep; reflexivity|reflexivity].
Defined.

(** ** load: connections, table, refusals *)


Lemma rmap_total {A B} (f : A -> result B) (l : list A) :
  (forall a, In a l -> exists b, f a = Return b) ->
  exists bs, rmap f l = Return bs.
Proof.
  induction l as [|a l IH]; intros H; cbn [rmap]; [now eexists|].
  destruct (H a (or_introl eq_refl)) as [b ->].
  destruct IH as [bs ->]; [intros a' Ha'; apply H; now right|].
  cbn [rbind]. now eexists.
Qed.

Lemma adapt_page (page : list (list pyval)) :
  forallb (forallb adaptable) page = true ->
  exists u, rmap (rmap adapt) page = Return u.
Proof.
  intros H. apply rmap_total. intros t Ht.
  rewrite forallb_forall in H. specialize (H t Ht).
  apply rmap_total. intros v Hv.
  rewrite forallb_forall in H. specialize (H v Hv).
  unfold adaptable in H. destruct (adapt v) as [u|]; [now exists u|discriminate].
Qed.










Lemma paginate_first {A} (n : nat) (seq : list A) :
  forall page i,
    page ++ seq <> [] ->
    exists p ps, _paginate n seq page i = p :: ps /\ incl p (page ++ seq).
Proof.
  induction seq as [|a seq IH]; intros page i Hne; cbn [_paginate].
  - rewrite app_nil_r in *. destruct page; [contradiction|].
    eexists _, _. split; [reflexivity|apply incl_refl].
  - destruct (Nat.eqb (S i) n).
    + eexists _, _. split; [reflexivity|].
      intros x Hx. apply in_app_or in Hx. apply in_or_app.
      destruct Hx as [Hx|[Hx|[]]]; [now left|right; now left].
    + destruct (IH (page ++ [a]) (S i)) as (p & ps & Hp & Hincl).
      { now destruct page. }
      exists p, ps. split; [exact Hp|]. now rewrite <- app_assoc in Hincl.
Qed.

Lemma rmap_plain (cs : list string) :
  forallb plain_identifier cs = true -> rmap column_name cs = Return (map fold_case cs).
Proof.
  induction cs as [|c cs IH]; [reflexivity|].
  cbn [forallb rmap map]. intros H. apply andb_prop in H. destruct H as [Hc Hcs].
  unfold column_name at 1. rewrite Hc, (IH Hcs). reflexivity.
Qed.

(** The server stops at the first name the table does not have, when the
    names before it are distinct columns of the table. *)
Lemma check_targets_undefined (sch : list (string * sqltype)) (c : string)
  (rest : list string) :
  column_type sch c = None ->
  forall pre seen,
    NoDup pre ->
    (forall c', In c' pre -> column_type sch c' <> None /\ mem c' seen = false) ->
    check_targets sch seen (pre ++ c :: rest) = Raise (UndefinedColumn c).
Proof.
  intros Hc. induction pre as [|a pre IH]; intros seen Hnd Hpre; cbn [app check_targets].
  - now rewrite Hc.
  - destruct (Hpre a (or_introl eq_refl)) as [Ha Hseen].
    destruct (column_type sch a); [|contradiction]. rewrite Hseen.
    inversion Hnd as [|? ? Hnotin Hnd']; subst.
    apply IH; [exact Hnd'|]. intros c' Hc'.
    destruct (Hpre c' (or_intror Hc')) as [Hty Hmem]. split; [exact Hty|].
    unfold mem in *. cbn [index_of].
    destruct (String.eqb_spec a c') as [->|_]; [contradiction|].
    now destruct (index_of c' seen).
Qed.

(** X13: when the table lacks a column of the frame (a table made with
    another schema), the server refuses the first INSERT: [load] raises
    UndefinedColumn for the first such column, read in lower case, logs
    it, and commits no row.  The frame has rows, every label is a plain
    identifier, the labels before the missing one name distinct columns of
    the table, every value can be written into the statement, and the
    server answers. *)
Theorem load_refuses_unknown_column (df : DataFrame) (env : Env) (st : State)
  (pre : list string) (c : string) (rest : list string) :
  (forall n, db_fault env n = false) ->
  rows df <> [] ->
  Forall (fun t => List.length t = List.length (columns df)) (rows df) ->
  forallb (forallb adaptable) (rows df) = true ->
  forallb plain_identifier (columns df) = true ->
  map fold_case (columns df) = pre ++ c :: rest ->
  NoDup pre ->
  (forall c', In c' pre -> column_type (schema (destination st)) c' <> None) ->
  column_type (schema (destination st)) c = None ->
  exists st',
    load df env st = (Raise (UndefinedColumn c), st') /\
    committed st' = committed st /\
    In (ERROR, MsgExn "Error loading data: " (UndefinedColumn c)) (log st').
Proof.
  intros Hfault Hrows Hlen Hadapt Hplain Hnames Hnd Hpre Hc.
  assert (Hcheck : check_targets (schema (destination st)) [] (map fold_case (columns df))
                   = Raise (UndefinedColumn c)).
  { rewrite Hnames. apply check_targets_undefined; [exact Hc|exact Hnd|].
    intros c' Hc'. split; [now apply Hpre|reflexivity]. }
  assert (Hrun : fst (load df env st) = Raise (UndefinedColumn c)).
  { rewrite load_stages. unfold db_step at 1. rewrite Hfault.
    rewrite create_table_succeeds by assumption.
    unfold execute_values, itertuples.
    destruct (paginate_first 100 (rows df) [] 0) as (p & ps & -> & Hincl);
      [assumption|].
    cbn [app] in Hincl. cbn [execute_pages]. unfold bind at 1. unfold execute_page.
    assert (Hwf : forallb (fun t => Nat.eqb (List.length t) (List.length (columns df))) p
                  = true).
    { apply forallb_forall. intros t Ht. apply Nat.eqb_eq.
      rewrite Forall_forall in Hlen. now apply Hlen, Hincl. }
    rewrite Hwf.
    assert (Hp : forallb (forallb adaptable) p = true).
    { apply forallb_forall. intros t Ht.
      rewrite forallb_forall in Hadapt. now apply Hadapt, Hincl. }
    destruct (adapt_page p Hp) as [us Hus].
    unfold bind at 1, lift. rewrite Hus.
    unfold cursor_execute, bind, db_step. rewrite Hfault.
    rewrite (rmap_plain _ Hplain).
    destruct (map fold_case (columns df)) as [|name names] eqn:Hfolded;
      [discriminate Hcheck|].
    rewrite database_with_db. unfold table_ready at 1. cbn [database].
    change (destination (with_db _ _ _)) with (destination st).
    rewrite Hcheck. reflexivity. }
  destruct (load df env st) as [r st'] eqn:Hload. cbn [fst] in Hrun. subst r.
  exists st'. split; [reflexivity|]. now apply (load_raises df env).
Qed.

Lemma load_refuses_unknown_column_witness :
  exists st',
    load sample_enriched sample_env legacy_state = (Raise (UndefinedColumn "country"), st') /\
    committed st' = [].
Proof.
  destruct (load_refuses_unknown_column sample_enriched sample_env legacy_state
              ["city"] "country"
              ["temperature"; "feels_like"; "humidity"; "pressure"; "wind_speed";
               "weather_main"; "weather_description"; "timestamp"; "sunrise"; "sunset";
               "etl_timestamp"; "day_night"; "temperature_f"; "feels_like_f";
               "temp_category"; "data_quality"]
              (fun _ => eq_refl)) as (st' & Hrun & Hc & _).
  - discriminate.
  - repeat constructor.
  - reflexivity.
  - reflexivity.
  - reflexivity.
  - repeat constructor. intros [].
  - intros c' [<-|[]]. discriminate.
  - reflexivity.
  - exists st'. split; assumption.
Defined.




(** ** The whole pipeline *)

(** When the loop ends, every location has its record. *)
Lemma outcomes_Return (env : Env) (key : option string) (cities : list string) :
  forall n records,
    outcomes env n key cities = Return records ->
    List.length records = List.length cities /\
    forall i city,
      nth_error cities i = Some city ->
      exists record,
        nth_error records i = Some record /\
        location_outcome env (n + i) key city = Return record.
Proof.
  induction cities as [|c rest IH]; intros n records H; cbn [outcomes] in H.
  - injection H as <-. split; [reflexivity|]. intros [|i] city Hi; discriminate Hi.
  - destruct (location_outcome env n key c) as [record|] eqn:Hc; [|discriminate].
    cbn [rbind] in H.
    destruct (outcomes env (S n) key rest) as [records'|] eqn:Hrest; [|discriminate].
    injection H as <-. destruct (IH _ _ Hrest) as [Hlen Hnth].
    split; [simpl; now rewrite Hlen|].
    intros [|i] city Hi.
    + injection Hi as <-. exists record. now rewrite Nat.add_0_r.
    + rewrite <- Nat.add_succ_comm. now apply Hnth.
Qed.

(** The frame [transform] returns depends on the state only through the
    reading of the clock. *)
Lemma transform_frame_clock (df : DataFrame) (env : Env) (s st : State) :
  clock_reads s = clock_reads st ->
  fst (transform df env s) = fst (transform df env st).
Proof.
  intros E.
  unfold transform, bind, try_except, lift, logger_info, logger_error, datetime_now,
    ret, raise, Exception.
  cbn [fst snd clock_reads with_log]. rewrite E.
  repeat (match goal with
          | |- context [match ?x with Return _ => _ | Raise _ => _ end] =>
              lazymatch x with
              | match _ with _ => _ end => fail
              | _ => destruct x
              end
          end; cbn [fst snd]).
  all: reflexivity.
Qed.

Lemma zip_with_length {A B C} (f : A -> B -> C) (l : list A) :
  forall m, List.length m = List.length l -> List.length (zip_with f l m) = List.length l.
Proof.
  induction l as [|a l IH]; intros [|b m] H; try discriminate; [reflexivity|].
  cbn. f_equal. apply IH. now injection H.
Qed.

Lemma set_column_len (df df' : DataFrame) (c : string) (s : Series) :
  set_column df c s = Return df' -> len df' = len df.
Proof.
  unfold set_column. destruct (Nat.eqb_spec (List.length s) (len df)) as [E|]; [|discriminate].
  cbn [negb]. destruct (index_of c (columns df)); intros H; injection H as <-;
    unfold len in *; cbn [rows]; now apply zip_with_length.
Qed.

Lemma set_scalar_len (df df' : DataFrame) (c : string) (v : pyval) :
  set_scalar df c v = Return df' -> len df' = len df.
Proof. apply set_column_len. Qed.

Lemma loc_set_len (df df' : DataFrame) (mask : list bool) (c : string) (v : pyval) :
  loc_set df mask c v = Return df' -> len df' = len df.
Proof.
  unfold loc_set. destruct (Nat.eqb_spec (List.length mask) (len df)) as [E|]; [|discriminate].
  cbn [negb]. destruct (index_of c (columns df)); intros H; injection H as <-;
    unfold len in *; cbn [rows]; now apply zip_with_length.
Qed.

(** [transform] returns as many rows as it was given. *)
Lemma transform_len (df df' : DataFrame) (env : Env) (st st' : State) :
  transform df env st = (Return df', st') -> len df' = len df.
Proof.
  unfold transform, bind, try_except, lift, logger_info, logger_error, datetime_now,
    ret, raise, Exception.
  intros H. cbn [fst snd] in H.
  repeat (match type of H with
          | context [match ?x with Return _ => _ | Raise _ => _ end] =>
              lazymatch x with
              | match _ with _ => _ end => fail
              | _ => destruct x eqn:?
              end
          end; cbn [fst snd] in H; try discriminate H).
  injection H as <- _.
  repeat match goal with
         | E : set_column _ _ _ = Return _ |- _ => apply set_column_len in E
         | E : set_scalar _ _ _ = Return _ |- _ => apply set_scalar_len in E
         | E : loc_set _ _ _ _ = Return _ |- _ => apply loc_set_len in E
         end.
  congruence.
Qed.

(** X15: when [run_etl_pipeline] returns, every city of CITIES has been
    fetched: its answer had a status outside 400 to 599 and a well-formed
    body.  The frame handed to [transform] is the frame of the five
    readings, [transform] has returned a frame of five rows (the enriched
    frame, when the readings are observations of the data model), and
    exactly those five rows have been committed after the rows that were
    there, each value in the column of its name.  One reading of the clock
    and five requests were made, and the last log line reports the
    completion. *)
Theorem pipeline_loads_one_row_per_city (env : Env) (st : State) (v : pyval)
  (st' : State) :
  run_etl_pipeline env st = (Return v, st') ->
  exists readings raw df,
    (forall i city,
       nth_error CITIES i = Some city ->
       exists r wd,
         http env (List.length (requests_sent st) + i) (weather_request (API_KEY env) city)
         = Some r /\
         http_error (status_code r) = false /\
         body r = Some wd /\ well_formed env wd = true /\
         nth_error readings i = Some (reading env city wd)) /\
    List.length readings = List.length CITIES /\
    raw = pd_DataFrame readings /\
    fst (transform raw env st) = Return df /\
    len df = List.length CITIES /\
    (forall obs,
       raw = observations_frame obs ->
       df = enriched_frame (wall_clock env (clock_reads st)) obs) /\
    committed st'
    = committed st
      ++ stored_rows env (schema (destination st)) (columns df)
           (sequence (destination st)) (rows df) /\
    List.length (committed st') = List.length (committed st) + List.length CITIES /\
    clock_reads st' = S (clock_reads st) /\
    List.length (requests_sent st') = List.length (requests_sent st) + List.length CITIES /\
    last (log st') pipeline_starts = pipeline_completes.
Proof.
  unfold run_etl_pipeline, try_except, bind at 1, logger_info at 1, bind at 1.
  fold pipeline_starts.
  set (st0 := with_log st (log st ++ [pipeline_starts])).
  destruct (extract env st0) as [[raw|e] st1] eqn:He.
  2:{ unfold Exception, bind, logger_error, raise. discriminate. }
  unfold bind at 1.
  destruct (transform raw env st1) as [[df|e] st2] eqn:Ht.
  2:{ unfold Exception, bind, logger_error, raise. discriminate. }
  unfold bind at 1.
  destruct (load df env st2) as [[w|e] st3] eqn:Hl.
  2:{ unfold Exception, bind, logger_error, raise. discriminate. }
  unfold bind, logger_info, ret. intros H. injection H as _ <-.
  (* extract *)
  assert (Hkey : not_key (API_KEY env) = false).
  { destruct (not_key (API_KEY env)) eqn:Hk; [|reflexivity].
    revert He. unfold extract, extract_cities, bind, logger_info, os_getenv_API_KEY.
    rewrite Hk. discriminate. }
  destruct (extract_leaves_database _ _ _ _ _ He) as (Hc1 & Ht1 & Hd1).
  unfold extract in He. rewrite extract_cities_run in He by assumption.
  change (requests_sent st0) with (requests_sent st) in He.
  destruct (outcomes env _ (API_KEY env) CITIES) as [recs|] eqn:Hout;
    [|discriminate He].
  injection He as <- Hst1.
  assert (Hq1 : List.length (requests_sent st1)
                = List.length (requests_sent st) + List.length CITIES).
  { rewrite <- Hst1. unfold loop_state. cbn [requests_sent with_log].
    subst st0. cbn [requests_sent with_log].
    rewrite length_app, length_map, firstn_all2 by (cbn; lia). reflexivity. }
  clear Hst1.
  destruct (outcomes_Return _ _ _ _ _ Hout) as [Hlen Hnth].
  (* transform *)
  assert (Hst2 := transform_outcome _ _ _ _ _ Ht). cbv iota in Hst2.
  assert (Hlen2 := transform_len _ _ _ _ _ Ht).
  (* load *)
  apply load_outcome in Hl. destruct Hl as (Hq3 & Hc3 & _ & -> & _).
  exists recs, (pd_DataFrame recs), df.
  split.
  { intros i city Hi. destruct (Hnth i city Hi) as (record & Hr & Hloc).
    destruct (fetch_fails env (List.length (requests_sent st) + i)
                (weather_request (API_KEY env) city)) eqn:Hf.
    - destruct (location_outcome_failed _ _ _ _ Hf) as (e & He & _). congruence.
    - destruct (location_outcome_fetched _ _ _ _ Hf) as (r & wd & Hh & Hs & Hb & Hread).
      exists r, wd. split; [exact Hh|]. split; [exact Hs|]. split; [exact Hb|].
      split; [|congruence].
      unfold fetch_fails in Hf. rewrite Hh, Hs, Hb in Hf. cbn [orb] in Hf.
      now apply negb_false_iff in Hf. }
  split; [exact Hlen|]. split; [reflexivity|].
  split.
  { rewrite <- (transform_frame_clock _ env _ st Hc1), Ht. reflexivity. }
  split.
  { rewrite Hlen2. unfold len, pd_DataFrame. cbn [rows]. now rewrite length_map. }
  split.
  { intros obs Hobs. rewrite Hobs, transform_observations in Ht.
    injection Ht as <- _. now rewrite Hc1. }
  assert (Hdest : destination st2 = destination st).
  { unfold destination. rewrite Hst2. cbn [database after_transform]. now rewrite Hd1. }
  assert (Hcom : forall l,
            committed (with_log (loaded env df st2) l)
            = committed st
              ++ stored_rows env (schema (destination st)) (columns df)
                   (sequence (destination st)) (rows df)).
  { intros l. unfold committed at 1. rewrite database_with_log.
    unfold loaded. cbn [database records].
    now rewrite Hdest, <- committed_destination. }
  split; [apply Hcom|].
  split.
  { rewrite Hcom, length_app, stored_rows_length. f_equal.
    fold (len df). rewrite Hlen2. unfold len, pd_DataFrame. cbn [rows].
    now rewrite length_map. }
  split; [rewrite clock_with_log, Hc3, Hst2; cbn [clock_reads after_transform];
          now rewrite Hc1|].
  split; [rewrite requests_with_log, Hq3, Hst2; cbn [requests_sent after_transform];
          exact Hq1|].
  rewrite log_with_log. apply last_last.
Qed.

Lemma sample_pipeline_run :
  fst (run_etl_pipeline sample_env initial_state) = Return PNone.
Proof. vm_compute. reflexivity. Qed.

Lemma pipeline_loads_one_row_per_city_witness :
  exists st',
    run_etl_pipeline sample_env initial_state = (Return PNone, st') /\
    List.length (committed st') = 5 /\ clock_reads st' = 1.
Proof.
  destruct (run_etl_pipeline sample_env initial_state) as [r st'] eqn:Hrun.
  assert (Hr := sample_pipeline_run). rewrite Hrun in Hr. cbn [fst] in Hr. subst r.
  destruct (pipeline_loads_one_row_per_city sample_env initial_state PNone st' Hrun)
    as (recs & raw & df & _ & _ & _ & _ & _ & _ & _ & Hrows & Hclock & _).
  exists st'. split; [reflexivity|]. split; [exact Hrows|exact Hclock].
Defined.

(** X16: the last line [run_etl_pipeline] logs tells its result
    (completion, or the failure with its exception), and the database is
    reached only after [extract] and [transform] have both succeeded: when
    either raises, no database operation takes place. *)
Theorem pipeline_reaches_database_only_after_transform (env : Env) (st : State)
  (r : result pyval) (st' : State) :
  run_etl_pipeline env st = (r, st') ->
  last (log st') pipeline_starts
  = match r with
    | Return _ => pipeline_completes
    | Raise e => pipeline_fails e
    end /\
  ((db_trace st' = db_trace st /\ database st' = database st) \/
   exists raw st1 df st2,
     extract env (with_log st (log st ++ [pipeline_starts])) = (Return raw, st1) /\
     transform raw env st1 = (Return df, st2) /\
     db_trace st2 = db_trace st /\ database st2 = database st).
Proof.
  unfold run_etl_pipeline, try_except, bind at 1, logger_info at 1, bind at 1.
  fold pipeline_starts.
  destruct (extract env (with_log st (log st ++ [pipeline_starts]))) as [r1 st1] eqn:He.
  destruct (extract_leaves_database _ _ _ _ _ He) as (_ & Ht1 & Hd1).
  cbn [db_trace database with_log] in Ht1, Hd1.
  destruct r1 as [raw|e].
  - unfold bind at 1.
    destruct (transform raw env st1) as [r2 st2] eqn:Ht.
    assert (Hst2 := transform_outcome _ _ _ _ _ Ht).
    destruct r2 as [df|e].
    + unfold bind at 1. destruct (load df env st2) as [r3 st3].
      destruct r3 as [v|e]; unfold bind, logger_info, logger_error, ret, raise, Exception;
        intros H; injection H as <- <-; (split; [cbn [log with_log]; apply last_last|]);
        right; exists raw, st1, df, st2;
        (split; [reflexivity|]); (split; [exact Ht|]); subst st2; split; assumption.
    + unfold Exception, bind, logger_error, raise. intros H. injection H as <- <-.
      split; [cbn [log with_log]; apply last_last|].
      left. subst st2. split; assumption.
  - unfold Exception, bind, logger_error, raise. intros H. injection H as <- <-.
    split; [cbn [log with_log]; apply last_last|].
    left. split; assumption.
Qed.

Lemma pipeline_reaches_database_only_after_transform_witness :
  exists st',
    run_etl_pipeline failing_env initial_state = (Raise (HTTPError 404), st') /\
    last (log st') pipeline_starts = pipeline_fails (HTTPError 404) /\
    db_trace st' = [].
Proof.
  destruct (run_etl_pipeline failing_env initial_state) as [r st'] eqn:Hrun.
  assert (Hr : r = Raise (HTTPError 404)).
  { assert (H : fst (run_etl_pipeline failing_env initial_state) = Raise (HTTPError 404))
      by (vm_compute; reflexivity).
    rewrite Hrun in H. exact H. }
  subst r.
  destruct (pipeline_reaches_database_only_after_transform _ _ _ _ Hrun) as [Hlast _].
  exists st'. split; [reflexivity|]. split; [exact Hlast|].
  assert (H : db_trace (snd (run_etl_pipeline failing_env initial_state)) = [])
    by (vm_compute; reflexivity).
  rewrite Hrun in H. exact H.
Defined.

(** A run on answers that mix whole and fractional numbers: the
    temperatures stay integers, the feels-like column becomes float64, and
    the humidity of 60.5 is stored in its INTEGER column as 61. *)
Example pipeline_on_mixed_numbers :
  exists st' t,
    run_etl_pipeline mixed_env initial_state = (Return PNone, st') /\
    database st' = Some t /\
    List.length (records t) = 5 /\
    table_cell t 0 "id" = Some (PInt 1) /\
    table_cell t 0 "temperature" = Some (PInt 22) /\
    table_cell t 0 "temperature_f" = Some (PFloat 71.6) /\
    table_cell t 0 "temp_category" = Some (PStr "Warm") /\
    table_cell t 0 "feels_like" = Some (PFloat 21) /\
    table_cell t 1 "feels_like" = Some (PFloat 20.5) /\
    table_cell t 0 "humidity" = Some (PInt 60) /\
    table_cell t 2 "humidity" = Some (PInt 61).
Proof.
  eexists _, _. split; [vm_compute; reflexivity|].
  split; [reflexivity|]. repeat split; vm_compute; reflexivity.
Qed.
